(** * wrfpyx: WRF output to GFS-style forcing metadata

    A shallow embedding of [src/wrfpyx.py] (the helper [element_exists] and
    the dispatch function [wrf2gfs_params]) together with the parts of the
    Python run time the function leans on: [datetime] arithmetic,
    [datetime.strptime], numpy arrays with [squeeze], indexing and
    broadcasting, and the consistency checks of [xarray.Dataset].

    Conventions.
    - Python [str] values are [string]s of ASCII characters; [str.upper]
      and the character classes of [strptime] are the ASCII ones.
    - Python [float] is IEEE binary64, modelled by the kernel's primitive
      floats. The element type of a NetCDF field is kept abstract behind
      the class [DType], with the instances [binary64] and [binary32].
    - A file is what [xr.open_dataset] returns for it; the files there are
      form a finite map from paths.
    - A call runs in the monad [M]: it threads what was printed on standard
      output and ends in a value or in a raised exception.
    - metpy's humidity formula is an operation of [DType], not modelled
      further. The maximum [DataArray.max] takes is an operation of [DType]
      too; on float data it is numpy's [nanmax], given as [np.nanmax]. *)

From Stdlib Require Import ZArith List String Ascii Lia DecimalString.
From Stdlib Require Import Floats.PrimFloat Floats.FloatOps.
From Stdlib Require Floats.FloatAxioms Floats.SpecFloat.
From Stdlib Require Import Numbers.Cyclic.Int63.Uint63.
From stdpp Require Import base option list gmap strings.

#[local] Set Warnings "-inexact-float".
#[local] Open Scope string_scope.
#[local] Open Scope list_scope.
#[local] Open Scope Z_scope.

(** ** Exceptions, results and the output monad *)

Inductive exn : Type :=
  | FileNotFoundError (path : string)
  | KeyError (key : string)
  | AttributeError (name : string)
  | IndexError
  | ValueError
  | UnboundLocalError (name : string).

Inductive result (A : Type) : Type :=
  | Ok (a : A)
  | Raise (e : exn).
Arguments Ok {A} a.
Arguments Raise {A} e.

(** [stdout] is the list of lines printed so far, oldest first. *)
Definition stdout : Type := list string.

Definition M (A : Type) : Type := stdout -> stdout * result A.

Definition ret {A} (a : A) : M A := fun out => (out, Ok a).
Definition raise {A} (e : exn) : M A := fun out => (out, Raise e).
Definition bind {A B} (m : M A) (k : A -> M B) : M B :=
  fun out => match m out with
             | (out', Ok a) => k a out'
             | (out', Raise e) => (out', Raise e)
             end.
Definition print (line : string) : M unit := fun out => (out ++ [line], Ok tt).
Definition lift {A} (e : exn) (o : option A) : M A :=
  match o with Some a => ret a | None => raise e end.
Definition of_result {A} (r : result A) : M A := fun out => (out, r).

Notation "x <- m ;; k" := (bind m (fun x => k))
  (at level 100, m at next level, right associativity).
Notation "m ;;; k" := (bind m (fun _ => k))
  (at level 100, right associativity).

(** ** [datetime]: dates, differences, ordering *)

Module datetime.

(** A naive [datetime.datetime]; [strptime] without [%f] leaves the
    microsecond at 0, so the field is left out. *)
Record t : Type := mk
  { year : Z; month : Z; day : Z; hour : Z; minute : Z; second : Z }.

(** [datetime.timedelta], normalised: [0 <= seconds < 86400]. *)
Record timedelta : Type := mk_delta { days : Z; seconds : Z }.

Definition _is_leap (y : Z) : bool :=
  (y mod 4 =? 0) && (negb (y mod 100 =? 0) || (y mod 400 =? 0)).

Definition _days_before_year (y : Z) : Z :=
  let y := y - 1 in y * 365 + y / 4 - y / 100 + y / 400.

Definition _DAYS_IN_MONTH : list Z :=
  [-1; 31; 28; 31; 30; 31; 30; 31; 31; 30; 31; 30; 31].

Definition _DAYS_BEFORE_MONTH : list Z :=
  [-1; 0; 31; 59; 90; 120; 151; 181; 212; 243; 273; 304; 334].

Definition _days_in_month (y m : Z) : Z :=
  if (m =? 2) && _is_leap y then 29 else nth (Z.to_nat m) _DAYS_IN_MONTH 0.

Definition _days_before_month (y m : Z) : Z :=
  nth (Z.to_nat m) _DAYS_BEFORE_MONTH 0
  + (if (2 <? m) && _is_leap y then 1 else 0).

Definition _ymd2ord (y m d : Z) : Z :=
  _days_before_year y + _days_before_month y m + d.

Definition toordinal (x : t) : Z := _ymd2ord (year x) (month x) (day x).

(** The checks of the constructor ([_check_date_fields],
    [_check_time_fields]); a failure is a [ValueError]. *)
Definition valid (x : t) : bool :=
  (1 <=? year x) && (year x <=? 9999)
  && (1 <=? month x) && (month x <=? 12)
  && (1 <=? day x) && (day x <=? _days_in_month (year x) (month x))
  && (0 <=? hour x) && (hour x <=? 23)
  && (0 <=? minute x) && (minute x <=? 59)
  && (0 <=? second x) && (second x <=? 59).

Definition new (y m d hh mm ss : Z) : option t :=
  let x := mk y m d hh mm ss in if valid x then Some x else None.

(** [timedelta(days, seconds)]: the seconds are carried into the days
    with [divmod]. *)
Definition timedelta_new (d s : Z) : timedelta :=
  mk_delta (d + s / 86400) (s mod 86400).

Definition secs_of_day (x : t) : Z :=
  second x + minute x * 60 + hour x * 3600.

(** [datetime.__sub__] *)
Definition sub (a b : t) : timedelta :=
  timedelta_new (toordinal a - toordinal b) (secs_of_day a - secs_of_day b).

(** [datetime.__le__]: the fields are compared as tuples. *)
Fixpoint tuple_le (a b : list Z) : bool :=
  match a, b with
  | x :: a', y :: b' => (x <? y) || ((x =? y) && tuple_le a' b')
  | [], _ => true
  | _ :: _, [] => false
  end.

Definition fields (x : t) : list Z :=
  [year x; month x; day x; hour x; minute x; second x].

Definition le (a b : t) : bool := tuple_le (fields a) (fields b).

End datetime.

(** ** [datetime.strptime]

    [_strptime] turns the format into a regular expression (one group of
    ordered alternatives per directive, a run of white space into [\s+]),
    matches it at the start of the data with backtracking, refuses data left
    over, and hands the converted fields to the [datetime] constructor.
    Every failure is a [ValueError], here [None]. *)

Module strptime.

Inductive directive : Type := dir_Y | dir_m | dir_d | dir_H | dir_M | dir_S.

Inductive token : Type :=
  | Lit (c : ascii)
  | Dir (d : directive)
  | Ws.

Definition chr (x c : ascii) : bool := Ascii.eqb x c.

Definition in_range (lo hi c : ascii) : bool :=
  (nat_of_ascii lo <=? nat_of_ascii c)%nat
  && (nat_of_ascii c <=? nat_of_ascii hi)%nat.

Definition digit : ascii -> bool := in_range "0" "9".

(** [\s] on ASCII: tab to carriage return, the four separators, space. *)
Definition space (c : ascii) : bool :=
  let n := nat_of_ascii c in
  ((9 <=? n) && (n <=? 13) || (28 <=? n) && (n <=? 32))%nat.

(** The alternatives of each directive, in the order of [TimeRE]. *)
Definition regex (d : directive) : list (list (ascii -> bool)) :=
  match d with
  | dir_Y => [[digit; digit; digit; digit]]
  | dir_m => [[chr "1"; in_range "0" "2"]; [chr "0"; in_range "1" "9"];
              [in_range "1" "9"]]
  | dir_d => [[chr "3"; in_range "0" "1"]; [in_range "1" "2"; digit];
              [chr "0"; in_range "1" "9"]; [in_range "1" "9"];
              [chr " "; in_range "1" "9"]]
  | dir_H => [[chr "2"; in_range "0" "3"]; [in_range "0" "1"; digit]; [digit]]
  | dir_M => [[in_range "0" "5"; digit]; [digit]]
  | dir_S => [[chr "6"; in_range "0" "1"]; [in_range "0" "5"; digit]; [digit]]
  end.

Definition directive_of (c : ascii) : option directive :=
  if chr "Y" c then Some dir_Y else if chr "m" c then Some dir_m
  else if chr "d" c then Some dir_d else if chr "H" c then Some dir_H
  else if chr "M" c then Some dir_M else if chr "S" c then Some dir_S
  else None.

Fixpoint compile (format : list ascii) : option (list token) :=
  match format with
  | [] => Some []
  | c :: format' =>
      if chr "%" c then
        match format' with
        | [] => None
        | x :: format'' =>
            match directive_of x, compile format'' with
            | Some d, Some ts => Some (Dir d :: ts)
            | _, _ => None
            end
        end
      else
        match compile format' with
        | Some ts =>
            if space c
            then Some (match ts with Ws :: _ => ts | _ => Ws :: ts end)
            else Some (Lit c :: ts)
        | None => None
        end
  end.

(** One alternative: a fixed sequence of character classes. *)
Fixpoint match_seq (cls : list (ascii -> bool)) (s : list ascii)
  : option (list ascii * list ascii) :=
  match cls with
  | [] => Some ([], s)
  | p :: cls' =>
      match s with
      | c :: s' =>
          if p c then
            match match_seq cls' s' with
            | Some (m, r) => Some (c :: m, r)
            | None => None
            end
          else None
      | [] => None
      end
  end.

Fixpoint first_some {A B} (f : A -> option B) (l : list A) : option B :=
  match l with
  | [] => None
  | x :: l' => match f x with Some y => Some y | None => first_some f l' end
  end.

(** [int(text)] of a matched group: decimal digits, a leading blank of
    [%d] skipped. *)
Definition int (m : list ascii) : Z :=
  fold_left (fun acc c => if digit c then acc * 10 + (Z.of_nat (nat_of_ascii c) - 48) else acc) m 0.

Definition found : Type := list (directive * Z).

Definition directive_eqb (a b : directive) : bool :=
  match a, b with
  | dir_Y, dir_Y | dir_m, dir_m | dir_d, dir_d
  | dir_H, dir_H | dir_M, dir_M | dir_S, dir_S => true
  | _, _ => false
  end.

Fixpoint get (d : directive) (default : Z) (f : found) : Z :=
  match f with
  | [] => default
  | (d', v) :: f' => if directive_eqb d d' then v else get d default f'
  end.

Fixpoint span_length (p : ascii -> bool) (s : list ascii) : nat :=
  match s with
  | c :: s' => if p c then S (span_length p s') else O
  | [] => O
  end.

(** Backtracking match of the token list at the start of [s]: the first
    success in the order a regular-expression engine tries them (the
    alternatives of a group left to right, [\s+] longest first). *)
Fixpoint match_tokens (ts : list token) (s : list ascii) (acc : found)
  : option (found * list ascii) :=
  match ts with
  | [] => Some (acc, s)
  | Lit c :: ts' =>
      match s with
      | c' :: s' => if chr c c' then match_tokens ts' s' acc else None
      | [] => None
      end
  | Ws :: ts' =>
      first_some (fun k => match_tokens ts' (skipn k s) acc)
                 (rev (seq 1 (span_length space s)))
  | Dir d :: ts' =>
      first_some
        (fun cls => match match_seq cls s with
                    | Some (m, r) => match_tokens ts' r ((d, int m) :: acc)
                    | None => None
                    end)
        (regex d)
  end.

Definition strptime (data_string format : string) : option datetime.t :=
  match compile (list_ascii_of_string format) with
  | None => None
  | Some ts =>
      match match_tokens ts (list_ascii_of_string data_string) [] with
      | Some (f, []) =>
          datetime.new (get dir_Y 1900 f) (get dir_m 1 f) (get dir_d 1 f)
                       (get dir_H 0 f) (get dir_M 0 f) (get dir_S 0 f)
      | _ => None
      end
  end.

End strptime.

(** ** Python scalars: [float], [str], [repr] *)

(** [float(z)] for an [int] that a binary64 holds exactly. *)
Definition float_of_int (z : Z) : float := PrimFloat.of_uint63 (Uint63.of_Z z).

(** [str(z)] for an [int]. *)
Definition str (z : Z) : string := DecimalString.NilZero.string_of_int (Z.to_int z).

Definition upper_ascii (c : ascii) : ascii :=
  let n := nat_of_ascii c in
  if ((97 <=? n) && (n <=? 122))%nat then ascii_of_nat (n - 32) else c.

(** [str.upper] *)
Fixpoint upper (s : string) : string :=
  match s with
  | EmptyString => EmptyString
  | String c s' => String (upper_ascii c) (upper s')
  end.

Fixpoint join (sep : string) (l : list string) : string :=
  match l with
  | [] => EmptyString
  | [x] => x
  | x :: l' => x +:+ sep +:+ join sep l'
  end.

(** [repr] of a list of plain strings, as [print] shows it. *)
Definition repr_list (l : list string) : string :=
  "[" +:+ join ", " (map (fun s => "'" +:+ s +:+ "'") l) +:+ "]".

(** [str == list]: neither type knows how to compare with the other, so
    Python answers [False] whatever the operands. *)
Definition str_eq_list {A} (s : string) (l : list A) : bool := false.

Definition zfill2 (z : Z) : string :=
  if z <? 10 then "0" +:+ str z else str z.

(** ** numpy arrays *)

Module np.

(** An [ndarray]: its shape and its elements in row-major order. *)
Record ndarray (A : Type) : Type := mk { shape : list nat; data : list A }.
Arguments mk {A} shape data.
Arguments shape {A} _.
Arguments data {A} _.

Definition size (s : list nat) : nat := fold_right Nat.mul 1%nat s.

(** What numpy guarantees of every array it hands out. *)
Definition wf {A} (a : ndarray A) : Prop := length (data a) = size (shape a).

Definition ndim {A} (a : ndarray A) : nat := length (shape a).

(** [a.squeeze()]: the axes of length one are dropped. *)
Definition squeeze {A} (a : ndarray A) : ndarray A :=
  mk (List.filter (fun n => negb (n =? 1)%nat) (shape a)) (data a).

(** [a op scalar] *)
Definition map {A B} (f : A -> B) (a : ndarray A) : ndarray B :=
  mk (shape a) (List.map f (data a)).

(** [a[np.newaxis, :, :]]: two axes at least are asked for; further
    axes are kept. *)
Definition newaxis_2 {A} (a : ndarray A) : result (ndarray A) :=
  if (ndim a <? 2)%nat then Raise IndexError
  else Ok (mk (1%nat :: shape a) (data a)).

(** [a[np.newaxis, np.newaxis, :, :]] *)
Definition newaxis_newaxis_2 {A} (a : ndarray A) : result (ndarray A) :=
  if (ndim a <? 2)%nat then Raise IndexError
  else Ok (mk (1%nat :: 1%nat :: shape a) (data a)).

(** Every [m]-th element, [n] of them: column 0 of an [n] by [m] grid. *)
Fixpoint stride {A} (n m : nat) (d : list A) : list A :=
  match n with
  | O => []
  | S n' => match d with
            | [] => []
            | x :: _ => x :: stride n' m (skipn m d)
            end
  end.

(** [a[0, :]] on a two-dimensional array *)
Definition row0 {A} (n m : nat) (d : list A) : result (ndarray A) :=
  if (n =? 0)%nat then Raise IndexError else Ok (mk [m] (firstn m d)).

(** [a[:, 0]] on a two-dimensional array *)
Definition col0 {A} (n m : nat) (d : list A) : result (ndarray A) :=
  if (m =? 0)%nat then Raise IndexError else Ok (mk [n] (stride n m d)).

(** Broadcasting: shapes are aligned on the right, and along each axis
    the lengths agree or one of them is 1. *)
Fixpoint broadcast_rev (s1 s2 : list nat) : option (list nat) :=
  match s1, s2 with
  | [], s | s, [] => Some s
  | a :: s1', b :: s2' =>
      match broadcast_rev s1' s2' with
      | None => None
      | Some s =>
          if (a =? b)%nat then Some (a :: s)
          else if (a =? 1)%nat then Some (b :: s)
          else if (b =? 1)%nat then Some (a :: s)
          else None
      end
  end.

Definition broadcast_shapes (s1 s2 : list nat) : option (list nat) :=
  match broadcast_rev (rev s1) (rev s2) with
  | Some s => Some (rev s)
  | None => None
  end.

Definition pad (k : nat) (s : list nat) : list nat :=
  repeat 1%nat (k - length s) ++ s.

(** Block [i] of the blocks of [size s] elements [d] is cut into. *)
Definition chunk {A} (s : list nat) (i : nat) (d : list A) : list A :=
  firstn (size s) (skipn (i * size s) d).

(** The elements of [a op b] for shapes of one length: along an axis of
    length 1 the single block is used again for every index. *)
Fixpoint broadcast_data {A B C} (op : A -> B -> C) (sa sb : list nat)
    (da : list A) (db : list B) : list C :=
  match sa, sb with
  | na :: sa', nb :: sb' =>
      flat_map
        (fun i => broadcast_data op sa' sb'
                    (chunk sa' (if (na =? 1)%nat then O else i) da)
                    (chunk sb' (if (nb =? 1)%nat then O else i) db))
        (seq 0 (if (na =? 1)%nat then nb else na))
  | _, _ =>
      match da, db with
      | x :: _, y :: _ => [op x y]
      | _, _ => []
      end
  end.

(** [a op b], elementwise with broadcasting; shapes that do not
    broadcast are a [ValueError]. *)
Definition binop {A B C} (op : A -> B -> C) (a : ndarray A) (b : ndarray B)
  : result (ndarray C) :=
  match broadcast_shapes (shape a) (shape b) with
  | None => Raise ValueError
  | Some s =>
      let k := length s in
      Ok (mk s (broadcast_data op (pad k (shape a)) (pad k (shape b))
                               (data a) (data b)))
  end.

(** Position of an axis among [n :: rest]: blocks before it, its
    length, elements per step after it. *)
Definition reduce_axis {A} (f : list A -> A) (axis : nat) (a : ndarray A)
  : ndarray A :=
  let pre := firstn axis (shape a) in
  let n := nth axis (shape a) 1%nat in
  let post := skipn (S axis) (shape a) in
  mk (pre ++ post)
     (flat_map
        (fun p =>
           List.map
             (fun q => f (stride n (size post)
                            (skipn (p * (n * size post) + q) (data a))))
             (seq 0 (size post)))
        (seq 0 (size pre))).

(** [np.fmax] on floats, as the loop of [np.fmax.reduce] has it:
    [io1 = (io1 >= in2 || npy_isnan(in2)) ? io1 : in2]. *)
Definition fmax (x1 x2 : float) : float :=
  if (PrimFloat.leb x2 x1 || PrimFloat.is_nan x2)%bool then x1 else x2.

(** [np.nanmax] along an axis of a float array, one slice at a time:
    [np.fmax.reduce], so that NaN is skipped and a slice of NaN alone
    gives NaN. It is what [DataArray.max] runs on float data. A slice
    without elements raises before the reduction; [nan] stands there. *)
Definition nanmax (column : list float) : float :=
  match column with
  | [] => nan
  | x :: rest => fold_left fmax rest x
  end.

End np.

(** ** Element types of NetCDF fields *)

(** The arithmetic of a field's dtype. A Python scalar on the right of an
    array is cast to the dtype first ([of_pyfloat]); [nanmax] is the
    reduction [DataArray.max] runs on a non-empty list; [sh2rh_percent] is
    metpy's [relative_humidity_from_specific_humidity] on hPa, degrees
    Celsius and specific humidity, converted to percent. *)
Class DType (F : Type) : Type := {
  fadd : F -> F -> F;
  fsub : F -> F -> F;
  fdiv : F -> F -> F;
  of_pyfloat : float -> F;
  nanmax : list F -> F;
  sh2rh_percent : F -> F -> F -> F
}.

(** float64 fields: Python's own arithmetic. *)
Definition binary64 (nanmax64 : list float -> float)
    (sh2rh64 : float -> float -> float -> float) : DType float := {|
  fadd := PrimFloat.add;
  fsub := PrimFloat.sub;
  fdiv := PrimFloat.div;
  of_pyfloat := fun x => x;
  nanmax := nanmax64;
  sh2rh_percent := sh2rh64
|}.

(** Rounding to binary32, the element type WRF writes. *)
Module float32.

(** Nearest integer, ties to even, of [0 <= y < 2^52]. *)
Definition rint (y : float) : float := ((y + 0x1p52) - 0x1p52)%float.

(** The binary32 nearest to a binary64, ties to even, kept as the
    binary64 of the same value: the last place is [2^(e-24)] for a
    value in [[2^(e-1), 2^e)], never below [2^-149], and what reaches
    [2^128] is infinite. *)
Definition round (x : float) : float :=
  if (PrimFloat.is_nan x || PrimFloat.is_infinity x || PrimFloat.is_zero x)%bool
  then x
  else
    let e := snd (Z.frexp x) in
    let q := Z.max (e - 24) (-149) in
    let r := Z.ldexp (rint (Z.ldexp (abs x) (- q))) q in
    let r := if PrimFloat.leb 0x1p128 r then infinity else r in
    if PrimFloat.ltb x 0 then (- r)%float else r.

End float32.

(** float32 fields: an operation on two binary32 values is the binary64
    one rounded once more (53 bits are enough for that to be the correctly
    rounded binary32 result); a Python scalar is rounded on entry. *)
Definition binary32 (nanmax32 : list float -> float)
    (sh2rh32 : float -> float -> float -> float) : DType float := {|
  fadd := fun x y => float32.round (x + y)%float;
  fsub := fun x y => float32.round (x - y)%float;
  fdiv := fun x y => float32.round (x / y)%float;
  of_pyfloat := float32.round;
  nanmax := nanmax32;
  sh2rh_percent := sh2rh32
|}.

(** ** xarray: what is read and what is built *)

Definition attrs : Type := list (string * string).

Section xarray.

Context {F : Type}.

(** A variable of an opened file: its dimension names and its data. *)
Record DataArray : Type := mk_DataArray
  { dims : list string; values : np.ndarray F }.

(** The dataset [xr.open_dataset] returns: the byte strings of [Times]
    (the one variable that is not numeric), the global attribute
    [START_DATE], and the numeric variables by name. *)
Record SourceDataset : Type := mk_SourceDataset
  { Times : option (list string);
    START_DATE : option string;
    variables : gmap string DataArray }.

Inductive coord_data : Type :=
  | Ints (l : list Z)
  | Floats (a : np.ndarray F).

Record xr_Variable : Type := mk_Variable
  { v_dims : list string; v_data : coord_data; v_attrs : attrs }.

Record Dataset : Type := mk_Dataset
  { data_vars : list (string * xr_Variable);
    coords : list (string * xr_Variable) }.

Definition data_shape (d : coord_data) : list nat :=
  match d with
  | Ints l => [length l]
  | Floats a => np.shape a
  end.

(** [Variable(dims, data)]: as many names as axes. *)
Definition dims_match (v : xr_Variable) : bool :=
  (length (v_dims v) =? length (data_shape (v_data v)))%nat.

Definition dim_sizes (v : xr_Variable) : list (string * nat) :=
  combine (v_dims v) (data_shape (v_data v)).

(** A dimension has one length across all the variables. *)
Definition consistent (sizes : list (string * nat)) : bool :=
  forallb (fun x => forallb (fun y =>
    implb (String.eqb (fst x) (fst y)) (snd x =? snd y)%nat) sizes) sizes.

(** [xr.Dataset(data_vars, coords=coords)] *)
Definition xr_Dataset (dv co : list (string * xr_Variable)) : result Dataset :=
  let vars := List.map snd (dv ++ co) in
  if forallb dims_match vars && consistent (flat_map dim_sizes vars)
  then Ok (mk_Dataset dv co)
  else Raise ValueError.

(** [xr.Dataset()] *)
Definition empty_Dataset : Dataset := mk_Dataset [] [].

(** [xr.open_dataset] over the files there are. *)
Definition open_dataset (fs : gmap string SourceDataset) (path : string)
  : M SourceDataset :=
  lift (FileNotFoundError path) (fs !! path).

(** [nc[name].data[:].squeeze()]: a missing name is a [KeyError], and
    [data[:]] on an array without axes an [IndexError]. *)
Definition getitem_squeezed (nc : SourceDataset) (name : string)
  : result (np.ndarray F) :=
  match variables nc !! name with
  | None => Raise (KeyError name)
  | Some v =>
      if (np.ndim (values v) =? 0)%nat then Raise IndexError
      else Ok (np.squeeze (values v))
  end.

(** [list(nc.variables.keys())] *)
Definition variable_keys (nc : SourceDataset) : list string :=
  (match Times nc with Some _ => ["Times"] | None => [] end)
  ++ List.map fst (map_to_list (variables nc)).

End xarray.

Arguments DataArray F : clear implicits.
Arguments SourceDataset F : clear implicits.
Arguments xr_Variable F : clear implicits.
Arguments Dataset F : clear implicits.
Arguments coord_data F : clear implicits.

(** ** The module [wrfpyx] *)

(** [lst.index(element)]; [None] stands for the [ValueError]. *)
Fixpoint index (lst : list string) (element : string) : option nat :=
  match lst with
  | [] => None
  | x :: lst' =>
      if String.eqb x element then Some O
      else match index lst' element with
           | Some i => Some (S i)
           | None => None
           end
  end.

Definition element_exists (lst : list string) (element : string) : bool :=
  match index lst element with
  | Some _ => true
  | None => false
  end.

(** The keyword arguments the function reads. *)
Record kwargs : Type := mk_kwargs
  { yearsince : option Z; step_b : option string }.

Definition attrs_ground : attrs :=
  [("units", "m");
   ("long_name", "Specified height level above ground");
   ("standard_name", "depth");
   ("axis", "Z");
   ("positive", "up");
   ("_CoordinateAxisType", "Height");
   ("_CoordinateZisPositive", "up");
   ("datum", "ground")].

Definition attrs_lat : attrs :=
  [("units", "degrees_north"); ("_CoordinateAxisType", "Lat");
   ("axis", "Y"); ("standard_name", "latitude")].

Definition attrs_lon : attrs :=
  [("units", "degrees_east"); ("_CoordinateAxisType", "Lon");
   ("axis", "X"); ("standard_name", "longitude")].

Definition attrs_u : attrs :=
  [("units", "meter_second-1");
   ("long_name", "u-component of wind @ Specified height level above ground");
   ("standard_name", "x_wind");
   ("_FillValue", "NaN"); ("missing_value", "NaN"); ("abbreviation", "UGRD")].

Definition attrs_v : attrs :=
  [("units", "meter_second-1");
   ("long_name", "v-component of wind @ Specified height level above ground");
   ("standard_name", "y_wind");
   ("_FillValue", "NaN"); ("missing_value", "NaN"); ("abbreviation", "VGRD")].

Definition attrs_t2 : attrs :=
  [("units", "Celsius");
   ("long_name", "Temperature @ Specified height level above ground");
   ("_FillValue", "NaN"); ("missing_value", "NaN"); ("abbreviation", "TMP")].

Definition attrs_rh : attrs :=
  [("units", "percentage");
   ("long_name", "Relative humidity @ Specified height level above ground");
   ("_FillValue", "NaN"); ("missing_value", "NaN"); ("abbreviation", "RH")].

Definition attrs_ps : attrs :=
  [("units", "millibar");
   ("long_name", "Pressure @ Ground or water surface");
   ("_FillValue", "NaN"); ("missing_value", "NaN"); ("abbreviation", "PRES")].

Definition attrs_cl : attrs :=
  [("units", "nondimensional");
   ("long_name", "Total cloud cover @ Entire atmosphere");
   ("_FillValue", "NaN"); ("missing_value", "NaN"); ("abbreviation", "TCDC")].

Definition attrs_pr : attrs :=
  [("units", "kilogram_meter-2_second-1");
   ("long_name", "Precipitation rate @ Ground or water surface");
   ("_FillValue", "NaN"); ("missing_value", "NaN"); ("abbreviation", "PRATE")].

Definition attrs_lw : attrs :=
  [("units", "watt_meter-2");
   ("long_name", "Downward Long-Wave Rad. Flux (Mixed_intervals Average) @ Ground or water surface");
   ("_FillValue", "NaN"); ("missing_value", "NaN"); ("abbreviation", "DLWRF")].

Definition attrs_sw : attrs :=
  [("units", "watt_meter-2");
   ("long_name", "Downward Short-Wave Radiation Flux (Mixed_intervals Average) @ Ground or water surface");
   ("_FillValue", "NaN"); ("missing_value", "NaN"); ("abbreviation", "DSWRF")].

(** *** Time (lines 123-158 and 169) *)

(** [hours = c.seconds/(60*60)] with [c = b - start_date]: a true division
    of two small integers, that is the binary64 quotient. *)
Definition lead_hours (b start_date : datetime.t) : float :=
  let c := datetime.sub b start_date in
  (float_of_int (datetime.seconds c) / float_of_int (60 * 60))%float.

(** [date_sice = strptime(str(yearsice)+'0101 00','%Y%m%d %H')] *)
Definition date_sice (yearsice : Z) : option datetime.t :=
  strptime.strptime (str yearsice +:+ "0101 00") "%Y%m%d %H".

(** [hours_since = delta.days*24 + int(b.hour)] with [delta = b - date_sice] *)
Definition hours_since (b since : datetime.t) : Z :=
  let delta := datetime.sub b since in
  datetime.days delta * 24 + datetime.hour b.

(** [date_sice.strftime('%Y-%m-%dT%H:00:00Z')]; the year has four digits
    whenever [date_sice] exists. *)
Definition strftime_since (d : datetime.t) : string :=
  str (datetime.year d) +:+ "-" +:+ zfill2 (datetime.month d) +:+ "-"
  +:+ zfill2 (datetime.day d) +:+ "T" +:+ zfill2 (datetime.hour d) +:+ ":00:00Z".

Section wrfpyx.

Context {F : Type} {dtype : DType F}.

(** The local variables the dispatch reads, as lines 107-171 leave them. *)
Record locals : Type := mk_locals
  { nc : SourceDataset F;
    hours : float;
    time_value : Z;
    lat : np.ndarray F;
    lon : np.ndarray F;
    attrs_time : attrs }.

(** [yearsice = kwargs.get('yearsince', None)] and the branch after it:
    a true value is announced, [None] becomes the start year, and a false
    value that is not [None] (the integer 0) is kept as it is. *)
Definition resolve_yearsice (kw : kwargs) (start_date : datetime.t) : M Z :=
  match yearsince kw with
  | Some y =>
      if negb (y =? 0) then
        print EmptyString ;;;
        print ("* Times units variable was set by user  -> yearsince:" +:+ str y) ;;;
        print EmptyString ;;;
        ret y
      else ret y
  | None => ret (datetime.year start_date)
  end.

(** [if len(lon.shape) == 2: lon = lon[0,:].copy()] *)
Definition collapse_lon (lon : np.ndarray F) : result (np.ndarray F) :=
  match np.shape lon with
  | [n; m] => np.row0 n m (np.data lon)
  | _ => Ok lon
  end.

(** [if len(lat.shape) == 2: lat = lat[:,0].copy()] *)
Definition collapse_lat (lat : np.ndarray F) : result (np.ndarray F) :=
  match np.shape lat with
  | [n; m] => np.col0 n m (np.data lat)
  | _ => Ok lat
  end.

Definition prologue (fs : gmap string (SourceDataset F)) (namefile : string)
    (kw : kwargs) : M locals :=
  nc <- open_dataset fs namefile ;;
  times <- lift (KeyError "Times") (Times nc) ;;
  a <- lift IndexError (head times) ;;
  b <- lift ValueError (strptime.strptime a "%Y-%m-%d_%H:00:00") ;;
  attr <- lift (AttributeError "START_DATE") (START_DATE nc) ;;
  start_date <- lift ValueError (strptime.strptime attr "%Y-%m-%d_%H:%M:%S") ;;
  let hours := lead_hours b start_date in
  yearsice <- resolve_yearsice kw start_date ;;
  since <- lift ValueError (date_sice yearsice) ;;
  lon <- of_result (getitem_squeezed nc "XLONG") ;;
  lat <- of_result (getitem_squeezed nc "XLAT") ;;
  lon <- of_result (collapse_lon lon) ;;
  lat <- of_result (collapse_lat lat) ;;
  let attrs_time :=
    [("units", "hours since " +:+ strftime_since since);
     ("calendar", "proleptic_gregorian")] in
  ret (mk_locals nc hours (hours_since b since) lat lon attrs_time).

(** *** Building the output (the [xr.Dataset(...)] of every branch) *)

Definition coords_surface (l : locals) : list (string * xr_Variable F) :=
  [("time", mk_Variable ["time"] (Ints [time_value l]) (attrs_time l));
   ("lat", mk_Variable ["lat"] (Floats (lat l)) attrs_lat);
   ("lon", mk_Variable ["lon"] (Floats (lon l)) attrs_lon)].

Definition coords_height (l : locals) : list (string * xr_Variable F) :=
  [("time", mk_Variable ["time"] (Ints [time_value l]) (attrs_time l));
   ("height_above_ground2",
     mk_Variable ["height_above_ground2"] (Ints [10]) attrs_ground);
   ("lat", mk_Variable ["lat"] (Floats (lat l)) attrs_lat);
   ("lon", mk_Variable ["lon"] (Floats (lon l)) attrs_lon)].

(** [{name: (("time", "lat", "lon"), ncvar[np.newaxis,:,:], attrs)}] with
    the coordinates [time], [lat], [lon] *)
Definition dataset_surface (l : locals) (name : string)
    (ncvar : np.ndarray F) (a : attrs) : M (Dataset F) :=
  field <- of_result (np.newaxis_2 ncvar) ;;
  of_result
    (xr_Dataset [(name, mk_Variable ["time"; "lat"; "lon"] (Floats field) a)]
                (coords_surface l)).

(** The same on [("time", "height_above_ground2", "lat", "lon")] with
    [ncvar[np.newaxis,np.newaxis,:,:]] *)
Definition dataset_height (l : locals) (name : string)
    (ncvar : np.ndarray F) (a : attrs) : M (Dataset F) :=
  field <- of_result (np.newaxis_newaxis_2 ncvar) ;;
  of_result
    (xr_Dataset
       [(name, mk_Variable ["time"; "height_above_ground2"; "lat"; "lon"]
                           (Floats field) a)]
       (coords_height l)).

(** *** The branches *)

(** The loop over [['PSFC', 'T2', 'Q2']]: how many are among the keys,
    and the ones that are not, in order. *)
Definition rh_scan (var_keys : list string) : nat * list string :=
  fold_left
    (fun st n =>
       if element_exists var_keys n then (S (fst st), snd st)
       else (fst st, snd st ++ [n]))
    ["PSFC"; "T2"; "Q2"] (O, []).

(** [sh2rh(pvar * units.hPa, tvar * units.degC, qvar).to('percent')] *)
Definition sh2rh (pvar tvar qvar : np.ndarray F) : result (np.ndarray F) :=
  match np.binop sh2rh_percent pvar tvar with
  | Ok pt => np.binop (fun f q => f q) pt qvar
  | Raise e => Raise e
  end.

Definition branch_rh (l : locals) : M (option (Dataset F)) :=
  let var_keys := variable_keys (nc l) in
  let '(counter, not_key) := rh_scan var_keys in
  if (counter =? 3)%nat then
    p <- of_result (getitem_squeezed (nc l) "PSFC") ;;
    let pvar := np.map (fun x => fdiv x (of_pyfloat 100)) p in
    t <- of_result (getitem_squeezed (nc l) "T2") ;;
    let tvar := np.map (fun x => fsub x (of_pyfloat 273.15)) t in
    qvar <- of_result (getitem_squeezed (nc l) "Q2") ;;
    rhvar <- of_result (sh2rh pvar tvar qvar) ;;
    ds <- dataset_surface l "Qair" rhvar attrs_rh ;;
    ret (Some ds)
  else
    print EmptyString ;;;
    print " - - - - - - - - - - - - - - -" ;;;
    print "not all variables available" ;;;
    print "program looking in file for : " ;;;
    print (repr_list not_key) ;;;
    print " - - - - - - - - - - - - - - -" ;;;
    ret None.

(** [nc.CLDFRA.max(dim='bottom_top')], then [.data[:].squeeze()]; a
    reduction along an axis of length 0 is a [ValueError], and [data[:]]
    on a result without axes an [IndexError]. *)
Definition branch_cldfra (l : locals) : M (option (Dataset F)) :=
  v <- lift (AttributeError "CLDFRA") (variables (nc l) !! "CLDFRA") ;;
  axis <- lift ValueError (index (dims v) "bottom_top") ;;
  if (nth axis (np.shape (values v)) 1 =? 0)%nat then raise ValueError
  else
    let reduced := np.reduce_axis nanmax axis (values v) in
    if (np.ndim reduced =? 0)%nat then raise IndexError
    else
      ds <- dataset_surface l "cloud" (np.squeeze reduced) attrs_cl ;;
      ret (Some ds).

(** The accumulated rain of the [if hours == 0: ... elif hours>0: ...]:
    with neither test true [ncvar] would stay unbound. *)
Definition pr_ncvar (fs : gmap string (SourceDataset F)) (l : locals)
    (step_b : string) : M (np.ndarray F) :=
  if PrimFloat.eqb (hours l) 0 then
    rainnc <- of_result (getitem_squeezed (nc l) "RAINNC") ;;
    rainc <- of_result (getitem_squeezed (nc l) "RAINC") ;;
    of_result (np.binop fadd rainnc rainc)
  else if PrimFloat.ltb 0 (hours l) then
    rainnc <- of_result (getitem_squeezed (nc l) "RAINNC") ;;
    rainc <- of_result (getitem_squeezed (nc l) "RAINC") ;;
    ncvar_now <- of_result (np.binop fadd rainnc rainc) ;;
    nc_before <- open_dataset fs step_b ;;
    rainnc <- of_result (getitem_squeezed nc_before "RAINNC") ;;
    rainc <- of_result (getitem_squeezed nc_before "RAINC") ;;
    ncvar_before <- of_result (np.binop fadd rainnc rainc) ;;
    of_result (np.binop fsub ncvar_now ncvar_before)
  else raise (UnboundLocalError "ncvar").

(** [if step_b: ... elif step_b == None: ...]: an empty path is false
    and is not [None], so neither arm runs. *)
Definition branch_pr (fs : gmap string (SourceDataset F)) (kw : kwargs)
    (l : locals) : M (option (Dataset F)) :=
  match step_b kw with
  | Some path =>
      if negb (String.eqb path EmptyString) then
        ncvar <- pr_ncvar fs l path ;;
        ds <- dataset_surface l "rain" ncvar attrs_pr ;;
        ret (Some ds)
      else ret None
  | None =>
      print EmptyString ;;;
      print "- - - - ERROR - - - - " ;;;
      print "must be defined step_b" ;;;
      print "- - - - - - - - - - - " ;;;
      print EmptyString ;;;
      ret (Some empty_Dataset)
  end.

(** The [if var == ... elif ...] chain. The result is the binding of
    [ds] when the chain is left: [None] when no arm assigned it. *)
Definition dispatch (fs : gmap string (SourceDataset F)) (kw : kwargs)
    (l : locals) (var : string) : M (option (Dataset F)) :=
  if String.eqb var "U10" then
    ncvar <- of_result (getitem_squeezed (nc l) var) ;;
    ds <- dataset_height l "Uwind" ncvar attrs_u ;;
    ret (Some ds)
  else if String.eqb var "V10" then
    ncvar <- of_result (getitem_squeezed (nc l) var) ;;
    ds <- dataset_height l "Vwind" ncvar attrs_v ;;
    ret (Some ds)
  else if String.eqb var "T2" then
    t <- of_result (getitem_squeezed (nc l) var) ;;
    let ncvar := np.map (fun x => fsub x (of_pyfloat 273.15)) t in
    ds <- dataset_surface l "Tair" ncvar attrs_t2 ;;
    ret (Some ds)
  else if String.eqb var "RH" then branch_rh l
  else if String.eqb var "PS" then
    p <- of_result (getitem_squeezed (nc l) "PSFC") ;;
    let ncvar := np.map (fun x => fdiv x (of_pyfloat 100)) p in
    ds <- dataset_surface l "Pair" ncvar attrs_ps ;;
    ret (Some ds)
  else if String.eqb var "CLDFRA" then branch_cldfra l
  else if String.eqb var "PR" then branch_pr fs kw l
  else if String.eqb var "LW" then
    ncvar <- of_result (getitem_squeezed (nc l) "GLW") ;;
    ds <- dataset_surface l "lwrad_down" ncvar attrs_lw ;;
    ret (Some ds)
  else if String.eqb var "SW" then
    ncvar <- of_result (getitem_squeezed (nc l) "SWDOWN") ;;
    ds <- dataset_surface l "swrad" ncvar attrs_sw ;;
    ret (Some ds)
  else if str_eq_list var (@nil unit) then
    print EmptyString ;;;
    print "- - - - ERROR - - - - " ;;;
    print "Not a valid variable" ;;;
    print "valid values : u10, v10, t2, rh, ps, cldfra, rain, sw, lw" ;;;
    print ("variable given:" +:+ var) ;;;
    print "- - - - - - - - - - - " ;;;
    print EmptyString ;;;
    ret (Some empty_Dataset)
  else ret None.

(** [return ds]: reading a local that was never bound raises. *)
Definition return_ds (ds : option (Dataset F)) : M (Dataset F) :=
  match ds with
  | Some d => ret d
  | None => raise (UnboundLocalError "ds")
  end.

Definition wrf2gfs_params (fs : gmap string (SourceDataset F))
    (namefile varname : string) (kw : kwargs) : M (Dataset F) :=
  l <- prologue fs namefile kw ;;
  let var := upper varname in
  ds <- dispatch fs kw l var ;;
  return_ds ds.

End wrfpyx.

(** ** Sample files *)

Module Sample.

(** The maximum of a float64 file is numpy's. *)
Definition nanmax64 (l : list float) : float := np.nanmax l.

(** A stand-in for metpy's formula. *)
Definition sh2rh64 (p t q : float) : float := (q * 100)%float.

Definition float64 : DType float := binary64 nanmax64 sh2rh64.

Definition dims3 : list string := ["Time"; "south_north"; "west_east"].

(** A field of one value over a 2 by 3 grid at one time. *)
Definition constant (x : float) : DataArray float :=
  mk_DataArray dims3 (np.mk [1; 2; 3]%nat (repeat x 6)).

Definition XLONG : DataArray float :=
  mk_DataArray dims3 (np.mk [1; 2; 3]%nat [1; 2; 3; 1; 2; 3]%float).

Definition XLAT : DataArray float :=
  mk_DataArray dims3 (np.mk [1; 2; 3]%nat [10; 10; 10; 20; 20; 20]%float).

(** A file without [Q2], [V10], [CLDFRA] and the radiation fluxes. *)
Definition wrfout (time start : string) (rainnc : float)
  : SourceDataset float :=
  mk_SourceDataset (Some [time]) (Some start)
    (list_to_map
       [("XLONG", XLONG); ("XLAT", XLAT); ("T2", constant 300);
        ("PSFC", constant 101325); ("U10", constant 3);
        ("RAINNC", constant rainnc); ("RAINC", constant 1)]).

Definition start : string := "2023-12-25_00:00:00".

Definition fs : gmap string (SourceDataset float) :=
  list_to_map
    [("wrfout_d01_2023-12-25_00", wrfout "2023-12-25_00:00:00" start 0);
     ("wrfout_d01_2023-12-25_05", wrfout "2023-12-25_05:00:00" start 3);
     ("wrfout_d01_2023-12-25_06", wrfout "2023-12-25_06:00:00" start 5);
     ("wrfout_d01_2023-12-27_00", wrfout "2023-12-27_00:00:00" start 9)].

Definition no_kwargs : kwargs := mk_kwargs None None.

(** The coordinates every sample file yields. *)
Definition lat : np.ndarray float := np.mk [2]%nat [10; 20]%float.
Definition lon : np.ndarray float := np.mk [3]%nat [1; 2; 3]%float.

Definition attrs_time : attrs :=
  [("units", "hours since 2023-01-01T00:00:00Z");
   ("calendar", "proleptic_gregorian")].

End Sample.

(** ** Quantities the statements below speak of *)

(** The quotient [z/(60*60)] as Python computes it. *)
Definition hours_of_seconds (z : Z) : float :=
  (float_of_int z / float_of_int (60 * 60))%float.

(** Seconds since the start of day 0 of the proleptic calendar. *)
Definition instant (x : datetime.t) : Z :=
  datetime.toordinal x * 86400 + datetime.secs_of_day x.

(** Row [i] of an [n] by [m] grid stored row by row. *)
Definition row {A} (m i : nat) (d : list A) : list A :=
  firstn m (skipn (i * m) d).

(** The data of the variable [name] of a dataset, when it is a field. *)
Definition field_data {F} (ds : Dataset F) (name : string) : option (list F) :=
  match List.find (fun x => String.eqb (fst x) name) (data_vars ds) with
  | Some (_, v) => match v_data v with
                   | Floats a => Some (np.data a)
                   | Ints _ => None
                   end
  | None => None
  end.

(** The keys [wrf2gfs_params] has an arm for. *)
Definition supported_keys : list string :=
  ["U10"; "V10"; "T2"; "RH"; "PS"; "CLDFRA"; "PR"; "LW"; "SW"].

(** What the branches on [hours] need of the quotient at [z] seconds. *)
Definition hours_of_seconds_ok (z : Z) : bool :=
  Bool.eqb (PrimFloat.eqb (hours_of_seconds z) 0) (z =? 0)
  && Bool.eqb (PrimFloat.ltb 0 (hours_of_seconds z)) (0 <? z)
  && PrimFloat.leb 0 (hours_of_seconds z)
  && PrimFloat.ltb (hours_of_seconds z) 24.

(** [P] on the [2^k] integers from [lo] on. *)
Fixpoint forall_block (k : nat) (lo : Z) (P : Z -> bool) : bool :=
  match k with
  | O => P lo
  | S k' => forall_block k' lo P && forall_block k' (lo + 2 ^ Z.of_nat k') P
  end.

(** Does the token read the directive [d]? *)
Definition reads (d : strptime.directive) (t : strptime.token) : bool :=
  match t with
  | strptime.Dir d' => strptime.directive_eqb d d'
  | _ => false
  end.

(** The formats of the two dates the file carries. *)
Definition format_valid_time : string := "%Y-%m-%d_%H:00:00".
Definition format_start_date : string := "%Y-%m-%d_%H:%M:%S".

(** One more day in a leap year. *)
Definition leap_day (y : Z) : Z := if datetime._is_leap y then 1 else 0.

(** Is [name] one of the numeric variables of the file? *)
Definition present {F} (nc : SourceDataset F) (name : string) : bool :=
  match variables nc !! name with
  | Some _ => true
  | None => false
  end.

(** The fields the relative humidity needs that the file lacks. *)
Definition rh_missing {F} (nc : SourceDataset F) : list string :=
  List.filter (fun n => negb (present nc n)) ["PSFC"; "T2"; "Q2"].

(** What the two refusals print. *)
Definition rh_diagnostic (not_key : list string) : list string :=
  [EmptyString;
   " - - - - - - - - - - - - - - -";
   "not all variables available";
   "program looking in file for : ";
   repr_list not_key;
   " - - - - - - - - - - - - - - -"].

Definition step_b_diagnostic : list string :=
  [EmptyString;
   "- - - - ERROR - - - - ";
   "must be defined step_b";
   "- - - - - - - - - - - ";
   EmptyString].

(** The dataset of a surface field: one variable on [(time, lat, lon)]
    over the coordinates of the call. *)
Definition surface_Dataset {F} (l : @locals F) (name : string)
    (n m : nat) (d : list F) (a : attrs) : Dataset F :=
  mk_Dataset
    [(name, mk_Variable ["time"; "lat"; "lon"]
                        (Floats (np.mk [1; n; m]%nat d)) a)]
    (coords_surface l).

(** The locals of a call on a sample file, given its lead time and its
    time coordinate. *)
Definition sample_locals (time : string) (rainnc hours : float)
    (time_value : Z) : @locals float :=
  mk_locals (Sample.wrfout time Sample.start rainnc) hours time_value
            Sample.lat Sample.lon Sample.attrs_time.

Definition sample_locals_00 : @locals float :=
  sample_locals "2023-12-25_00:00:00" 0 0 8592.

Definition sample_locals_06 : @locals float :=
  sample_locals "2023-12-25_06:00:00" 5 6 8598.

Definition sample_locals_27 : @locals float :=
  sample_locals "2023-12-27_00:00:00" 9 0 8640.

(** The zero-lead arm of the precipitation: the sum over the current
    file. *)
Definition current_accumulation {F} {dtype : DType F} (l : @locals F)
  : M (np.ndarray F) :=
  rainnc <- of_result (getitem_squeezed (nc l) "RAINNC") ;;
  rainc <- of_result (getitem_squeezed (nc l) "RAINC") ;;
  of_result (np.binop fadd rainnc rainc).

(** 300.0 - 273.15 in binary64, printed 26.850000000000023. *)
Definition celsius_of_300 : float := 0x1.ad999999999a0p+4%float.

(** 300.0 - 273.15 in binary32: 879821 / 32768. *)
Definition celsius32_of_300 : float := 26.850006103515625%float.

(** Values [struct.pack('f', x)] gives for these [x]. *)
Definition float32_table : list (float * float) :=
  [(273.15, 273.149993896484375); (26.85, 26.8500003814697265625);
   (0.1, 0.100000001490116119384765625); (16777217, 16777216);
   (16777219, 16777220); (1e-46, 0); (2.1e-45, 0x1p-149);
   (1e-40, 0x1.16c2p-133); (3.4028235e38, 0x1.fffffep+127);
   (1e39, infinity); (-273.15, -273.149993896484375)]%float.

(** *** Quantities of the further properties *)

(** The dataset of a wind component: one variable on
    [(time, height_above_ground2, lat, lon)] over the coordinates with the
    height. *)
Definition height_Dataset {F} (l : @locals F) (name : string)
    (n m : nat) (d : list F) (a : attrs) : Dataset F :=
  mk_Dataset
    [(name, mk_Variable ["time"; "height_above_ground2"; "lat"; "lon"]
                        (Floats (np.mk [1; 1; n; m]%nat d)) a)]
    (coords_height l).

(** The year the epoch is taken from. *)
Definition reference_year (kw : kwargs) (start_date : datetime.t) : Z :=
  match yearsince kw with
  | Some y => y
  | None => datetime.year start_date
  end.

(** The lines announcing a reference year set by the caller. *)
Definition yearsince_notice (kw : kwargs) : list string :=
  match yearsince kw with
  | Some y =>
      if negb (y =? 0) then
        [EmptyString;
         "* Times units variable was set by user  -> yearsince:" +:+ str y;
         EmptyString]
      else []
  | None => []
  end.

(** The epoch of a year of at most four digits: none below 100, the first
    of October of ten times the year for three digits, the first of January
    of the year for four. *)
Definition epoch_of_year (y : Z) : option datetime.t :=
  if y <? 100 then None
  else if y <? 1000 then Some (datetime.mk (10 * y) 10 1 0 0 0)
  else Some (datetime.mk y 1 1 0 0 0).

Definition datetime_eqb (a b : datetime.t) : bool :=
  forallb (fun p => fst p =? snd p)
          (combine (datetime.fields a) (datetime.fields b)).

Definition epoch_ok (y : Z) : bool :=
  match date_sice y, epoch_of_year y with
  | Some a, Some b => datetime_eqb a b
  | None, None => true
  | _, _ => false
  end.

(** The two layouts of a data variable: on [(time, lat, lon)], or on
    [(time, height_above_ground2, lat, lon)]. *)
Inductive layout : Type := Surface | Height.

(** What the arm of each key gives its data variable: the layout, the
    name and the attributes. *)
Definition output_field (var : string) : option (layout * string * attrs) :=
  if String.eqb var "U10" then Some (Height, "Uwind", attrs_u)
  else if String.eqb var "V10" then Some (Height, "Vwind", attrs_v)
  else if String.eqb var "T2" then Some (Surface, "Tair", attrs_t2)
  else if String.eqb var "RH" then Some (Surface, "Qair", attrs_rh)
  else if String.eqb var "PS" then Some (Surface, "Pair", attrs_ps)
  else if String.eqb var "CLDFRA" then Some (Surface, "cloud", attrs_cl)
  else if String.eqb var "PR" then Some (Surface, "rain", attrs_pr)
  else if String.eqb var "LW" then Some (Surface, "lwrad_down", attrs_lw)
  else if String.eqb var "SW" then Some (Surface, "swrad", attrs_sw)
  else None.

(** The field each copying arm reads with [nc[...]]. *)
Definition source_field (var : string) : option string :=
  if String.eqb var "U10" then Some "U10"
  else if String.eqb var "V10" then Some "V10"
  else if String.eqb var "T2" then Some "T2"
  else if String.eqb var "PS" then Some "PSFC"
  else if String.eqb var "LW" then Some "GLW"
  else if String.eqb var "SW" then Some "SWDOWN"
  else None.

(** The dataset of one field in a layout. *)
Definition field_Dataset {F} (l : @locals F) (lay : layout) (name : string)
    (n m : nat) (d : list F) (a : attrs) : Dataset F :=
  match lay with
  | Surface => surface_Dataset l name n m d a
  | Height => height_Dataset l name n m d a
  end.

(** [ds] holds exactly one data variable, [name] with the attributes [a],
    in the layout [lay] over the coordinates of [l]: one time (and one
    height) by the length of [lat] by the length of [lon]. *)
Definition one_field {F} (l : @locals F) (lay : layout) (name : string)
    (a : attrs) (ds : Dataset F) : Prop :=
  exists (n m : nat) (d : list F),
    np.shape (lat l) = [n] /\ np.shape (lon l) = [m]
    /\ ds = field_Dataset l lay name n m d a.

(** [r] is the maximum of the values of [column] that are not NaN: one of
    them, and not below any of them; or NaN when there is no such value. *)
Definition is_maximum_of (column : list float) (r : float) : Prop :=
  ((forall x, In x column -> PrimFloat.is_nan x = true)
   /\ PrimFloat.is_nan r = true)
  \/ (PrimFloat.is_nan r = false /\ In r column
      /\ forall x, In x column -> PrimFloat.is_nan x = false ->
                   PrimFloat.leb x r = true).

(** Level [lev], row [i], column [j] of a field of [k] levels over an
    [n] by [m] grid at one time, stored row-major. *)
Definition cell_index (n m lev i j : nat) : nat := ((lev * n + i) * m + j)%nat.

(** A file with the winds, the radiation fluxes and a cloud fraction of
    three levels over the 2 by 3 grid, some of its values missing. *)
Module More.

Definition dims4 : list string :=
  ["Time"; "bottom_top"; "south_north"; "west_east"].

Definition CLDFRA : DataArray float :=
  mk_DataArray dims4
    (np.mk [1; 3; 2; 3]%nat
       [0.1; 0.1; nan; 0.1; 0.1; 0.9;
        0.5; nan; nan; 0.5; 0.5; 0.5;
        0.3; 0.3; nan; 0.3; 0.3; 0.3]%float).

Definition wrfout : SourceDataset float :=
  mk_SourceDataset (Some ["2023-12-25_06:00:00"]) (Some Sample.start)
    (list_to_map
       [("XLONG", Sample.XLONG); ("XLAT", Sample.XLAT);
        ("U10", Sample.constant 3); ("V10", Sample.constant 4);
        ("PSFC", Sample.constant 101300);
        ("GLW", Sample.constant 350); ("SWDOWN", Sample.constant 600);
        ("CLDFRA", CLDFRA)]).

Definition fs : gmap string (SourceDataset float) :=
  list_to_map [("wrfout_d01_2023-12-25_06", wrfout)].

Definition locals_06 : @locals float :=
  mk_locals wrfout 6 8598 Sample.lat Sample.lon Sample.attrs_time.

(** A file whose T2 holds two times and whose U10 has a single row. *)
Definition wrfout_odd : SourceDataset float :=
  mk_SourceDataset (Some ["2023-12-25_06:00:00"]) (Some Sample.start)
    (list_to_map
       [("XLONG", Sample.XLONG); ("XLAT", Sample.XLAT);
        ("T2", mk_DataArray Sample.dims3
                 (np.mk [2; 2; 3]%nat (repeat 300%float 12)));
        ("U10", mk_DataArray Sample.dims3
                  (np.mk [1; 1; 3]%nat (repeat 3%float 3)))]).

Definition fs_odd : gmap string (SourceDataset float) :=
  list_to_map [("wrfout_d01_2023-12-25_06", wrfout_odd)].

Definition locals_odd : @locals float :=
  mk_locals wrfout_odd 6 8598 Sample.lat Sample.lon Sample.attrs_time.

End More.

(** ** Checks on concrete inputs *)

Example strptime_ex1 :
  strptime.strptime "2023-12-25_06:00:00" "%Y-%m-%d_%H:00:00"
  = Some (datetime.mk 2023 12 25 6 0 0).
Proof. reflexivity. Qed.

Example strptime_ex2 :
  strptime.strptime "2023-12-25_06:30:00" "%Y-%m-%d_%H:00:00" = None.
Proof. reflexivity. Qed.

Example strptime_ex3 :
  strptime.strptime "20230101 00" "%Y%m%d %H" = Some (datetime.mk 2023 1 1 0 0 0).
Proof. reflexivity. Qed.

Example strptime_ex4 :
  strptime.strptime "9990101 00" "%Y%m%d %H" = Some (datetime.mk 9990 10 1 0 0 0).
Proof. reflexivity. Qed.

Example strptime_ex5 :
  strptime.strptime "2023-02-29_06:00:00" "%Y-%m-%d_%H:00:00" = None.
Proof. reflexivity. Qed.

Example squeeze_ex :
  np.squeeze (np.mk [1; 2; 1; 3]%nat [1; 2; 3; 4; 5; 6])
  = np.mk [2; 3]%nat [1; 2; 3; 4; 5; 6].
Proof. reflexivity. Qed.

Example binop_same_shape_ex :
  np.binop Z.add (np.mk [2; 2]%nat [1; 2; 3; 4]) (np.mk [2; 2]%nat [10; 20; 30; 40])
  = Ok (np.mk [2; 2]%nat [11; 22; 33; 44]).
Proof. reflexivity. Qed.

Example binop_broadcast_ex :
  np.binop Z.add (np.mk [2; 3]%nat [1; 2; 3; 4; 5; 6]) (np.mk [3]%nat [10; 20; 30])
  = Ok (np.mk [2; 3]%nat [11; 22; 33; 14; 25; 36]).
Proof. reflexivity. Qed.

Example binop_broadcast_col_ex :
  np.binop Z.add (np.mk [2; 1]%nat [1; 2]) (np.mk [3]%nat [10; 20; 30])
  = Ok (np.mk [2; 3]%nat [11; 21; 31; 12; 22; 32]).
Proof. reflexivity. Qed.

Example binop_mismatch_ex :
  np.binop Z.add (np.mk [2; 3]%nat [1; 2; 3; 4; 5; 6]) (np.mk [2]%nat [10; 20])
  = Raise ValueError.
Proof. reflexivity. Qed.

Example reduce_axis_ex :
  np.reduce_axis (fun l => fold_right Z.max 0 l) 1
    (np.mk [1; 3; 1; 2]%nat [1; 5; 50; 2; 3; 30])
  = np.mk [1; 1; 2]%nat [50; 30].
Proof. reflexivity. Qed.

Example strptime_unpadded :
  strptime.strptime "2023-1-5_3:00:00" "%Y-%m-%d_%H:00:00"
  = Some (datetime.mk 2023 1 5 3 0 0).
Proof. reflexivity. Qed.

Example strptime_leap_second :
  strptime.strptime "2023-12-25_06:00:60" "%Y-%m-%d_%H:%M:%S" = None.
Proof. reflexivity. Qed.

Example strptime_trailing :
  strptime.strptime "2023-12-25_06:00:00 " "%Y-%m-%d_%H:00:00" = None.
Proof. reflexivity. Qed.

Example date_sice_two_digits : date_sice 99 = None.
Proof. reflexivity. Qed.

Example date_sice_five_digits : date_sice 12345 = None.
Proof. reflexivity. Qed.

Example sub_ex :
  datetime.sub (datetime.mk 2023 12 26 3 0 0) (datetime.mk 2023 12 25 6 30 10)
  = datetime.mk_delta 0 73790.
Proof. reflexivity. Qed.

Example sub_negative_ex :
  datetime.sub (datetime.mk 2023 12 25 6 30 10) (datetime.mk 2023 12 26 3 0 0)
  = datetime.mk_delta (-1) 12610.
Proof. reflexivity. Qed.

Example upper_ex : upper "cldfra" = "CLDFRA".
Proof. reflexivity. Qed.

Example repr_list_ex : repr_list ["T2"; "Q2"] = "['T2', 'Q2']".
Proof. reflexivity. Qed.

Example float32_round_ex :
  forallb (fun p => PrimFloat.eqb (float32.round (fst p)) (snd p)) float32_table
  = true.
Proof. vm_compute. reflexivity. Qed.

Example wrf2gfs_params_u10_ex :
  wrf2gfs_params (dtype := Sample.float64) Sample.fs
    "wrfout_d01_2023-12-25_06" "u10" Sample.no_kwargs []
  = ([],
     Ok (mk_Dataset
           [("Uwind",
             mk_Variable ["time"; "height_above_ground2"; "lat"; "lon"]
               (Floats (np.mk [1; 1; 2; 3]%nat (repeat 3%float 6))) attrs_u)]
           (coords_height sample_locals_06))).
Proof. vm_compute. reflexivity. Qed.

Example wrf2gfs_params_v10_ex :
  wrf2gfs_params (dtype := Sample.float64) Sample.fs
    "wrfout_d01_2023-12-25_06" "v10" Sample.no_kwargs []
  = ([], Raise (KeyError "V10")).
Proof. vm_compute. reflexivity. Qed.

Example wrf2gfs_params_cldfra_ex :
  wrf2gfs_params (dtype := Sample.float64) Sample.fs
    "wrfout_d01_2023-12-25_06" "cldfra" Sample.no_kwargs []
  = ([], Raise (AttributeError "CLDFRA")).
Proof. vm_compute. reflexivity. Qed.

Example wrf2gfs_params_no_file_ex :
  wrf2gfs_params (dtype := Sample.float64) Sample.fs
    "wrfout_d01_2023-12-25_07" "t2" Sample.no_kwargs []
  = ([], Raise (FileNotFoundError "wrfout_d01_2023-12-25_07")).
Proof. vm_compute. reflexivity. Qed.

Example wrf2gfs_params_yearsince_ex :
  fst (wrf2gfs_params (dtype := Sample.float64) Sample.fs
         "wrfout_d01_2023-12-25_06" "pr" (mk_kwargs (Some 2020) None) [])
  = [EmptyString;
     "* Times units variable was set by user  -> yearsince:2020";
     EmptyString] ++ step_b_diagnostic.
Proof. vm_compute. reflexivity. Qed.

Example wrf2gfs_params_empty_step_b_ex :
  wrf2gfs_params (dtype := Sample.float64) Sample.fs
    "wrfout_d01_2023-12-25_06" "pr" (mk_kwargs None (Some EmptyString)) []
  = ([], Raise (UnboundLocalError "ds")).
Proof. vm_compute. reflexivity. Qed.

Example nanmax_ex :
  np.nanmax [0.1; nan; 0.3]%float = 0.3%float
  /\ np.nanmax [nan; 0.1]%float = 0.1%float
  /\ PrimFloat.is_nan (np.nanmax [nan; nan]%float) = true.
Proof. repeat split; vm_compute; reflexivity. Qed.

Example cloud_maximum_ex :
  np.reduce_axis Sample.nanmax64 1
    (np.mk [1; 3; 1; 1]%nat [0.1; 0.5; 0.3]%float)
  = np.mk [1; 1; 1]%nat [0.5]%float.
Proof. vm_compute. reflexivity. Qed.

(** ** Lead time: the float quotient *)

Lemma forall_block_spec (P : Z -> bool) (k : nat) :
  forall lo, forall_block k lo P = true ->
  forall z, lo <= z < lo + 2 ^ Z.of_nat k -> P z = true.
Proof.
  induction k as [|k IH]; intros lo H z Hz.
  - simpl in *. assert (z = lo) by lia. now subst.
  - simpl in H. apply andb_prop in H as [H1 H2].
    rewrite Nat2Z.inj_succ, Z.pow_succ_r in Hz by lia.
    destruct (Z_lt_le_dec z (lo + 2 ^ Z.of_nat k)).
    + apply (IH lo H1). lia.
    + apply (IH _ H2). lia.
Qed.

Lemma hours_of_seconds_table :
  forall_block 17 0 (fun z => (86400 <=? z) || hours_of_seconds_ok z) = true.
Proof. vm_compute. reflexivity. Qed.

Lemma hours_of_seconds_spec (z : Z) :
  0 <= z < 86400 ->
  PrimFloat.eqb (hours_of_seconds z) 0 = (z =? 0)
  /\ PrimFloat.ltb 0 (hours_of_seconds z) = (0 <? z)
  /\ PrimFloat.leb 0 (hours_of_seconds z) = true
  /\ PrimFloat.ltb (hours_of_seconds z) 24 = true.
Proof.
  intros Hz.
  pose proof (forall_block_spec _ _ _ hours_of_seconds_table z) as Hin.
  assert (Hr : 0 <= z < 0 + 2 ^ Z.of_nat 17) by (change (2 ^ Z.of_nat 17) with 131072; lia).
  apply Hin in Hr. apply orb_prop in Hr as [Hr|Hr]; [apply Z.leb_le in Hr; lia|].
  unfold hours_of_seconds_ok in Hr.
  repeat (apply andb_prop in Hr; destruct Hr as [Hr ?]).
  repeat split; try assumption; now apply Bool.eqb_prop.
Qed.

Lemma seconds_sub (a b : datetime.t) :
  datetime.seconds (datetime.sub a b)
  = (datetime.secs_of_day a - datetime.secs_of_day b) mod 86400.
Proof. reflexivity. Qed.

Lemma seconds_sub_range (a b : datetime.t) :
  0 <= datetime.seconds (datetime.sub a b) < 86400.
Proof. rewrite seconds_sub. apply Z.mod_pos_bound. lia. Qed.

Lemma lead_hours_unfold (b s : datetime.t) :
  lead_hours b s = hours_of_seconds (datetime.seconds (datetime.sub b s)).
Proof. reflexivity. Qed.

(** ** [strptime]: what a successful parse tells *)

Section strptime_facts.

Import strptime.

Lemma first_some_inv {A B} (f : A -> option B) (l : list A) (y : B) :
  first_some f l = Some y -> exists x, In x l /\ f x = Some y.
Proof.
  induction l as [|x l IH]; simpl; [discriminate|].
  destruct (f x) eqn:E.
  - intros [= ->]. exists x. auto.
  - intros H. destruct (IH H) as (x' & Hin & Hx). exists x'. auto.
Qed.

Lemma match_seq_inv (cls : list (ascii -> bool)) :
  forall s m r, match_seq cls s = Some (m, r) ->
  s = m ++ r /\ length m = length cls.
Proof.
  induction cls as [|p cls IH]; intros s m r; simpl.
  - intros [= <- <-]. auto.
  - destruct s as [|c s]; [discriminate|].
    destruct (p c); [|discriminate].
    destruct (match_seq cls s) as [[m' r']|] eqn:E; [|discriminate].
    intros [= <- <-]. destruct (IH _ _ _ E) as [-> Hl].
    simpl. auto.
Qed.

Lemma match_tokens_dir d ts s acc res :
  match_tokens (Dir d :: ts) s acc = Some res ->
  exists cls m r, In cls (regex d) /\ s = m ++ r /\ length m = length cls
                  /\ match_tokens ts r ((d, int m) :: acc) = Some res.
Proof.
  simpl. intros H. apply first_some_inv in H as (cls & Hin & H).
  destruct (match_seq cls s) as [[m r]|] eqn:E; [|discriminate].
  apply match_seq_inv in E as [-> Hl]. exists cls, m, r. auto.
Qed.

Lemma span_length_firstn (p : ascii -> bool) :
  forall s k, (k <= span_length p s)%nat -> Forall (fun c => p c = true) (firstn k s).
Proof.
  induction s as [|c s IH]; intros k Hk; simpl in *.
  - rewrite firstn_nil. constructor.
  - destruct k; [constructor|]. simpl.
    destruct (p c) eqn:E; [|lia].
    constructor; [assumption|]. apply IH. lia.
Qed.

Lemma match_tokens_ws ts s acc res :
  match_tokens (Ws :: ts) s acc = Some res ->
  exists w r, s = w ++ r /\ w <> [] /\ Forall (fun c => space c = true) w
              /\ match_tokens ts r acc = Some res.
Proof.
  simpl. intros H. apply first_some_inv in H as (k & Hin & H).
  apply in_rev, in_seq in Hin.
  exists (firstn k s), (skipn k s). repeat split.
  - symmetry. apply firstn_skipn.
  - intros E. apply (f_equal (@length _)) in E.
    rewrite length_firstn in E. simpl in E.
    assert (span_length space s <= length s)%nat.
    { clear. induction s as [|c s IH]; simpl; [lia|]. destruct (space c); lia. }
    lia.
  - apply span_length_firstn. lia.
  - assumption.
Qed.

Lemma match_tokens_lit c ts s acc res :
  match_tokens (Lit c :: ts) s acc = Some res ->
  exists r, s = c :: r /\ match_tokens ts r acc = Some res.
Proof.
  simpl. destruct s as [|c' s]; [discriminate|].
  unfold chr. destruct (Ascii.eqb_spec c c'); [|discriminate].
  subst. eauto.
Qed.

(** A directive the format does not read keeps its default. *)
Lemma match_tokens_get (d : directive) (default : Z) :
  forall ts s acc f r,
  existsb (reads d) ts = false ->
  match_tokens ts s acc = Some (f, r) ->
  get d default f = get d default acc.
Proof.
  induction ts as [|t ts IH]; intros s acc f r Hno H.
  - simpl in H. now inversion H.
  - simpl in Hno. apply Bool.orb_false_elim in Hno as [Ht Hno].
    destruct t as [c|d'|].
    + apply match_tokens_lit in H as (r' & _ & H). eauto.
    + apply match_tokens_dir in H as (cls & m & r' & _ & _ & _ & H).
      rewrite (IH _ _ _ _ Hno H). simpl in *. now rewrite Ht.
    + apply match_tokens_ws in H as (w & r' & _ & _ & _ & H). eauto.
Qed.

Lemma strptime_inv (data_string format : string) (x : datetime.t) :
  strptime data_string format = Some x ->
  exists ts f,
    compile (list_ascii_of_string format) = Some ts
    /\ match_tokens ts (list_ascii_of_string data_string) [] = Some (f, [])
    /\ x = datetime.mk (get dir_Y 1900 f) (get dir_m 1 f) (get dir_d 1 f)
                       (get dir_H 0 f) (get dir_M 0 f) (get dir_S 0 f)
    /\ datetime.valid x = true.
Proof.
  unfold strptime.
  destruct (compile _) as [ts|] eqn:Hc; [|discriminate].
  destruct (match_tokens _ _ _) as [[f [|]]|] eqn:Hm; try discriminate.
  unfold datetime.new.
  match goal with |- context [datetime.valid ?y] => destruct (datetime.valid y) eqn:E end;
    [|discriminate].
  intros [= <-]. exists ts, f. repeat split; auto.
Qed.

Lemma strptime_valid (data_string format : string) (x : datetime.t) :
  strptime data_string format = Some x -> datetime.valid x = true.
Proof. intros H. apply strptime_inv in H as (? & ? & _ & _ & _ & H). exact H. Qed.

(** A valid time is on the hour: the format spells [:00:00]. *)
Lemma valid_time_on_the_hour (a : string) (b : datetime.t) :
  strptime a format_valid_time = Some b ->
  datetime.minute b = 0 /\ datetime.second b = 0.
Proof.
  intros H. apply strptime_inv in H as (ts & f & Hc & Hm & -> & _).
  vm_compute in Hc. injection Hc as <-. simpl.
  split; [refine (match_tokens_get dir_M 0 _ _ _ _ _ _ Hm)
         |refine (match_tokens_get dir_S 0 _ _ _ _ _ _ Hm)]; reflexivity.
Qed.

Lemma list_ascii_of_string_app (a b : string) :
  list_ascii_of_string (a +:+ b) = list_ascii_of_string a ++ list_ascii_of_string b.
Proof. induction a as [|c a IH]; simpl; [reflexivity|]. now rewrite IH. Qed.

(** The epoch is a midnight: the data end in [ 00] and the hour is what
    follows the white space. *)
Lemma date_sice_midnight (yearsice : Z) (since : datetime.t) :
  date_sice yearsice = Some since ->
  datetime.hour since = 0 /\ datetime.minute since = 0
  /\ datetime.second since = 0.
Proof.
  intros H. apply strptime_inv in H as (ts & f & Hc & Hm & -> & _).
  vm_compute in Hc. injection Hc as <-. simpl.
  split; [|split; [refine (match_tokens_get dir_M 0 _ _ _ _ _ _ Hm)
                  |refine (match_tokens_get dir_S 0 _ _ _ _ _ _ Hm)]; reflexivity].
  rewrite list_ascii_of_string_app in Hm.
  set (y := list_ascii_of_string (str yearsice)) in *.
  change (list_ascii_of_string "0101 00")
    with ["0"; "1"; "0"; "1"; " "; "0"; "0"]%char in Hm.
  apply match_tokens_dir in Hm as (c1 & m1 & r1 & _ & E1 & _ & Hm).
  apply match_tokens_dir in Hm as (c2 & m2 & r2 & _ & E2 & _ & Hm).
  apply match_tokens_dir in Hm as (c3 & m3 & r3 & _ & E3 & _ & Hm).
  apply match_tokens_ws in Hm as (w & r4 & E4 & Hw & Hsp & Hm).
  apply match_tokens_dir in Hm as (c5 & h & r5 & Hin & E5 & Hl & Hm).
  simpl in Hm. injection Hm as <- ->. simpl.
  rewrite app_nil_r in E5. subst r4 r3 r2 r1.
  destruct (exists_last Hw) as (w' & x & ->).
  apply Forall_app in Hsp as [_ Hx]. inversion Hx as [|? ? Hx' _]; subst.
  assert (Hh : (length h = 1 \/ length h = 2)%nat).
  { simpl in Hin. destruct Hin as [<-|[<-|[<-|[]]]]; simpl in Hl; lia. }
  destruct h as [|h1 [|h2 [|]]]; simpl in Hh; try lia.
  - exfalso.
    assert (E : (y ++ ["0"; "1"; "0"; "1"; " "]%char) ++ ["0"]%char ++ ["0"]%char
                = (m1 ++ m2 ++ m3 ++ w') ++ [x] ++ [h1]).
    { rewrite <- !app_assoc. simpl. rewrite E1. now rewrite <- !app_assoc. }
    rewrite !app_assoc in E. apply app_inj_tail in E as [E _].
    apply app_inj_tail in E as [_ <-]. discriminate Hx'.
  - assert (E : (y ++ ["0"; "1"; "0"; "1"; " "]%char) ++ ["0"]%char ++ ["0"]%char
                = (m1 ++ m2 ++ m3 ++ w' ++ [x]) ++ [h1] ++ [h2]).
    { rewrite <- !app_assoc. simpl. rewrite E1. now rewrite <- !app_assoc. }
    rewrite !app_assoc in E. apply app_inj_tail in E as [E <-].
    apply app_inj_tail in E as [_ <-]. reflexivity.
Qed.

End strptime_facts.

(** ** The calendar: ordinals grow with the date *)

Module datetime_facts.

Import datetime.

Lemma valid_inv (x : t) :
  valid x = true ->
  (1 <= year x <= 9999) /\ (1 <= month x <= 12)
  /\ (1 <= day x <= _days_in_month (year x) (month x))
  /\ (0 <= hour x <= 23) /\ (0 <= minute x <= 59) /\ (0 <= second x <= 59).
Proof.
  unfold valid. intros H.
  repeat (apply andb_prop in H; destruct H as [H ?]).
  repeat match goal with H : (_ <=? _) = true |- _ => apply Z.leb_le in H end.
  lia.
Qed.

Lemma month_cases (m : Z) :
  1 <= m <= 12 ->
  m = 1 \/ m = 2 \/ m = 3 \/ m = 4 \/ m = 5 \/ m = 6
  \/ m = 7 \/ m = 8 \/ m = 9 \/ m = 10 \/ m = 11 \/ m = 12.
Proof. lia. Qed.

Ltac each_month m H :=
  destruct (month_cases m H) as
    [->|[->|[->|[->|[->|[->|[->|[->|[->|[->|[->| ->]]]]]]]]]]].

Lemma days_before_year_succ (y : Z) :
  _days_before_year (y + 1) = _days_before_year y + 365 + leap_day y.
Proof.
  unfold _days_before_year, leap_day, _is_leap.
  replace (y + 1 - 1) with y by lia.
  destruct (Z.eqb_spec (y mod 4) 0), (Z.eqb_spec (y mod 100) 0),
    (Z.eqb_spec (y mod 400) 0); simpl;
    Z.to_euclidean_division_equations; lia.
Qed.

Lemma days_before_year_mono (y1 y2 : Z) :
  y1 <= y2 -> _days_before_year y1 <= _days_before_year y2.
Proof.
  unfold _days_before_year. intros H.
  Z.to_euclidean_division_equations. lia.
Qed.

(** A date is one of the days of its year. *)
Lemma day_of_year_bounds (y m d : Z) :
  1 <= m <= 12 -> 1 <= d <= _days_in_month y m ->
  1 <= _days_before_month y m + d <= 365 + leap_day y.
Proof.
  intros Hm. unfold _days_in_month, _days_before_month, leap_day.
  each_month m Hm; destruct (_is_leap y); simpl; lia.
Qed.

(** The days of a month come before those of any later month. *)
Lemma month_mono (y m1 m2 d1 d2 : Z) :
  1 <= m1 <= 12 -> 1 <= m2 <= 12 -> m1 < m2 ->
  d1 <= _days_in_month y m1 -> 1 <= d2 ->
  _days_before_month y m1 + d1 < _days_before_month y m2 + d2.
Proof.
  intros Hm1 Hm2. unfold _days_in_month, _days_before_month.
  each_month m1 Hm1; each_month m2 Hm2; destruct (_is_leap y); simpl; lia.
Qed.

Lemma year_mono (y1 y2 m1 m2 d1 d2 : Z) :
  1 <= m1 <= 12 -> 1 <= d1 <= _days_in_month y1 m1 ->
  1 <= m2 <= 12 -> 1 <= d2 <= _days_in_month y2 m2 ->
  y1 < y2 -> _ymd2ord y1 m1 d1 < _ymd2ord y2 m2 d2.
Proof.
  intros Hm1 Hd1 Hm2 Hd2 Hy. unfold _ymd2ord.
  pose proof (day_of_year_bounds y1 m1 d1 Hm1 Hd1).
  pose proof (day_of_year_bounds y2 m2 d2 Hm2 Hd2).
  pose proof (days_before_year_succ y1).
  pose proof (days_before_year_mono (y1 + 1) y2 ltac:(lia)).
  lia.
Qed.

(** [a <= b] read on ordinals and seconds of the day. *)
Lemma le_ordinal (a b : t) :
  valid a = true -> valid b = true -> le a b = true ->
  toordinal a < toordinal b
  \/ (toordinal a = toordinal b /\ secs_of_day a <= secs_of_day b
      /\ hour a <= hour b).
Proof.
  intros Ha Hb. apply valid_inv in Ha, Hb.
  destruct a as [y1 m1 d1 h1 n1 s1], b as [y2 m2 d2 h2 n2 s2].
  unfold le, fields, toordinal, secs_of_day. simpl in *.
  intros H.
  repeat match goal with
         | H : (_ || _)%bool = true |- _ => apply orb_prop in H as [H|H]
         | H : (_ && _)%bool = true |- _ => apply andb_prop in H as [? H]
         | H : (_ <? _) = true |- _ => apply Z.ltb_lt in H
         | H : (_ =? _) = true |- _ => apply Z.eqb_eq in H
         end; subst.
  - left. apply year_mono; lia.
  - left. unfold _ymd2ord.
    pose proof (month_mono y2 m1 m2 d1 d2). lia.
  - left. unfold _ymd2ord. lia.
  - right. lia.
  - right. lia.
  - right. lia.
  - right. lia.
Qed.

(** [delta.days] against a midnight is the difference of the ordinals. *)
Lemma days_sub_midnight (b e : t) :
  valid b = true -> secs_of_day e = 0 ->
  days (sub b e) = toordinal b - toordinal e.
Proof.
  intros Hb He. apply valid_inv in Hb.
  unfold sub, timedelta_new. simpl. rewrite He, Z.sub_0_r.
  rewrite Z.div_small; [lia|]. unfold secs_of_day. lia.
Qed.

Lemma days_sub_floor (b e : t) :
  days (sub b e) = (instant b - instant e) / 86400.
Proof.
  unfold sub, timedelta_new, instant. simpl.
  replace (toordinal b * 86400 + secs_of_day b
           - (toordinal e * 86400 + secs_of_day e))
    with ((secs_of_day b - secs_of_day e) + (toordinal b - toordinal e) * 86400)
    by lia.
  rewrite Z.div_add by lia. lia.
Qed.

End datetime_facts.

(** ** numpy: operands of one shape are combined element by element *)

Module np_facts.

Lemma broadcast_rev_same (s : list nat) : np.broadcast_rev s s = Some s.
Proof.
  induction s as [|a s IH]; simpl; [reflexivity|].
  now rewrite IH, Nat.eqb_refl.
Qed.

Lemma broadcast_shapes_same (s : list nat) : np.broadcast_shapes s s = Some s.
Proof.
  unfold np.broadcast_shapes. now rewrite broadcast_rev_same, rev_involutive.
Qed.

Lemma pad_same (s : list nat) : np.pad (length s) s = s.
Proof. unfold np.pad. now rewrite Nat.sub_diag. Qed.

Lemma zip_with_blocks {A B C} (op : A -> B -> C) (k : nat) :
  forall (n : nat) (da : list A) (db : list B),
  length da = (n * k)%nat -> length db = (n * k)%nat ->
  flat_map (fun i => zip_with op (firstn k (skipn (i * k) da))
                                 (firstn k (skipn (i * k) db))) (seq 0 n)
  = zip_with op da db.
Proof.
  induction n as [|n IH]; intros da db Ha Hb.
  - destruct da, db; simpl in *; try discriminate. reflexivity.
  - rewrite <- cons_seq, <- seq_shift. simpl flat_map.
    rewrite flat_map_concat_map, List.map_map, <- flat_map_concat_map.
    rewrite (flat_map_ext _
      (fun i => zip_with op (firstn k (skipn (i * k) (skipn k da)))
                            (firstn k (skipn (i * k) (skipn k db))))).
    2:{ intros i. rewrite !skipn_skipn.
        now replace (S i * k)%nat with (i * k + k)%nat by lia. }
    rewrite IH by (rewrite length_skipn; lia).
    rewrite <- zip_with_take, <- (zip_with_drop op k da db).
    apply firstn_skipn.
Qed.

Lemma broadcast_data_same {A B C} (op : A -> B -> C) (s : list nat) :
  forall (da : list A) (db : list B),
  length da = np.size s -> length db = np.size s ->
  np.broadcast_data op s s da db = zip_with op da db.
Proof.
  induction s as [|n s IH]; intros da db Ha Hb; simpl in *.
  - destruct da as [|x [|]], db as [|y [|]]; simpl in *; try discriminate.
    reflexivity.
  - replace (if (n =? 1)%nat then n else n) with n by now destruct (n =? 1)%nat.
    rewrite <- (zip_with_blocks op (np.size s) n da db Ha Hb).
    rewrite !flat_map_concat_map. f_equal.
    apply map_ext_in. intros i Hi. apply in_seq in Hi.
    assert (Ei : (if (n =? 1)%nat then O else i) = i).
    { destruct (Nat.eqb_spec n 1); lia. }
    rewrite Ei. unfold np.chunk.
    apply IH; rewrite length_firstn, length_skipn; nia.
Qed.

(** Same shape: no broadcasting, the result keeps the shape. *)
Lemma binop_same_shape {A B C} (op : A -> B -> C)
    (a : np.ndarray A) (b : np.ndarray B) :
  np.shape a = np.shape b -> np.wf a -> np.wf b ->
  np.binop op a b = Ok (np.mk (np.shape a) (zip_with op (np.data a) (np.data b))).
Proof.
  unfold np.binop, np.wf. intros Hs Ha Hb.
  rewrite <- Hs, broadcast_shapes_same, pad_same.
  rewrite Hs in Ha |- *. rewrite <- Hs.
  rewrite broadcast_data_same; congruence.
Qed.

Lemma squeeze_data {A} (a : np.ndarray A) : np.data (np.squeeze a) = np.data a.
Proof. reflexivity. Qed.

Lemma size_squeeze (s : list nat) :
  np.size (List.filter (fun n => negb (n =? 1)%nat) s) = np.size s.
Proof.
  unfold np.size. induction s as [|n s IH]; simpl; [reflexivity|].
  destruct (Nat.eqb_spec n 1); simpl; rewrite IH; subst; lia.
Qed.

Lemma squeeze_wf {A} (a : np.ndarray A) : np.wf a -> np.wf (np.squeeze a).
Proof. unfold np.wf, np.squeeze. simpl. now rewrite size_squeeze. Qed.

End np_facts.

(** ** The lines before the dispatch *)

Section prologue_facts.

Context {F : Type}.
Implicit Types (fs : gmap string (SourceDataset F)) (l : @locals F).

Lemma bind_inv {A B} (m : M A) (k : A -> M B) (out out1 : stdout) (r : B) :
  bind m k out = (out1, Ok r) ->
  exists out' a, m out = (out', Ok a) /\ k a out' = (out1, Ok r).
Proof.
  unfold bind. destruct (m out) as [out' [a|e]]; [|discriminate]. eauto.
Qed.

Lemma bind_lift_inv {A B} (e : exn) (o : option A) (k : A -> M B)
    (out out1 : stdout) (r : B) :
  bind (lift e o) k out = (out1, Ok r) ->
  exists a, o = Some a /\ k a out = (out1, Ok r).
Proof.
  unfold bind, lift. destruct o as [a|]; [|discriminate]. eauto.
Qed.

Lemma resolve_yearsice_ok (kw : kwargs) (start : datetime.t) (out : stdout) :
  exists out',
    resolve_yearsice kw start out
    = (out', Ok (match yearsince kw with
                 | Some y => y
                 | None => datetime.year start
                 end)).
Proof.
  unfold resolve_yearsice. destruct (yearsince kw) as [y|].
  - destruct (negb (y =? 0)); eexists; reflexivity.
  - eexists; reflexivity.
Qed.

(** What a successful run of the lines before the dispatch has read. *)
Lemma prologue_inv fs (namefile : string) (kw : kwargs)
    (out out1 : stdout) l :
  prologue fs namefile kw out = (out1, Ok l) ->
  exists (a : string) (times : list string) (attr : string)
         (b start since : datetime.t),
    fs !! namefile = Some (nc l)
    /\ Times (nc l) = Some (a :: times)
    /\ strptime.strptime a format_valid_time = Some b
    /\ START_DATE (nc l) = Some attr
    /\ strptime.strptime attr format_start_date = Some start
    /\ hours l = lead_hours b start
    /\ date_sice (match yearsince kw with
                  | Some y => y
                  | None => datetime.year start
                  end) = Some since
    /\ time_value l = hours_since b since.
Proof.
  unfold prologue, open_dataset. intros H.
  apply bind_lift_inv in H as (ncf & Hfs & H).
  apply bind_lift_inv in H as (times0 & Ht & H).
  apply bind_lift_inv in H as (a & Hhd & H).
  apply bind_lift_inv in H as (b & Hb & H).
  apply bind_lift_inv in H as (attr & Ha & H).
  apply bind_lift_inv in H as (start & Hs & H).
  apply bind_inv in H as (out' & yearsice & Hy & H).
  destruct (resolve_yearsice_ok kw start out) as (out'' & Hy').
  rewrite Hy' in Hy. injection Hy as <- <-.
  apply bind_lift_inv in H as (since & Hd & H).
  apply bind_inv in H as (? & lon0 & _ & H).
  apply bind_inv in H as (? & lat0 & _ & H).
  apply bind_inv in H as (? & lon1 & _ & H).
  apply bind_inv in H as (? & lat1 & _ & H).
  injection H as <- <-. simpl.
  destruct times0 as [|a' times]; [discriminate|]. injection Hhd as ->.
  exists a, times, attr, b, start, since. repeat split; assumption.
Qed.

(** The lead time is the quotient of a number of seconds of one day:
    it is 0 or positive, never both. *)
Lemma prologue_hours fs (namefile : string) (kw : kwargs)
    (out out1 : stdout) l :
  prologue fs namefile kw out = (out1, Ok l) ->
  PrimFloat.ltb 0 (hours l) = true -> PrimFloat.eqb (hours l) 0 = false.
Proof.
  intros Hp. apply prologue_inv in Hp
    as (a & times & attr & b & start & since & _ & _ & _ & _ & _ & -> & _).
  rewrite lead_hours_unfold.
  destruct (hours_of_seconds_spec _ (seconds_sub_range b start))
    as (-> & -> & _).
  intros H. apply Z.ltb_lt in H. apply Z.eqb_neq. lia.
Qed.

End prologue_facts.

(** ** The dispatch, arm by arm *)

Section dispatch_facts.

Context {F : Type} {dtype : DType F}.
Implicit Types (fs : gmap string (SourceDataset F)) (l : @locals F).

Lemma dispatch_T2 fs kw l :
  dispatch fs kw l "T2"
  = (t <- of_result (getitem_squeezed (nc l) "T2") ;;
     ds <- dataset_surface l "Tair"
             (np.map (fun x => fsub x (of_pyfloat 273.15)) t) attrs_t2 ;;
     ret (Some ds)).
Proof. reflexivity. Qed.

Lemma dispatch_RH fs kw l : dispatch fs kw l "RH" = branch_rh l.
Proof. reflexivity. Qed.

Lemma dispatch_PR fs kw l : dispatch fs kw l "PR" = branch_pr fs kw l.
Proof. reflexivity. Qed.

(** A key that is none of the nine runs no arm: the last test,
    [var == []], is false for every string. *)
Lemma dispatch_unsupported fs kw l (var : string) :
  ~ In var supported_keys -> dispatch fs kw l var = ret None.
Proof.
  intros Hno. unfold dispatch.
  repeat match goal with
         | |- context [String.eqb var ?k] =>
             destruct (String.eqb_spec var k) as [->|_];
             [exfalso; apply Hno; simpl; tauto|]
         end.
  reflexivity.
Qed.

(** A two-dimensional field over the coordinates of the call is
    accepted by [xr.Dataset]. *)
Lemma dataset_surface_ok l (name : string) (ncvar : np.ndarray F)
    (a : attrs) (n m : nat) (out : stdout) :
  np.shape ncvar = [n; m] ->
  np.shape (lat l) = [n] -> np.shape (lon l) = [m] ->
  dataset_surface l name ncvar a out
  = (out, Ok (surface_Dataset l name n m (np.data ncvar) a)).
Proof.
  intros Hs Hlat Hlon.
  unfold dataset_surface, bind, of_result, np.newaxis_2, np.ndim.
  rewrite Hs. simpl.
  unfold xr_Dataset, dims_match, dim_sizes, consistent. simpl.
  rewrite Hlat, Hlon. simpl.
  rewrite !Nat.eqb_refl. reflexivity.
Qed.

Lemma element_exists_In (lst : list string) (x : string) :
  element_exists lst x = true <-> In x lst.
Proof.
  unfold element_exists. induction lst as [|y lst IH]; simpl.
  - split; [discriminate|tauto].
  - destruct (String.eqb_spec y x) as [->|Hne]; [tauto|].
    destruct (index lst x).
    + split; [intros _; right; now apply IH|reflexivity].
    + split; [discriminate|].
      intros [E|Hin]; [congruence|]. now apply IH in Hin.
Qed.

(** [element_exists] on the keys of the file is a lookup. *)
Lemma element_exists_present (ncf : SourceDataset F) (name : string) :
  name <> "Times" ->
  element_exists (variable_keys ncf) name = present ncf name.
Proof.
  intros Hne. unfold present, variable_keys.
  apply Bool.eq_true_iff_eq. rewrite element_exists_In, in_app_iff.
  split.
  - intros [Hin|Hin].
    + destruct (Times ncf); simpl in Hin; [|tauto].
      destruct Hin as [E|[]]. congruence.
    + apply in_map_iff in Hin as ([k v] & E & Hin). simpl in E. subst k.
      apply list_elem_of_In, elem_of_map_to_list in Hin. now rewrite Hin.
  - destruct (variables ncf !! name) as [v|] eqn:E; [|discriminate].
    intros _. right. apply in_map_iff. exists (name, v). split; [reflexivity|].
    now apply list_elem_of_In, elem_of_map_to_list.
Qed.

Lemma rh_scan_missing (ncf : SourceDataset F) :
  rh_scan (variable_keys ncf)
  = ((3 - length (rh_missing ncf))%nat, rh_missing ncf).
Proof.
  unfold rh_scan, rh_missing. simpl.
  rewrite !element_exists_present by discriminate.
  destruct (present ncf "PSFC"), (present ncf "T2"), (present ncf "Q2");
    reflexivity.
Qed.

Lemma rh_missing_length (ncf : SourceDataset F) :
  (length (rh_missing ncf) <= 3)%nat.
Proof.
  unfold rh_missing. simpl.
  destruct (present ncf "PSFC"), (present ncf "T2"), (present ncf "Q2");
    simpl; lia.
Qed.

(** With a field missing the arm prints and leaves [ds] unbound. *)
Lemma branch_rh_missing l (out : stdout) :
  rh_missing (nc l) <> [] ->
  branch_rh l out = (out ++ rh_diagnostic (rh_missing (nc l)), Ok None).
Proof.
  intros Hm. unfold branch_rh. rewrite rh_scan_missing.
  pose proof (rh_missing_length (nc l)).
  destruct (rh_missing (nc l)) as [|x not_key] eqn:E; [congruence|].
  destruct (Nat.eqb_spec (3 - length (x :: not_key)) 3) as [E3|_];
    [simpl in E3; lia|].
  unfold bind, print, ret, rh_diagnostic. simpl.
  now rewrite <- !app_assoc.
Qed.

(** With the three fields there the arm builds the dataset of [Qair]. *)
Lemma branch_rh_present l (p t q rhvar : np.ndarray F) (n m : nat)
    (out : stdout) :
  rh_missing (nc l) = [] ->
  getitem_squeezed (nc l) "PSFC" = Ok p ->
  getitem_squeezed (nc l) "T2" = Ok t ->
  getitem_squeezed (nc l) "Q2" = Ok q ->
  sh2rh (np.map (fun x => fdiv x (of_pyfloat 100)) p)
        (np.map (fun x => fsub x (of_pyfloat 273.15)) t) q = Ok rhvar ->
  np.shape rhvar = [n; m] ->
  np.shape (lat l) = [n] -> np.shape (lon l) = [m] ->
  branch_rh l out
  = (out, Ok (Some (surface_Dataset l "Qair" n m (np.data rhvar) attrs_rh))).
Proof.
  intros Hm Hp Ht Hq Hrh Hs Hlat Hlon.
  unfold branch_rh. rewrite rh_scan_missing, Hm. simpl.
  unfold bind, of_result. rewrite Hp, Ht, Hq, Hrh.
  now rewrite (dataset_surface_ok _ _ _ _ n m).
Qed.

(** Without [step_b] the arm prints and binds the empty dataset. *)
Lemma branch_pr_None fs kw l (out : stdout) :
  step_b kw = None ->
  branch_pr fs kw l out = (out ++ step_b_diagnostic, Ok (Some empty_Dataset)).
Proof.
  intros H. unfold branch_pr. rewrite H.
  unfold bind, print, ret, step_b_diagnostic. simpl.
  now rewrite <- !app_assoc.
Qed.

(** The call once the lines before the dispatch have run. *)
Lemma wrf2gfs_params_dispatch fs (namefile varname : string) kw
    (out out1 : stdout) l :
  prologue fs namefile kw out = (out1, Ok l) ->
  wrf2gfs_params fs namefile varname kw out
  = bind (dispatch fs kw l (upper varname)) return_ds out1.
Proof.
  intros H. unfold wrf2gfs_params. unfold bind at 1. now rewrite H.
Qed.

(** ** The claims on the dispatch *)

(** C1 (as the code behaves). A key outside the nine supported ones,
    after uppercasing, never yields a dataset: the call ends in an
    exception, and when the lines before the dispatch succeed that
    exception is the [UnboundLocalError] of [return ds], with nothing
    printed by the dispatch. *)
Theorem unsupported_key_raises fs (namefile varname : string) kw
    (out : stdout) :
  ~ In (upper varname) supported_keys ->
  exists out' e,
    wrf2gfs_params fs namefile varname kw out = (out', Raise e)
    /\ forall out1 l,
         prologue fs namefile kw out = (out1, Ok l) ->
         out' = out1 /\ e = UnboundLocalError "ds".
Proof.
  intros Hno.
  destruct (prologue fs namefile kw out) as [out1 [l|e]] eqn:Hp.
  - exists out1, (UnboundLocalError "ds").
    rewrite (wrf2gfs_params_dispatch _ _ _ _ _ _ _ Hp).
    rewrite dispatch_unsupported by assumption.
    split; [reflexivity|].
    intros ? ? [= <- <-]. auto.
  - exists out1, e. split.
    + unfold wrf2gfs_params. unfold bind at 1. now rewrite Hp.
    + intros ? ? [=].
Qed.

(** C2 (as the code behaves). For the key RH, once the lines before the
    dispatch have succeeded: with PSFC, T2 and Q2 all in the file the
    call returns the dataset whose one data variable is [Qair]; with any
    of them absent it prints the diagnostic naming exactly the absent
    fields and then raises [UnboundLocalError], returning no dataset. *)
Theorem rh_populated_or_raises fs (namefile varname : string) kw
    (out out1 : stdout) l :
  prologue fs namefile kw out = (out1, Ok l) ->
  upper varname = "RH" ->
  (rh_missing (nc l) = [] ->
   forall (p t q rhvar : np.ndarray F) (n m : nat),
     getitem_squeezed (nc l) "PSFC" = Ok p ->
     getitem_squeezed (nc l) "T2" = Ok t ->
     getitem_squeezed (nc l) "Q2" = Ok q ->
     sh2rh (np.map (fun x => fdiv x (of_pyfloat 100)) p)
           (np.map (fun x => fsub x (of_pyfloat 273.15)) t) q = Ok rhvar ->
     np.shape rhvar = [n; m] ->
     np.shape (lat l) = [n] -> np.shape (lon l) = [m] ->
     wrf2gfs_params fs namefile varname kw out
     = (out1, Ok (surface_Dataset l "Qair" n m (np.data rhvar) attrs_rh)))
  /\ (rh_missing (nc l) <> [] ->
      wrf2gfs_params fs namefile varname kw out
      = (out1 ++ rh_diagnostic (rh_missing (nc l)),
         Raise (UnboundLocalError "ds"))).
Proof.
  intros Hp Hv.
  rewrite (wrf2gfs_params_dispatch _ _ _ _ _ _ _ Hp), Hv, dispatch_RH.
  split.
  - intros Hm p t q rhvar n m H1 H2 H3 H4 H5 H6 H7.
    unfold bind. now rewrite (branch_rh_present l p t q rhvar n m).
  - intros Hm. unfold bind. now rewrite branch_rh_missing.
Qed.

(** C5. For the key PR with no [step_b] supplied the call returns
    normally: it prints the error naming the missing [step_b] and
    returns the empty dataset (whatever the lead time, so in particular
    when it is positive). *)
Theorem pr_without_step_b fs (namefile varname : string) kw
    (out out1 : stdout) l :
  prologue fs namefile kw out = (out1, Ok l) ->
  upper varname = "PR" ->
  step_b kw = None ->
  wrf2gfs_params fs namefile varname kw out
  = (out1 ++ step_b_diagnostic, Ok empty_Dataset).
Proof.
  intros Hp Hv Hs.
  rewrite (wrf2gfs_params_dispatch _ _ _ _ _ _ _ Hp), Hv, dispatch_PR.
  unfold bind. now rewrite branch_pr_None.
Qed.

End dispatch_facts.

(** ** Precipitation and temperature *)

Section field_facts.

Context {F : Type} {dtype : DType F}.
Implicit Types (fs : gmap string (SourceDataset F)) (l : @locals F).

(** [RAINNC + RAINC] of one file, as both arms compute it. *)
Lemma accumulation_ok (ncf : SourceDataset F)
    (rainnc rainc total : np.ndarray F) (out : stdout) :
  getitem_squeezed ncf "RAINNC" = Ok rainnc ->
  getitem_squeezed ncf "RAINC" = Ok rainc ->
  np.binop fadd rainnc rainc = Ok total ->
  (rainnc <- of_result (getitem_squeezed ncf "RAINNC") ;;
   rainc <- of_result (getitem_squeezed ncf "RAINC") ;;
   of_result (np.binop fadd rainnc rainc)) out
  = (out, Ok total).
Proof.
  intros Hn Hc Hsum. unfold bind, of_result. now rewrite Hn, Hc, Hsum.
Qed.

(** With a zero lead the rain is read from the current file: the other
    file is not opened. *)
Lemma pr_ncvar_zero fs l (path : string) :
  PrimFloat.eqb (hours l) 0 = true ->
  pr_ncvar fs l path = current_accumulation l.
Proof. intros H. unfold pr_ncvar. now rewrite H. Qed.

Lemma branch_pr_some fs kw l (path : string) (ncvar : np.ndarray F)
    (n m : nat) (out : stdout) :
  step_b kw = Some path -> path <> EmptyString ->
  pr_ncvar fs l path out = (out, Ok ncvar) ->
  np.shape ncvar = [n; m] ->
  np.shape (lat l) = [n] -> np.shape (lon l) = [m] ->
  branch_pr fs kw l out
  = (out, Ok (Some (surface_Dataset l "rain" n m (np.data ncvar) attrs_pr))).
Proof.
  intros Hs Hne Hv Hshape Hlat Hlon. unfold branch_pr. rewrite Hs.
  destruct (String.eqb_spec path EmptyString) as [|_]; [contradiction|].
  simpl. unfold bind at 1. rewrite Hv.
  unfold bind. now rewrite (dataset_surface_ok _ _ _ _ n m).
Qed.

(** C3 (as amended). For the key PR with a zero lead: when a non-empty
    [step_b] is supplied the rain field is RAINNC + RAINC of the current
    file, and the file [step_b] names is not opened, so it need not
    exist (the sum is numpy's, and on fields of one shape it is taken
    element by element); when no [step_b] is supplied the call prints
    that it must be defined and returns the empty dataset. *)
Theorem pr_zero_lead_current_file fs (namefile varname : string) kw
    (out out1 : stdout) l :
  prologue fs namefile kw out = (out1, Ok l) ->
  upper varname = "PR" ->
  PrimFloat.eqb (hours l) 0 = true ->
  (forall (path : string) (rainnc rainc total : np.ndarray F) (n m : nat),
     step_b kw = Some path -> path <> EmptyString ->
     getitem_squeezed (nc l) "RAINNC" = Ok rainnc ->
     getitem_squeezed (nc l) "RAINC" = Ok rainc ->
     np.binop fadd rainnc rainc = Ok total ->
     np.shape total = [n; m] ->
     np.shape (lat l) = [n] -> np.shape (lon l) = [m] ->
     wrf2gfs_params fs namefile varname kw out
     = (out1, Ok (surface_Dataset l "rain" n m (np.data total) attrs_pr))
     /\ (np.shape rainnc = np.shape rainc -> np.wf rainnc -> np.wf rainc ->
         np.data total = zip_with fadd (np.data rainnc) (np.data rainc)))
  /\ (step_b kw = None ->
      wrf2gfs_params fs namefile varname kw out
      = (out1 ++ step_b_diagnostic, Ok empty_Dataset)).
Proof.
  intros Hp Hv Hz.
  rewrite (wrf2gfs_params_dispatch _ _ _ _ _ _ _ Hp), Hv, dispatch_PR.
  split.
  - intros path rainnc rainc total n m Hs Hne Hn Hc Hsum Hshape Hlat Hlon.
    split.
    + unfold bind.
      rewrite (branch_pr_some fs kw l path total n m); auto.
      rewrite pr_ncvar_zero by assumption.
      now apply accumulation_ok with rainnc rainc.
    + intros Hss Hwn Hwc.
      rewrite np_facts.binop_same_shape in Hsum by assumption.
      now injection Hsum as <-.
  - intros Hs. unfold bind. now rewrite branch_pr_None.
Qed.

(** C4. For the key PR with a positive lead and a [step_b] that names a
    file, the rain field is (RAINNC + RAINC) of the current file minus
    (RAINNC + RAINC) of that file. The operations are numpy's, and on
    fields of one shape they are taken element by element. *)
Theorem pr_positive_lead_difference fs (namefile varname : string) kw
    (out out1 : stdout) l (path : string) (before : SourceDataset F)
    (rainnc rainc rainnc_b rainc_b now_ before_ diff : np.ndarray F)
    (n m : nat) :
  prologue fs namefile kw out = (out1, Ok l) ->
  upper varname = "PR" ->
  PrimFloat.ltb 0 (hours l) = true ->
  step_b kw = Some path -> path <> EmptyString ->
  fs !! path = Some before ->
  getitem_squeezed (nc l) "RAINNC" = Ok rainnc ->
  getitem_squeezed (nc l) "RAINC" = Ok rainc ->
  getitem_squeezed before "RAINNC" = Ok rainnc_b ->
  getitem_squeezed before "RAINC" = Ok rainc_b ->
  np.binop fadd rainnc rainc = Ok now_ ->
  np.binop fadd rainnc_b rainc_b = Ok before_ ->
  np.binop fsub now_ before_ = Ok diff ->
  np.shape diff = [n; m] ->
  np.shape (lat l) = [n] -> np.shape (lon l) = [m] ->
  wrf2gfs_params fs namefile varname kw out
  = (out1, Ok (surface_Dataset l "rain" n m (np.data diff) attrs_pr))
  /\ (np.shape rainc = np.shape rainnc ->
      np.shape rainnc_b = np.shape rainnc ->
      np.shape rainc_b = np.shape rainnc ->
      np.wf rainnc -> np.wf rainc -> np.wf rainnc_b -> np.wf rainc_b ->
      np.data diff
      = zip_with fsub
          (zip_with fadd (np.data rainnc) (np.data rainc))
          (zip_with fadd (np.data rainnc_b) (np.data rainc_b))).
Proof.
  intros Hp Hv Hpos Hs Hne Hfs Hn Hc Hnb Hcb Hnow Hbef Hdiff Hshape Hlat Hlon.
  split.
  - rewrite (wrf2gfs_params_dispatch _ _ _ _ _ _ _ Hp), Hv, dispatch_PR.
    unfold bind.
    rewrite (branch_pr_some fs kw l path diff n m); auto.
    unfold pr_ncvar. rewrite (prologue_hours _ _ _ _ _ _ Hp Hpos), Hpos.
    unfold bind, of_result. rewrite Hn, Hc, Hnow.
    unfold open_dataset, lift. rewrite Hfs. unfold ret.
    now rewrite Hnb, Hcb, Hbef, Hdiff.
  - intros S1 S2 S3 W1 W2 W3 W4.
    unfold np.wf in *.
    rewrite np_facts.binop_same_shape in Hnow, Hbef;
      try assumption; try congruence.
    injection Hnow as <-. injection Hbef as <-.
    rewrite np_facts.binop_same_shape in Hdiff.
    + now injection Hdiff as <-.
    + simpl. congruence.
    + unfold np.wf. simpl. rewrite length_zip_with, W1, W2, S1. lia.
    + unfold np.wf. simpl. rewrite length_zip_with, W3, W4, S2, S3. lia.
Qed.

(** The arm of T2 on a field that fits the coordinates. *)
Lemma T2_elementwise fs (namefile varname : string) kw
    (out out1 : stdout) l (t2 : np.ndarray F) (n m : nat) :
  prologue fs namefile kw out = (out1, Ok l) ->
  upper varname = "T2" ->
  getitem_squeezed (nc l) "T2" = Ok t2 ->
  np.shape t2 = [n; m] ->
  np.shape (lat l) = [n] -> np.shape (lon l) = [m] ->
  wrf2gfs_params fs namefile varname kw out
  = (out1,
     Ok (surface_Dataset l "Tair" n m
           (List.map (fun x => fsub x (of_pyfloat 273.15)) (np.data t2))
           attrs_t2)).
Proof.
  intros Hp Hv Ht Hshape Hlat Hlon.
  rewrite (wrf2gfs_params_dispatch _ _ _ _ _ _ _ Hp), Hv, dispatch_T2.
  unfold bind, of_result. rewrite Ht.
  now rewrite (dataset_surface_ok _ _ _ _ n m).
Qed.

End field_facts.

(** ** Temperature: the offset in floating point *)

(** C8 (as amended). The arm of T2 subtracts from every element of the
    field, in the arithmetic of the field's element type, the constant
    273.15 converted to that type. On float64 data the element 300.0
    becomes 300.0 - 273.15 = 26.850000000000023, and on float32 data
    26.850006103515625: neither is 26.85 (nor, for float32, the binary32
    nearest to 26.85). *)
Theorem T2_subtracts_kelvin_offset :
  (forall (F : Type) (dtype : DType F) (fs : gmap string (SourceDataset F))
          (namefile varname : string) (kw : kwargs) (out out1 : stdout)
          (l : @locals F) (t2 : np.ndarray F) (n m : nat),
      prologue fs namefile kw out = (out1, Ok l) ->
      upper varname = "T2" ->
      getitem_squeezed (nc l) "T2" = Ok t2 ->
      np.shape t2 = [n; m] ->
      np.shape (lat l) = [n] -> np.shape (lon l) = [m] ->
      wrf2gfs_params fs namefile varname kw out
      = (out1,
         Ok (surface_Dataset l "Tair" n m
               (List.map (fun x => fsub x (of_pyfloat 273.15)) (np.data t2))
               attrs_t2)))
  /\ (forall nanmax64 sh2rh64,
        @fsub float (binary64 nanmax64 sh2rh64) 300%float
              (@of_pyfloat float (binary64 nanmax64 sh2rh64) 273.15%float)
        = celsius_of_300)
  /\ PrimFloat.eqb celsius_of_300 26.85 = false
  /\ (forall nanmax32 sh2rh32,
        @fsub float (binary32 nanmax32 sh2rh32) 300%float
              (@of_pyfloat float (binary32 nanmax32 sh2rh32) 273.15%float)
        = celsius32_of_300)
  /\ PrimFloat.eqb celsius32_of_300 26.85 = false
  /\ PrimFloat.eqb celsius32_of_300 (float32.round 26.85) = false.
Proof.
  split; [|split; [|split; [|split; [|split]]]].
  - intros. now apply T2_elementwise.
  - intros. vm_compute. reflexivity.
  - vm_compute. reflexivity.
  - intros. vm_compute. reflexivity.
  - vm_compute. reflexivity.
  - vm_compute. reflexivity.
Qed.

(** ** The coordinate vectors *)

Lemma stride_lookup {A} (m : nat) :
  (1 <= m)%nat ->
  forall (n : nat) (d : list A), length d = (n * m)%nat ->
  length (np.stride n m d) = n
  /\ forall i, (i < n)%nat -> np.stride n m d !! i = d !! (i * m)%nat.
Proof.
  intros Hm. induction n as [|n IH]; intros d Hd; simpl.
  - split; [reflexivity|]. intros i Hi. lia.
  - destruct d as [|x d']; [simpl in Hd; lia|].
    destruct (IH (skipn m (x :: d'))) as [Hl Hi].
    { rewrite length_skipn, Hd. lia. }
    split; [simpl; now rewrite Hl|].
    intros [|i] Hlt; [reflexivity|].
    simpl. rewrite Hi by lia. rewrite lookup_drop.
    first [reflexivity | f_equal; lia].
Qed.

Lemma squeeze_leading_ones (k : nat) (s : list nat) :
  List.filter (fun n => negb (n =? 1)%nat) (repeat 1%nat k ++ s)
  = List.filter (fun n => negb (n =? 1)%nat) s.
Proof. induction k as [|k IH]; simpl; auto. Qed.

Lemma size_leading_ones (k : nat) (s : list nat) :
  np.size (repeat 1%nat k ++ s) = np.size s.
Proof.
  unfold np.size. induction k as [|k IH]; simpl; [reflexivity|].
  rewrite IH. lia.
Qed.

(** C9 (as amended). Take a grid of [n] rows and [m] columns, two
    dimensional or behind leading axes of length 1 (the Time axis of a WRF
    file). As a longitude grid with [n >= 1] and [m <> 1] it collapses to
    its row 0, whether the rows agree or not; when they agree that is any
    row. As a latitude grid with [m >= 1] and [n <> 1] it collapses to its
    column 0, element [i] being element [i * m] of the grid. A longitude
    grid of one column and a latitude grid of one row are squeezed to one
    dimension and come back whole, along the axis that is left. *)
Theorem collapse_first_row_and_column {F : Type} (g : np.ndarray F)
    (k n m : nat) :
  np.shape g = repeat 1%nat k ++ [n; m] -> np.wf g ->
  ((1 <= n)%nat -> m <> 1%nat ->
     collapse_lon (np.squeeze g) = Ok (np.mk [m] (row m 0 (np.data g)))
     /\ forall i, (i < n)%nat ->
          (forall j, (j < n)%nat -> row m j (np.data g) = row m 0 (np.data g)) ->
          collapse_lon (np.squeeze g) = Ok (np.mk [m] (row m i (np.data g))))
  /\ ((1 <= m)%nat -> n <> 1%nat ->
      exists col,
        collapse_lat (np.squeeze g) = Ok (np.mk [n] col)
        /\ length col = n
        /\ forall i, (i < n)%nat -> col !! i = np.data g !! (i * m)%nat)
  /\ (m = 1%nat -> n <> 1%nat ->
      collapse_lon (np.squeeze g) = Ok (np.mk [n] (np.data g)))
  /\ (n = 1%nat -> m <> 1%nat ->
      collapse_lat (np.squeeze g) = Ok (np.mk [m] (np.data g))).
Proof.
  intros Hs Hwf. unfold np.wf in Hwf.
  rewrite Hs, size_leading_ones in Hwf. simpl in Hwf.
  assert (Hsq : np.squeeze g
                = np.mk (List.filter (fun n => negb (n =? 1)%nat) [n; m])
                        (np.data g)).
  { unfold np.squeeze. now rewrite Hs, squeeze_leading_ones. }
  rewrite Hsq. clear Hsq Hs.
  assert (Hlon : (1 <= n)%nat -> m <> 1%nat ->
            collapse_lon
              (np.mk (List.filter (fun n => negb (n =? 1)%nat) [n; m]) (np.data g))
            = Ok (np.mk [m] (row m 0 (np.data g)))).
  { intros Hn Hm. unfold collapse_lon, row. simpl.
    destruct (Nat.eqb_spec m 1) as [|_]; [contradiction|].
    destruct (Nat.eqb_spec n 1) as [->|Hn1]; simpl.
    - rewrite skipn_O, firstn_all2 by lia. reflexivity.
    - unfold np.row0. destruct (Nat.eqb_spec n 0); [lia|]. now rewrite skipn_O. }
  split; [|split; [|split]].
  - intros Hn Hm. split; [auto|].
    intros i Hi Hrows. rewrite (Hrows i Hi). auto.
  - intros Hm Hn. unfold collapse_lat. simpl.
    destruct (Nat.eqb_spec n 1) as [|_]; [contradiction|].
    destruct (Nat.eqb_spec m 1) as [->|Hm1]; simpl.
    + exists (np.data g). split; [reflexivity|]. split; [lia|].
      intros i _. f_equal. lia.
    + unfold np.col0. destruct (Nat.eqb_spec m 0); [lia|].
      destruct (stride_lookup m Hm n (np.data g)) as [Hl Hi]; [lia|].
      exists (np.stride n m (np.data g)). auto.
  - intros -> Hn. unfold collapse_lon. simpl.
    destruct (Nat.eqb_spec n 1) as [|_]; [contradiction|]. reflexivity.
  - intros -> Hm. unfold collapse_lat. simpl.
    destruct (Nat.eqb_spec m 1) as [|_]; [contradiction|]. reflexivity.
Qed.

(** ** Lead time and time coordinate *)

Lemma secs_of_day_range (x : datetime.t) :
  datetime.valid x = true -> 0 <= datetime.secs_of_day x < 86400.
Proof.
  intros H. apply datetime_facts.valid_inv in H. unfold datetime.secs_of_day. lia.
Qed.

(** C6. When both dates parse, the lead time is the number of seconds of
    [valid_time - start_date] divided by 3600, that number being the
    difference of the two times of day modulo one day; moving the valid
    time by whole days leaves the lead time as it is. *)
Theorem lead_hours_is_sub_day_difference (T S : string) (b s : datetime.t) :
  strptime.strptime T format_valid_time = Some b ->
  strptime.strptime S format_start_date = Some s ->
  lead_hours b s = hours_of_seconds (datetime.seconds (datetime.sub b s))
  /\ datetime.seconds (datetime.sub b s)
     = (datetime.secs_of_day b - datetime.secs_of_day s) mod 86400
  /\ forall (T' : string) (b' : datetime.t) (k : Z),
       strptime.strptime T' format_valid_time = Some b' ->
       instant b' = instant b + k * 86400 ->
       lead_hours b' s = lead_hours b s.
Proof.
  intros Hb Hs. split; [reflexivity|]. split; [reflexivity|].
  intros T' b' k Hb' Hk.
  apply strptime_valid, secs_of_day_range in Hb, Hb'.
  unfold instant in Hk.
  assert (E : datetime.secs_of_day b' = datetime.secs_of_day b) by lia.
  rewrite !lead_hours_unfold, !seconds_sub, E. reflexivity.
Qed.

(** C10 (as amended). The lead time lies in [0, 24); and when the valid
    time is a whole number of days after the start date it is 0, however
    many the days are. For the key PR the call then, when a non-empty
    [step_b] is supplied, returns RAINNC + RAINC of the current file as
    [rain], the file [step_b] names not being opened; when no [step_b] is
    supplied the lead time is not consulted at all: the call prints that
    [step_b] must be defined and returns the empty dataset. *)
Theorem lead_hours_within_one_day (T S : string) (b s : datetime.t) :
  strptime.strptime T format_valid_time = Some b ->
  strptime.strptime S format_start_date = Some s ->
  (PrimFloat.leb 0 (lead_hours b s) = true
   /\ PrimFloat.ltb (lead_hours b s) 24 = true)
  /\ forall k : Z,
       datetime.sub b s = datetime.mk_delta k 0 ->
       PrimFloat.eqb (lead_hours b s) 0 = true
       /\ forall (F : Type) (dtype : DType F)
                 (fs : gmap string (SourceDataset F))
                 (namefile varname : string) (kw : kwargs)
                 (out out1 : stdout) (l : @locals F) (times : list string),
            prologue fs namefile kw out = (out1, Ok l) ->
            Times (nc l) = Some (T :: times) ->
            START_DATE (nc l) = Some S ->
            upper varname = "PR" ->
            hours l = lead_hours b s
            /\ (forall (path : string) (rainnc rainc total : np.ndarray F)
                       (n m : nat),
                  step_b kw = Some path -> path <> EmptyString ->
                  getitem_squeezed (nc l) "RAINNC" = Ok rainnc ->
                  getitem_squeezed (nc l) "RAINC" = Ok rainc ->
                  np.binop fadd rainnc rainc = Ok total ->
                  np.shape total = [n; m] ->
                  np.shape (lat l) = [n] -> np.shape (lon l) = [m] ->
                  wrf2gfs_params fs namefile varname kw out
                  = (out1,
                     Ok (surface_Dataset l "rain" n m (np.data total)
                                         attrs_pr)))
            /\ (step_b kw = None ->
                wrf2gfs_params fs namefile varname kw out
                = (out1 ++ step_b_diagnostic, Ok empty_Dataset)).
Proof.
  intros Hb Hs.
  destruct (hours_of_seconds_spec _ (seconds_sub_range b s))
    as (Heq & _ & Hle & Hlt).
  rewrite <- lead_hours_unfold in Heq, Hle, Hlt.
  split; [auto|].
  intros k Hk.
  assert (Hz : PrimFloat.eqb (lead_hours b s) 0 = true).
  { rewrite Heq, Hk. reflexivity. }
  split; [exact Hz|].
  intros F dtype fs namefile varname kw out out1 l times Hp Ht Ha Hv.
  assert (Hl : hours l = lead_hours b s).
  { pose proof (prologue_inv _ _ _ _ _ _ Hp)
      as (a & times' & attr & b' & s' & since
          & _ & Ht' & Hb' & Ha' & Hs' & Hh & _).
    rewrite Ht in Ht'. injection Ht' as <- _.
    rewrite Ha in Ha'. injection Ha' as <-.
    rewrite Hb in Hb'. injection Hb' as <-.
    rewrite Hs in Hs'. injection Hs' as <-.
    exact Hh. }
  split; [exact Hl|].
  rewrite (wrf2gfs_params_dispatch _ _ _ _ _ _ _ Hp), Hv, dispatch_PR.
  split.
  - intros path rainnc rainc total n m Hsb Hne Hn Hc Hsum Hshape Hlat Hlon.
    unfold bind.
    rewrite (branch_pr_some fs kw l path total n m); auto.
    rewrite pr_ncvar_zero by (now rewrite Hl).
    now apply accumulation_ok with rainnc rainc.
  - intros Hsb. unfold bind. now rewrite branch_pr_None.
Qed.

(** C7. The time coordinate is the integer
    [floor((valid_time - epoch) / 1 day) * 24 + valid_time.hour], and for
    one epoch it does not decrease when the valid time advances. *)
Theorem hours_since_monotone (yearsice : Z) (since : datetime.t)
    (T1 T2 : string) (b1 b2 : datetime.t) :
  date_sice yearsice = Some since ->
  strptime.strptime T1 format_valid_time = Some b1 ->
  strptime.strptime T2 format_valid_time = Some b2 ->
  hours_since b1 since
  = (instant b1 - instant since) / 86400 * 24 + datetime.hour b1
  /\ (datetime.le b1 b2 = true ->
      hours_since b1 since <= hours_since b2 since).
Proof.
  intros He H1 H2. split.
  - unfold hours_since. now rewrite datetime_facts.days_sub_floor.
  - intros Hle.
    apply date_sice_midnight in He as (Hh & Hm & Hs).
    assert (He : datetime.secs_of_day since = 0).
    { unfold datetime.secs_of_day. lia. }
    apply strptime_valid in H1, H2.
    unfold hours_since.
    rewrite !datetime_facts.days_sub_midnight by assumption.
    destruct (datetime_facts.le_ordinal b1 b2 H1 H2 Hle) as [Hlt|(Heq & _ & Hhr)].
    + apply datetime_facts.valid_inv in H1, H2. lia.
    + lia.
Qed.

(** ** The statements on the sample files *)

Lemma sample_prologue_00 :
  prologue Sample.fs "wrfout_d01_2023-12-25_00" Sample.no_kwargs []
  = ([], Ok sample_locals_00).
Proof. vm_compute. reflexivity. Qed.

Lemma sample_prologue_06 (kw : kwargs) :
  yearsince kw = None ->
  prologue Sample.fs "wrfout_d01_2023-12-25_06" kw [] = ([], Ok sample_locals_06).
Proof. destruct kw as [y s]. simpl. intros ->. vm_compute. reflexivity. Qed.

Lemma unsupported_key_raises_witness :
  ~ In (upper "xyz") supported_keys
  /\ exists out' e,
       wrf2gfs_params (dtype := Sample.float64) Sample.fs
         "wrfout_d01_2023-12-25_06" "xyz" Sample.no_kwargs [] = (out', Raise e)
       /\ forall out1 l,
            prologue Sample.fs "wrfout_d01_2023-12-25_06" Sample.no_kwargs []
            = (out1, Ok l) ->
            out' = out1 /\ e = UnboundLocalError "ds".
Proof.
  assert (H : ~ In (upper "xyz") supported_keys).
  { vm_compute. intuition discriminate. }
  split; [exact H|].
  exact (unsupported_key_raises Sample.fs _ _ _ _ H).
Defined.

Lemma rh_populated_or_raises_witness :
  rh_missing (nc sample_locals_06) = ["Q2"]
  /\ wrf2gfs_params (dtype := Sample.float64) Sample.fs
       "wrfout_d01_2023-12-25_06" "rh" Sample.no_kwargs []
     = (rh_diagnostic ["Q2"], Raise (UnboundLocalError "ds")).
Proof.
  split; [vm_compute; reflexivity|].
  refine (proj2 (rh_populated_or_raises (dtype := Sample.float64) Sample.fs _
                   "rh" _ [] [] sample_locals_06
                   (sample_prologue_06 Sample.no_kwargs eq_refl) eq_refl) _).
  vm_compute. discriminate.
Defined.

(** C3, as stated, fails: at a zero lead and without [step_b] the call
    returns the empty dataset, which holds no rain field. *)
Lemma pr_zero_lead_without_step_b :
  prologue Sample.fs "wrfout_d01_2023-12-25_00" Sample.no_kwargs []
  = ([], Ok sample_locals_00)
  /\ PrimFloat.eqb (hours sample_locals_00) 0 = true
  /\ wrf2gfs_params (dtype := Sample.float64) Sample.fs
       "wrfout_d01_2023-12-25_00" "pr" Sample.no_kwargs []
     = (step_b_diagnostic, Ok empty_Dataset)
  /\ field_data (@empty_Dataset float) "rain" = None.
Proof. repeat split; vm_compute; reflexivity. Qed.

Lemma pr_zero_lead_current_file_witness :
  Sample.fs !! "no_such_file" = None
  /\ wrf2gfs_params (dtype := Sample.float64) Sample.fs
       "wrfout_d01_2023-12-25_00" "PR"
       (mk_kwargs None (Some "no_such_file")) []
     = ([], Ok (surface_Dataset sample_locals_00 "rain" 2 3
                  [1; 1; 1; 1; 1; 1]%float attrs_pr)).
Proof.
  split; [vm_compute; reflexivity|].
  refine (proj1 (proj1 (pr_zero_lead_current_file (dtype := Sample.float64)
            Sample.fs "wrfout_d01_2023-12-25_00" "PR"
            (mk_kwargs None (Some "no_such_file")) [] [] sample_locals_00
            _ eq_refl eq_refl)
            "no_such_file"
            (np.mk [2; 3]%nat [0; 0; 0; 0; 0; 0]%float)
            (np.mk [2; 3]%nat [1; 1; 1; 1; 1; 1]%float)
            (np.mk [2; 3]%nat [1; 1; 1; 1; 1; 1]%float) 2%nat 3%nat
            eq_refl _ _ _ _ eq_refl eq_refl eq_refl)).
  - vm_compute. reflexivity.
  - discriminate.
  - vm_compute. reflexivity.
  - vm_compute. reflexivity.
  - vm_compute. reflexivity.
Defined.

Lemma pr_positive_lead_difference_witness :
  PrimFloat.ltb 0 (hours sample_locals_06) = true
  /\ wrf2gfs_params (dtype := Sample.float64) Sample.fs
       "wrfout_d01_2023-12-25_06" "pr"
       (mk_kwargs None (Some "wrfout_d01_2023-12-25_05")) []
     = ([], Ok (surface_Dataset sample_locals_06 "rain" 2 3
                  [2; 2; 2; 2; 2; 2]%float attrs_pr)).
Proof.
  split; [vm_compute; reflexivity|].
  refine (proj1 (pr_positive_lead_difference (dtype := Sample.float64) Sample.fs
            "wrfout_d01_2023-12-25_06" "pr"
            (mk_kwargs None (Some "wrfout_d01_2023-12-25_05")) [] []
            sample_locals_06 "wrfout_d01_2023-12-25_05"
            (Sample.wrfout "2023-12-25_05:00:00" Sample.start 3)
            (np.mk [2; 3]%nat [5; 5; 5; 5; 5; 5]%float)
            (np.mk [2; 3]%nat [1; 1; 1; 1; 1; 1]%float)
            (np.mk [2; 3]%nat [3; 3; 3; 3; 3; 3]%float)
            (np.mk [2; 3]%nat [1; 1; 1; 1; 1; 1]%float)
            (np.mk [2; 3]%nat [6; 6; 6; 6; 6; 6]%float)
            (np.mk [2; 3]%nat [4; 4; 4; 4; 4; 4]%float)
            (np.mk [2; 3]%nat [2; 2; 2; 2; 2; 2]%float) 2 3
            (sample_prologue_06 (mk_kwargs None (Some "wrfout_d01_2023-12-25_05"))
                                eq_refl)
            eq_refl _ eq_refl _ _ _ _ _ _ _ _ _
            eq_refl eq_refl eq_refl)).
  all: try (vm_compute; reflexivity).
  discriminate.
Defined.

Lemma pr_without_step_b_witness :
  PrimFloat.ltb 0 (hours sample_locals_06) = true
  /\ wrf2gfs_params (dtype := Sample.float64) Sample.fs
       "wrfout_d01_2023-12-25_06" "pr" Sample.no_kwargs []
     = (step_b_diagnostic, Ok empty_Dataset).
Proof.
  split; [vm_compute; reflexivity|].
  exact (pr_without_step_b (dtype := Sample.float64) Sample.fs _ "pr" _ [] []
           sample_locals_06 (sample_prologue_06 Sample.no_kwargs eq_refl) eq_refl eq_refl).
Defined.

(** C8, as stated, fails: the float64 field of constant 300.0 does not
    come out as 26.85. *)
Lemma T2_of_300_is_not_26_85 :
  exists (ds : Dataset float) (d : list float),
    wrf2gfs_params (dtype := Sample.float64) Sample.fs
      "wrfout_d01_2023-12-25_06" "t2" Sample.no_kwargs [] = ([], Ok ds)
    /\ field_data ds "Tair" = Some d
    /\ d = repeat celsius_of_300 6
    /\ Forall (fun x => PrimFloat.eqb x 26.85 = false) d.
Proof.
  eexists _, _. split; [vm_compute; reflexivity|].
  split; [vm_compute; reflexivity|].
  split; [vm_compute; reflexivity|].
  repeat constructor.
Qed.

Lemma T2_subtracts_kelvin_offset_witness :
  wrf2gfs_params (dtype := Sample.float64) Sample.fs
    "wrfout_d01_2023-12-25_06" "t2" Sample.no_kwargs []
  = ([], Ok (surface_Dataset sample_locals_06 "Tair" 2 3
               (repeat celsius_of_300 6) attrs_t2)).
Proof.
  exact (proj1 T2_subtracts_kelvin_offset float Sample.float64 Sample.fs
           "wrfout_d01_2023-12-25_06" "t2" Sample.no_kwargs [] []
           sample_locals_06 (np.mk [2; 3]%nat (repeat 300%float 6)) 2%nat 3%nat
           (sample_prologue_06 Sample.no_kwargs eq_refl) eq_refl eq_refl eq_refl eq_refl eq_refl).
Defined.

(** C9, as stated, fails: a longitude grid of two rows and one column
    comes back as its column, not as its first row. *)
Lemma collapse_lon_single_column :
  let g := np.mk [2; 1]%nat [1; 2]%float in
  np.wf g
  /\ row 1 0 (np.data g) = [1]%float
  /\ collapse_lon (np.squeeze g) = Ok (np.mk [2]%nat [1; 2]%float)
  /\ collapse_lon (np.squeeze g) <> Ok (np.mk [1]%nat (row 1 0 (np.data g))).
Proof.
  simpl. repeat split. intros H. vm_compute in H. discriminate H.
Qed.

Lemma collapse_first_row_and_column_witness :
  collapse_lon (np.squeeze (values Sample.XLONG))
  = Ok (np.mk [3]%nat [1; 2; 3]%float)
  /\ exists col,
       collapse_lat (np.squeeze (values Sample.XLAT)) = Ok (np.mk [2]%nat col)
       /\ length col = 2%nat
       /\ forall i, (i < 2)%nat ->
            col !! i = [10; 10; 10; 20; 20; 20]%float !! (i * 3)%nat.
Proof.
  pose proof (collapse_first_row_and_column (values Sample.XLONG) 1 2 3
                eq_refl eq_refl)
    as [Hlon _].
  pose proof (collapse_first_row_and_column (values Sample.XLAT) 1 2 3
                eq_refl eq_refl)
    as [_ Hlat].
  split.
  - exact (proj1 (Hlon ltac:(lia) ltac:(lia))).
  - exact (proj1 Hlat ltac:(lia) ltac:(lia)).
Defined.

Lemma lead_hours_is_sub_day_difference_witness :
  lead_hours (datetime.mk 2023 12 25 6 0 0) (datetime.mk 2023 12 25 0 0 0)
  = hours_of_seconds 21600
  /\ forall (T' : string) (b' : datetime.t) (k : Z),
       strptime.strptime T' format_valid_time = Some b' ->
       instant b' = instant (datetime.mk 2023 12 25 6 0 0) + k * 86400 ->
       lead_hours b' (datetime.mk 2023 12 25 0 0 0)
       = lead_hours (datetime.mk 2023 12 25 6 0 0) (datetime.mk 2023 12 25 0 0 0).
Proof.
  pose proof (lead_hours_is_sub_day_difference
                "2023-12-25_06:00:00" Sample.start
                (datetime.mk 2023 12 25 6 0 0) (datetime.mk 2023 12 25 0 0 0)
                eq_refl eq_refl) as (H1 & _ & H3).
  split; [exact H1|exact H3].
Defined.

(** C10, as stated, fails: two whole days after the start date and
    without [step_b], the precipitation path does not use the accumulation
    of the current file; the call returns the empty dataset, which holds
    no rain field. *)
Lemma pr_whole_days_without_step_b :
  strptime.strptime "2023-12-27_00:00:00" format_valid_time
  = Some (datetime.mk 2023 12 27 0 0 0)
  /\ strptime.strptime Sample.start format_start_date
     = Some (datetime.mk 2023 12 25 0 0 0)
  /\ datetime.sub (datetime.mk 2023 12 27 0 0 0) (datetime.mk 2023 12 25 0 0 0)
     = datetime.mk_delta 2 0
  /\ prologue Sample.fs "wrfout_d01_2023-12-27_00" Sample.no_kwargs []
     = ([], Ok sample_locals_27)
  /\ PrimFloat.eqb (hours sample_locals_27) 0 = true
  /\ wrf2gfs_params (dtype := Sample.float64) Sample.fs
       "wrfout_d01_2023-12-27_00" "pr" Sample.no_kwargs []
     = (step_b_diagnostic, Ok empty_Dataset)
  /\ field_data (@empty_Dataset float) "rain" = None.
Proof. repeat split; vm_compute; reflexivity. Qed.

Lemma lead_hours_within_one_day_witness :
  datetime.sub (datetime.mk 2023 12 27 0 0 0) (datetime.mk 2023 12 25 0 0 0)
  = datetime.mk_delta 2 0
  /\ PrimFloat.eqb
       (lead_hours (datetime.mk 2023 12 27 0 0 0) (datetime.mk 2023 12 25 0 0 0))
       0 = true
  /\ Sample.fs !! "no_such_file" = None
  /\ wrf2gfs_params (dtype := Sample.float64) Sample.fs
       "wrfout_d01_2023-12-27_00" "pr"
       (mk_kwargs None (Some "no_such_file")) []
     = ([], Ok (surface_Dataset sample_locals_27 "rain" 2 3
                  [10; 10; 10; 10; 10; 10]%float attrs_pr)).
Proof.
  pose proof (proj2 (lead_hours_within_one_day
                       "2023-12-27_00:00:00" Sample.start
                       (datetime.mk 2023 12 27 0 0 0)
                       (datetime.mk 2023 12 25 0 0 0) eq_refl eq_refl)
                    2 eq_refl) as [Hz Hcall].
  split; [reflexivity|]. split; [exact Hz|].
  split; [vm_compute; reflexivity|].
  refine (proj1 (proj2 (Hcall float Sample.float64 Sample.fs
                          "wrfout_d01_2023-12-27_00" "pr"
                          (mk_kwargs None (Some "no_such_file")) [] []
                          sample_locals_27 [] _ eq_refl eq_refl eq_refl))
                "no_such_file"
                (np.mk [2; 3]%nat [9; 9; 9; 9; 9; 9]%float)
                (np.mk [2; 3]%nat [1; 1; 1; 1; 1; 1]%float)
                (np.mk [2; 3]%nat [10; 10; 10; 10; 10; 10]%float) 2%nat 3%nat
                eq_refl _ _ _ _ eq_refl eq_refl eq_refl).
  - vm_compute. reflexivity.
  - discriminate.
  - vm_compute. reflexivity.
  - vm_compute. reflexivity.
  - vm_compute. reflexivity.
Defined.

Lemma hours_since_monotone_witness :
  hours_since (datetime.mk 2023 12 25 5 0 0) (datetime.mk 2023 1 1 0 0 0)
  <= hours_since (datetime.mk 2023 12 25 6 0 0) (datetime.mk 2023 1 1 0 0 0).
Proof.
  exact (proj2 (hours_since_monotone 2023 (datetime.mk 2023 1 1 0 0 0)
                  "2023-12-25_05:00:00" "2023-12-25_06:00:00"
                  (datetime.mk 2023 12 25 5 0 0) (datetime.mk 2023 12 25 6 0 0)
                  eq_refl eq_refl eq_refl) eq_refl).
Defined.

(** ** Further properties: the helper and the key *)

Lemma index_first (lst : list string) (element : string) :
  forall i, index lst element = Some i ->
  lst !! i = Some element /\ forall j, (j < i)%nat -> lst !! j <> Some element.
Proof.
  induction lst as [|x lst IH]; simpl; [discriminate|].
  intros i. destruct (String.eqb_spec x element) as [->|Hne].
  - intros [= <-]. split; [reflexivity|]. intros j Hj. lia.
  - destruct (index lst element) as [k|]; [|discriminate].
    intros [= <-]. destruct (IH k eq_refl) as [Hk Hbefore].
    split; [exact Hk|].
    intros [|j] Hj; simpl; [congruence|]. apply Hbefore. lia.
Qed.

(** X1. [element_exists] answers [True] exactly for the members of the
    list, and [False] otherwise instead of raising; for a member,
    [lst.index] is the position of its first occurrence. *)
Theorem element_exists_iff_member (lst : list string) (element : string) :
  (element_exists lst element = true <-> In element lst)
  /\ (element_exists lst element = false <-> ~ In element lst)
  /\ (In element lst ->
      exists i, index lst element = Some i
                /\ lst !! i = Some element
                /\ forall j, (j < i)%nat -> lst !! j <> Some element).
Proof.
  pose proof (element_exists_In lst element) as H.
  split; [exact H|]. split.
  - rewrite <- H. destruct (element_exists lst element); split; congruence.
  - intros Hin. apply H in Hin. unfold element_exists in Hin.
    destruct (index lst element) as [i|] eqn:E; [|discriminate].
    exists i. split; [reflexivity|]. now apply index_first.
Qed.

Lemma upper_ascii_idempotent (c : ascii) :
  upper_ascii (upper_ascii c) = upper_ascii c.
Proof. destruct c as [[] [] [] [] [] [] [] []]; reflexivity. Qed.

Lemma upper_idempotent (s : string) : upper (upper s) = upper s.
Proof.
  induction s as [|c s IH]; simpl; [reflexivity|].
  now rewrite upper_ascii_idempotent, IH.
Qed.

(** X2. The key is read without regard to case: a call with [varname]
    and the call with its uppercase form print and return the same. *)
Theorem key_is_case_insensitive {F : Type} {dtype : DType F}
    (fs : gmap string (SourceDataset F)) (namefile varname : string)
    (kw : kwargs) (out : stdout) :
  wrf2gfs_params fs namefile varname kw out
  = wrf2gfs_params fs namefile (upper varname) kw out.
Proof. unfold wrf2gfs_params. now rewrite upper_idempotent. Qed.

(** ** Further properties: the lines before the dispatch *)

Section prologue_more.

Context {F : Type}.
Implicit Types (fs : gmap string (SourceDataset F)) (l : @locals F).

Lemma bind_of_result_inv {A B} (r : result A) (k : A -> M B)
    (out out1 : stdout) (x : B) :
  bind (of_result r) k out = (out1, Ok x) ->
  exists a, r = Ok a /\ k a out = (out1, Ok x).
Proof.
  unfold bind, of_result. destruct r as [a|e]; [|discriminate]. eauto.
Qed.

Lemma resolve_yearsice_run (kw : kwargs) (start : datetime.t) (out : stdout) :
  resolve_yearsice kw start out
  = (out ++ yearsince_notice kw, Ok (reference_year kw start)).
Proof.
  unfold resolve_yearsice, yearsince_notice, reference_year.
  destruct (yearsince kw) as [y|]; [|now rewrite app_nil_r].
  destruct (negb (y =? 0)).
  - unfold bind, print, ret. simpl. now rewrite <- !app_assoc.
  - unfold ret. now rewrite app_nil_r.
Qed.

(** Everything a successful run of the lines before the dispatch has
    read and computed. *)
Lemma prologue_inv_full fs (namefile : string) (kw : kwargs)
    (out out1 : stdout) l :
  prologue fs namefile kw out = (out1, Ok l) ->
  exists (a : string) (times : list string) (attr : string)
         (b start since : datetime.t) (xlong xlat : np.ndarray F),
    fs !! namefile = Some (nc l)
    /\ Times (nc l) = Some (a :: times)
    /\ strptime.strptime a format_valid_time = Some b
    /\ START_DATE (nc l) = Some attr
    /\ strptime.strptime attr format_start_date = Some start
    /\ hours l = lead_hours b start
    /\ date_sice (reference_year kw start) = Some since
    /\ time_value l = hours_since b since
    /\ getitem_squeezed (nc l) "XLONG" = Ok xlong
    /\ getitem_squeezed (nc l) "XLAT" = Ok xlat
    /\ collapse_lon xlong = Ok (lon l)
    /\ collapse_lat xlat = Ok (lat l)
    /\ attrs_time l = [("units", "hours since " +:+ strftime_since since);
                       ("calendar", "proleptic_gregorian")]
    /\ out1 = out ++ yearsince_notice kw.
Proof.
  unfold prologue, open_dataset. intros H.
  apply bind_lift_inv in H as (ncf & Hfs & H).
  apply bind_lift_inv in H as (times0 & Ht & H).
  apply bind_lift_inv in H as (a & Hhd & H).
  apply bind_lift_inv in H as (b & Hb & H).
  apply bind_lift_inv in H as (attr & Ha & H).
  apply bind_lift_inv in H as (start & Hs & H).
  apply bind_inv in H as (out' & yearsice & Hy & H).
  rewrite resolve_yearsice_run in Hy. injection Hy as <- <-.
  apply bind_lift_inv in H as (since & Hd & H).
  apply bind_of_result_inv in H as (xlong & Hxlong & H).
  apply bind_of_result_inv in H as (xlat & Hxlat & H).
  apply bind_of_result_inv in H as (lon1 & Hlon & H).
  apply bind_of_result_inv in H as (lat1 & Hlat & H).
  injection H as <- <-. simpl.
  destruct times0 as [|a' times]; [discriminate|]. injection Hhd as ->.
  exists a, times, attr, b, start, since, xlong, xlat.
  repeat split; assumption.
Qed.

Lemma getitem_squeezed_present (ncf : SourceDataset F) (name : string)
    (x : np.ndarray F) :
  getitem_squeezed ncf name = Ok x ->
  exists v, variables ncf !! name = Some v /\ np.shape (values v) <> []
            /\ x = np.squeeze (values v).
Proof.
  unfold getitem_squeezed. destruct (variables ncf !! name) as [v|]; [|discriminate].
  unfold np.ndim. destruct (np.shape (values v)) as [|n s] eqn:E; simpl;
    [discriminate|].
  intros [= <-]. exists v. rewrite E. repeat split. discriminate.
Qed.

End prologue_more.

(** X3. Whatever the key, a call returns a dataset (be it the empty one)
    only if the file exists and holds a non-empty [Times] whose first entry
    parses, a [START_DATE] that parses, and the variables [XLONG] and
    [XLAT]. *)
Theorem success_needs_time_and_coordinates {F : Type} {dtype : DType F}
    (fs : gmap string (SourceDataset F)) (namefile varname : string)
    (kw : kwargs) (out out' : stdout) (ds : Dataset F) :
  wrf2gfs_params fs namefile varname kw out = (out', Ok ds) ->
  exists (ncf : SourceDataset F) (a : string) (times : list string)
         (attr : string) (b start : datetime.t) (xlong xlat : DataArray F),
    fs !! namefile = Some ncf
    /\ Times ncf = Some (a :: times)
    /\ strptime.strptime a format_valid_time = Some b
    /\ START_DATE ncf = Some attr
    /\ strptime.strptime attr format_start_date = Some start
    /\ variables ncf !! "XLONG" = Some xlong
    /\ variables ncf !! "XLAT" = Some xlat.
Proof.
  unfold wrf2gfs_params. intros H.
  apply bind_inv in H as (out1 & l & Hp & _).
  apply prologue_inv_full in Hp
    as (a & times & attr & b & start & since & xlong & xlat
        & Hfs & Ht & Hb & Ha & Hs & _ & _ & _ & Hx & Hy & _).
  apply getitem_squeezed_present in Hx as (vx & Hx & _).
  apply getitem_squeezed_present in Hy as (vy & Hy & _).
  exists (nc l), a, times, attr, b, start, vx, vy. repeat split; assumption.
Qed.

(** ** Further properties: the epoch and the time coordinate *)

Lemma epoch_table :
  forall_block 14 0 (fun y => (10000 <=? y) || epoch_ok y) = true.
Proof. vm_compute. reflexivity. Qed.

Lemma datetime_eqb_eq (a b : datetime.t) : datetime_eqb a b = true -> a = b.
Proof.
  destruct a, b. unfold datetime_eqb, datetime.fields. simpl.
  intros H.
  repeat (apply andb_prop in H; destruct H as [?%Z.eqb_eq H]).
  now subst.
Qed.

Lemma date_sice_epoch (y : Z) :
  0 <= y <= 9999 -> date_sice y = epoch_of_year y.
Proof.
  intros Hy.
  pose proof (forall_block_spec _ _ _ epoch_table y) as H.
  assert (Hr : 0 <= y < 0 + 2 ^ Z.of_nat 14)
    by (change (2 ^ Z.of_nat 14) with 16384; lia).
  apply H in Hr. apply orb_prop in Hr as [Hr|Hr]; [apply Z.leb_le in Hr; lia|].
  unfold epoch_ok in Hr.
  destruct (date_sice y) as [a|], (epoch_of_year y) as [b|];
    try discriminate; [|reflexivity].
  f_equal. now apply datetime_eqb_eq.
Qed.

(** X4. For a year from 0 to 9999 the epoch [strptime] reads from
    [str(year)+'0101 00'] is: the first of January of that year at 00:00
    when the year has four digits; the first of October of ten times the
    year when it has three (the digits of the month are taken for the
    year); and none, that is a [ValueError], when it has fewer. *)
Theorem date_sice_of_year (y : Z) :
  0 <= y <= 9999 ->
  date_sice y
  = if y <? 100 then None
    else if y <? 1000 then Some (datetime.mk (10 * y) 10 1 0 0 0)
    else Some (datetime.mk y 1 1 0 0 0).
Proof. exact (date_sice_epoch y). Qed.

Lemma date_sice_of_year_witness :
  date_sice 2023 = Some (datetime.mk 2023 1 1 0 0 0)
  /\ date_sice 999 = Some (datetime.mk 9990 10 1 0 0 0)
  /\ date_sice 0 = None.
Proof.
  split; [|split].
  - exact (date_sice_of_year 2023 ltac:(lia)).
  - exact (date_sice_of_year 999 ltac:(lia)).
  - exact (date_sice_of_year 0 ltac:(lia)).
Defined.

Lemma toordinal_injective (a b : datetime.t) :
  datetime.valid a = true -> datetime.valid b = true ->
  datetime.toordinal a = datetime.toordinal b ->
  datetime.year a = datetime.year b /\ datetime.month a = datetime.month b
  /\ datetime.day a = datetime.day b.
Proof.
  intros Ha Hb. apply datetime_facts.valid_inv in Ha, Hb.
  destruct a as [y1 m1 d1 h1 n1 s1], b as [y2 m2 d2 h2 n2 s2].
  unfold datetime.toordinal. simpl in *. intros E.
  destruct (Z.lt_trichotomy y1 y2) as [Hy|[->|Hy]].
  - pose proof (datetime_facts.year_mono y1 y2 m1 m2 d1 d2). lia.
  - destruct (Z.lt_trichotomy m1 m2) as [Hm|[->|Hm]].
    + pose proof (datetime_facts.month_mono y2 m1 m2 d1 d2).
      unfold datetime._ymd2ord in E. lia.
    + unfold datetime._ymd2ord in E. lia.
    + pose proof (datetime_facts.month_mono y2 m2 m1 d2 d1).
      unfold datetime._ymd2ord in E. lia.
  - pose proof (datetime_facts.year_mono y2 y1 m2 m1 d2 d1). lia.
Qed.

Lemma hours_since_midnight (b since : datetime.t) :
  datetime.valid b = true -> datetime.secs_of_day since = 0 ->
  hours_since b since
  = (datetime.toordinal b - datetime.toordinal since) * 24 + datetime.hour b.
Proof.
  intros Hb He. unfold hours_since.
  now rewrite datetime_facts.days_sub_midnight.
Qed.

Lemma date_sice_secs (yearsice : Z) (since : datetime.t) :
  date_sice yearsice = Some since -> datetime.secs_of_day since = 0.
Proof.
  intros H. apply date_sice_midnight in H as (Hh & Hm & Hs).
  unfold datetime.secs_of_day. lia.
Qed.

(** X5. Distinct valid times get distinct time coordinates: for one
    epoch, two valid times with the same [hours_since] are the same time,
    and a later valid time has a strictly larger one. *)
Theorem hours_since_injective (yearsice : Z) (since : datetime.t)
    (T1 T2 : string) (b1 b2 : datetime.t) :
  date_sice yearsice = Some since ->
  strptime.strptime T1 format_valid_time = Some b1 ->
  strptime.strptime T2 format_valid_time = Some b2 ->
  (hours_since b1 since = hours_since b2 since -> b1 = b2)
  /\ (datetime.le b1 b2 = true -> b1 <> b2 ->
      hours_since b1 since < hours_since b2 since).
Proof.
  intros He H1 H2.
  apply date_sice_secs in He.
  pose proof (valid_time_on_the_hour _ _ H1) as [M1 S1].
  pose proof (valid_time_on_the_hour _ _ H2) as [M2 S2].
  apply strptime_valid in H1, H2.
  rewrite !hours_since_midnight by assumption.
  assert (Hinj : (datetime.toordinal b1 - datetime.toordinal since) * 24
                 + datetime.hour b1
                 = (datetime.toordinal b2 - datetime.toordinal since) * 24
                   + datetime.hour b2 -> b1 = b2).
  { intros E.
    pose proof (datetime_facts.valid_inv _ H1) as V1.
    pose proof (datetime_facts.valid_inv _ H2) as V2.
    assert (Eo : datetime.toordinal b1 = datetime.toordinal b2) by lia.
    destruct (toordinal_injective b1 b2 H1 H2 Eo) as (Ey & Em & Ed).
    destruct b1, b2. simpl in *. f_equal; lia. }
  split; [exact Hinj|].
  intros Hle Hne.
  destruct (datetime_facts.le_ordinal b1 b2 H1 H2 Hle) as [Hlt|(Heq & _ & Hhr)].
  - apply datetime_facts.valid_inv in H1, H2. lia.
  - assert (datetime.hour b1 <> datetime.hour b2).
    { intros Eh. apply Hne, Hinj. lia. }
    lia.
Qed.

Lemma hours_since_injective_witness :
  hours_since (datetime.mk 2023 12 25 5 0 0) (datetime.mk 2023 1 1 0 0 0)
  < hours_since (datetime.mk 2023 12 25 6 0 0) (datetime.mk 2023 1 1 0 0 0).
Proof.
  refine (proj2 (hours_since_injective 2023 (datetime.mk 2023 1 1 0 0 0)
                   "2023-12-25_05:00:00" "2023-12-25_06:00:00"
                   (datetime.mk 2023 12 25 5 0 0) (datetime.mk 2023 12 25 6 0 0)
                   eq_refl eq_refl eq_refl) eq_refl _).
  discriminate.
Defined.

(** X6. Changing the reference year moves the time coordinate of every
    valid time by the same amount, 24 hours per day between the two
    epochs; from a four-digit year to the next that is 8760 hours, 8784
    when the first year is a leap year. *)
Theorem reference_year_shifts_time (y1 y2 : Z) (e1 e2 : datetime.t)
    (T : string) (b : datetime.t) :
  date_sice y1 = Some e1 -> date_sice y2 = Some e2 ->
  strptime.strptime T format_valid_time = Some b ->
  hours_since b e1 - hours_since b e2
  = (datetime.toordinal e2 - datetime.toordinal e1) * 24
  /\ (1000 <= y1 <= 9998 -> y2 = y1 + 1 ->
      hours_since b e1 - hours_since b e2 = (365 + leap_day y1) * 24).
Proof.
  intros H1 H2 Hb.
  pose proof (date_sice_secs _ _ H1) as S1.
  pose proof (date_sice_secs _ _ H2) as S2.
  apply strptime_valid in Hb.
  rewrite !hours_since_midnight by assumption.
  split; [lia|].
  intros Hy ->.
  rewrite date_sice_epoch in H1, H2 by lia.
  unfold epoch_of_year in H1, H2.
  destruct (Z.ltb_spec y1 100); [lia|].
  destruct (Z.ltb_spec y1 1000); [lia|].
  destruct (Z.ltb_spec (y1 + 1) 100); [lia|].
  destruct (Z.ltb_spec (y1 + 1) 1000); [lia|].
  injection H1 as <-. injection H2 as <-.
  unfold datetime.toordinal, datetime._ymd2ord. simpl.
  pose proof (datetime_facts.days_before_year_succ y1).
  unfold datetime._days_before_month. simpl. lia.
Qed.

Lemma reference_year_shifts_time_witness :
  hours_since (datetime.mk 2024 3 1 12 0 0) (datetime.mk 2023 1 1 0 0 0)
  - hours_since (datetime.mk 2024 3 1 12 0 0) (datetime.mk 2024 1 1 0 0 0)
  = 8760.
Proof.
  exact (proj2 (reference_year_shifts_time 2023 2024
                  (datetime.mk 2023 1 1 0 0 0) (datetime.mk 2024 1 1 0 0 0)
                  "2024-03-01_12:00:00" (datetime.mk 2024 3 1 12 0 0)
                  eq_refl eq_refl eq_refl) ltac:(lia) eq_refl).
Defined.

(** X7. The lead time is 0 exactly when the start date is on the hour
    and at the hour of the valid time, whatever the two days; in every
    other case it is positive. So one and only one of the tests
    [hours == 0] and [hours > 0] holds. *)
Theorem zero_lead_iff_same_hour (T S : string) (b s : datetime.t) :
  strptime.strptime T format_valid_time = Some b ->
  strptime.strptime S format_start_date = Some s ->
  (PrimFloat.eqb (lead_hours b s) 0 = true
   <-> datetime.hour s = datetime.hour b
       /\ datetime.minute s = 0 /\ datetime.second s = 0)
  /\ PrimFloat.ltb 0 (lead_hours b s) = negb (PrimFloat.eqb (lead_hours b s) 0).
Proof.
  intros Hb Hs.
  pose proof (valid_time_on_the_hour _ _ Hb) as [Mb Sb].
  apply strptime_valid, datetime_facts.valid_inv in Hb, Hs.
  rewrite lead_hours_unfold.
  destruct (hours_of_seconds_spec _ (seconds_sub_range b s)) as (-> & -> & _).
  rewrite seconds_sub. unfold datetime.secs_of_day. rewrite Mb, Sb.
  set (sb := 0 + 0 * 60 + datetime.hour b * 3600).
  set (ss := datetime.second s + datetime.minute s * 60 + datetime.hour s * 3600).
  assert (Rb : 0 <= sb < 86400) by (subst sb; lia).
  assert (Rs : 0 <= ss < 86400) by (subst ss; lia).
  assert (Hmod : (sb - ss) mod 86400 = 0 <-> sb = ss).
  { split; [|intros ->; now rewrite Z.sub_diag].
    intros E. apply Z.mod_divide in E; [|lia]. destruct E as [q E]. lia. }
  pose proof (Z.mod_pos_bound (sb - ss) 86400 ltac:(lia)) as Hpos.
  split.
  - rewrite Z.eqb_eq, Hmod. subst sb ss. split; intros H; lia.
  - destruct (Z.eqb_spec ((sb - ss) mod 86400) 0) as [E|E]; simpl.
    + rewrite E. reflexivity.
    + apply Z.ltb_lt. lia.
Qed.

Lemma zero_lead_iff_same_hour_witness :
  PrimFloat.eqb
    (lead_hours (datetime.mk 2023 12 27 0 0 0) (datetime.mk 2023 12 25 0 0 0)) 0
  = true
  /\ PrimFloat.ltb 0
       (lead_hours (datetime.mk 2023 12 25 6 0 0) (datetime.mk 2023 12 25 0 0 0))
     = true.
Proof.
  split.
  - apply (proj1 (zero_lead_iff_same_hour "2023-12-27_00:00:00" Sample.start
                    (datetime.mk 2023 12 27 0 0 0) (datetime.mk 2023 12 25 0 0 0)
                    eq_refl eq_refl)).
    repeat split.
  - exact (proj2 (zero_lead_iff_same_hour "2023-12-25_06:00:00" Sample.start
                    (datetime.mk 2023 12 25 6 0 0) (datetime.mk 2023 12 25 0 0 0)
                    eq_refl eq_refl)).
Defined.

(** ** Further properties: the arms that copy one field *)

Section arms_more.

Context {F : Type} {dtype : DType F}.
Implicit Types (fs : gmap string (SourceDataset F)) (l : @locals F).

Lemma dataset_height_ok l (name : string) (ncvar : np.ndarray F)
    (a : attrs) (n m : nat) (out : stdout) :
  np.shape ncvar = [n; m] ->
  np.shape (lat l) = [n] -> np.shape (lon l) = [m] ->
  dataset_height l name ncvar a out
  = (out, Ok (height_Dataset l name n m (np.data ncvar) a)).
Proof.
  intros Hs Hlat Hlon.
  unfold dataset_height, bind, of_result, np.newaxis_newaxis_2, np.ndim.
  rewrite Hs. simpl.
  unfold xr_Dataset, dims_match, dim_sizes, consistent. simpl.
  rewrite Hlat, Hlon. simpl.
  rewrite !Nat.eqb_refl. reflexivity.
Qed.

Lemma dispatch_U10 fs kw l :
  dispatch fs kw l "U10"
  = (ncvar <- of_result (getitem_squeezed (nc l) "U10") ;;
     ds <- dataset_height l "Uwind" ncvar attrs_u ;;
     ret (Some ds)).
Proof. reflexivity. Qed.

Lemma dispatch_V10 fs kw l :
  dispatch fs kw l "V10"
  = (ncvar <- of_result (getitem_squeezed (nc l) "V10") ;;
     ds <- dataset_height l "Vwind" ncvar attrs_v ;;
     ret (Some ds)).
Proof. reflexivity. Qed.

Lemma dispatch_PS fs kw l :
  dispatch fs kw l "PS"
  = (p <- of_result (getitem_squeezed (nc l) "PSFC") ;;
     ds <- dataset_surface l "Pair"
             (np.map (fun x => fdiv x (of_pyfloat 100)) p) attrs_ps ;;
     ret (Some ds)).
Proof. reflexivity. Qed.

Lemma dispatch_LW fs kw l :
  dispatch fs kw l "LW"
  = (ncvar <- of_result (getitem_squeezed (nc l) "GLW") ;;
     ds <- dataset_surface l "lwrad_down" ncvar attrs_lw ;;
     ret (Some ds)).
Proof. reflexivity. Qed.

Lemma dispatch_SW fs kw l :
  dispatch fs kw l "SW"
  = (ncvar <- of_result (getitem_squeezed (nc l) "SWDOWN") ;;
     ds <- dataset_surface l "swrad" ncvar attrs_sw ;;
     ret (Some ds)).
Proof. reflexivity. Qed.

Lemma dispatch_CLDFRA fs kw l :
  dispatch fs kw l "CLDFRA" = branch_cldfra l.
Proof. reflexivity. Qed.

Lemma getitem_squeezed_missing (ncf : SourceDataset F) (name : string) :
  variables ncf !! name = None ->
  getitem_squeezed ncf name = Raise (KeyError name).
Proof. intros H. unfold getitem_squeezed. now rewrite H. Qed.

(** X8. For the keys U10 and V10 the field of that name is copied
    unchanged into [Uwind], respectively [Vwind], on
    [(time, height_above_ground2, lat, lon)], with the single height 10. *)
Theorem wind_components_are_copied fs (namefile varname : string) kw
    (out out1 : stdout) l (field : np.ndarray F) (n m : nat) :
  prologue fs namefile kw out = (out1, Ok l) ->
  upper varname = "U10" \/ upper varname = "V10" ->
  getitem_squeezed (nc l) (upper varname) = Ok field ->
  np.shape field = [n; m] ->
  np.shape (lat l) = [n] -> np.shape (lon l) = [m] ->
  wrf2gfs_params fs namefile varname kw out
  = (out1,
     Ok (if String.eqb (upper varname) "U10"
         then height_Dataset l "Uwind" n m (np.data field) attrs_u
         else height_Dataset l "Vwind" n m (np.data field) attrs_v))
  /\ List.find (fun c => String.eqb (fst c) "height_above_ground2")
               (coords_height l)
     = Some ("height_above_ground2",
             mk_Variable ["height_above_ground2"] (Ints [10]) attrs_ground).
Proof.
  intros Hp Hv Hf Hs Hlat Hlon. split; [|reflexivity].
  rewrite (wrf2gfs_params_dispatch _ _ _ _ _ _ _ Hp).
  destruct Hv as [Hv|Hv]; rewrite Hv in *; simpl String.eqb.
  - rewrite dispatch_U10. unfold bind, of_result. rewrite Hf.
    now rewrite (dataset_height_ok _ _ _ _ n m).
  - rewrite dispatch_V10. unfold bind, of_result. rewrite Hf.
    now rewrite (dataset_height_ok _ _ _ _ n m).
Qed.

(** X9. For the keys LW and SW the fields [GLW] and [SWDOWN] are copied
    unchanged into [lwrad_down], respectively [swrad], on
    [(time, lat, lon)]. *)
Theorem radiation_fluxes_are_copied fs (namefile varname : string) kw
    (out out1 : stdout) l (field : np.ndarray F) (n m : nat) :
  prologue fs namefile kw out = (out1, Ok l) ->
  np.shape field = [n; m] ->
  np.shape (lat l) = [n] -> np.shape (lon l) = [m] ->
  (upper varname = "LW" -> getitem_squeezed (nc l) "GLW" = Ok field ->
   wrf2gfs_params fs namefile varname kw out
   = (out1, Ok (surface_Dataset l "lwrad_down" n m (np.data field) attrs_lw)))
  /\ (upper varname = "SW" -> getitem_squeezed (nc l) "SWDOWN" = Ok field ->
      wrf2gfs_params fs namefile varname kw out
      = (out1, Ok (surface_Dataset l "swrad" n m (np.data field) attrs_sw))).
Proof.
  intros Hp Hs Hlat Hlon.
  rewrite (wrf2gfs_params_dispatch _ _ _ _ _ _ _ Hp).
  split; intros Hv Hf; rewrite Hv.
  - rewrite dispatch_LW. unfold bind, of_result. rewrite Hf.
    now rewrite (dataset_surface_ok _ _ _ _ n m).
  - rewrite dispatch_SW. unfold bind, of_result. rewrite Hf.
    now rewrite (dataset_surface_ok _ _ _ _ n m).
Qed.

(** X10. For the key PS every element of [PSFC] is divided by 100 (Pa to
    hPa), in the field's arithmetic, and the result is [Pair] on
    [(time, lat, lon)] in the order of the source. *)
Theorem pressure_is_divided_by_100 fs (namefile varname : string) kw
    (out out1 : stdout) l (psfc : np.ndarray F) (n m : nat) :
  prologue fs namefile kw out = (out1, Ok l) ->
  upper varname = "PS" ->
  getitem_squeezed (nc l) "PSFC" = Ok psfc ->
  np.shape psfc = [n; m] ->
  np.shape (lat l) = [n] -> np.shape (lon l) = [m] ->
  wrf2gfs_params fs namefile varname kw out
  = (out1,
     Ok (surface_Dataset l "Pair" n m
           (List.map (fun x => fdiv x (of_pyfloat 100)) (np.data psfc))
           attrs_ps)).
Proof.
  intros Hp Hv Hf Hs Hlat Hlon.
  rewrite (wrf2gfs_params_dispatch _ _ _ _ _ _ _ Hp), Hv, dispatch_PS.
  unfold bind, of_result. rewrite Hf.
  now rewrite (dataset_surface_ok _ _ _ _ n m).
Qed.

Lemma source_field_cases (var f : string) :
  source_field var = Some f ->
  (var = "U10" /\ f = "U10") \/ (var = "V10" /\ f = "V10")
  \/ (var = "T2" /\ f = "T2") \/ (var = "PS" /\ f = "PSFC")
  \/ (var = "LW" /\ f = "GLW") \/ (var = "SW" /\ f = "SWDOWN").
Proof.
  unfold source_field.
  repeat match goal with
         | |- context [String.eqb var ?k] =>
             destruct (String.eqb_spec var k) as [->|_];
             [intros [= <-]; tauto|]
         end.
  discriminate.
Qed.

(** X11. A field an arm needs and the file lacks is reported by the raw
    lookup error, after nothing more has been printed: [KeyError] with the
    name of the field for the arms that read with [nc[...]] (U10, V10, T2,
    PS from PSFC, LW from GLW, SW from SWDOWN, and PR from RAINNC once
    [step_b] is given), [AttributeError] for CLDFRA, read as [nc.CLDFRA]. *)
Theorem missing_field_raises fs (namefile varname : string) kw
    (out out1 : stdout) l :
  prologue fs namefile kw out = (out1, Ok l) ->
  (forall f, source_field (upper varname) = Some f ->
             variables (nc l) !! f = None ->
             wrf2gfs_params fs namefile varname kw out
             = (out1, Raise (KeyError f)))
  /\ (upper varname = "CLDFRA" -> variables (nc l) !! "CLDFRA" = None ->
      wrf2gfs_params fs namefile varname kw out
      = (out1, Raise (AttributeError "CLDFRA")))
  /\ (forall path, upper varname = "PR" ->
        step_b kw = Some path -> path <> EmptyString ->
        variables (nc l) !! "RAINNC" = None ->
        wrf2gfs_params fs namefile varname kw out
        = (out1, Raise (KeyError "RAINNC"))).
Proof.
  intros Hp. rewrite (wrf2gfs_params_dispatch _ _ _ _ _ _ _ Hp).
  split; [|split].
  - intros f Hf Hnone. apply getitem_squeezed_missing in Hnone.
    apply source_field_cases in Hf
      as [[-> ->]|[[-> ->]|[[-> ->]|[[-> ->]|[[-> ->]|[-> ->]]]]]].
    + rewrite dispatch_U10. unfold bind, of_result. now rewrite Hnone.
    + rewrite dispatch_V10. unfold bind, of_result. now rewrite Hnone.
    + rewrite dispatch_T2. unfold bind, of_result. now rewrite Hnone.
    + rewrite dispatch_PS. unfold bind, of_result. now rewrite Hnone.
    + rewrite dispatch_LW. unfold bind, of_result. now rewrite Hnone.
    + rewrite dispatch_SW. unfold bind, of_result. now rewrite Hnone.
  - intros -> Hnone. rewrite dispatch_CLDFRA.
    unfold branch_cldfra, bind, lift. now rewrite Hnone.
  - intros path -> Hs Hne Hnone. apply getitem_squeezed_missing in Hnone.
    rewrite dispatch_PR. unfold branch_pr. rewrite Hs.
    destruct (String.eqb_spec path EmptyString) as [|_]; [contradiction|].
    simpl. unfold pr_ncvar.
    destruct (PrimFloat.eqb (hours l) 0) eqn:E0.
    + unfold bind, of_result. now rewrite Hnone.
    + destruct (PrimFloat.ltb 0 (hours l)) eqn:E1.
      * unfold bind, of_result. now rewrite Hnone.
      * exfalso.
        apply prologue_inv in Hp
          as (a & times & attr & b & start & since & _ & _ & _ & _ & _ & Hh & _).
        rewrite Hh, lead_hours_unfold in E0, E1.
        destruct (hours_of_seconds_spec _ (seconds_sub_range b start))
          as (H0 & H1 & _).
        rewrite H0 in E0. rewrite H1 in E1.
        apply Z.eqb_neq in E0. apply Z.ltb_ge in E1.
        pose proof (seconds_sub_range b start). lia.
Qed.

(** X12. For the key PR with a positive lead, a [step_b] that names no
    file is a [FileNotFoundError] for that path, raised once RAINNC and
    RAINC of the current file have been read and added. *)
Theorem pr_prior_file_missing fs (namefile varname : string) kw
    (out out1 : stdout) l (path : string) (rainnc rainc now_ : np.ndarray F) :
  prologue fs namefile kw out = (out1, Ok l) ->
  upper varname = "PR" ->
  PrimFloat.ltb 0 (hours l) = true ->
  step_b kw = Some path -> path <> EmptyString ->
  getitem_squeezed (nc l) "RAINNC" = Ok rainnc ->
  getitem_squeezed (nc l) "RAINC" = Ok rainc ->
  np.binop fadd rainnc rainc = Ok now_ ->
  fs !! path = None ->
  wrf2gfs_params fs namefile varname kw out
  = (out1, Raise (FileNotFoundError path)).
Proof.
  intros Hp Hv Hpos Hs Hne Hn Hc Hnow Hfs.
  rewrite (wrf2gfs_params_dispatch _ _ _ _ _ _ _ Hp), Hv, dispatch_PR.
  unfold branch_pr. rewrite Hs.
  destruct (String.eqb_spec path EmptyString) as [|_]; [contradiction|].
  simpl. unfold pr_ncvar.
  rewrite (prologue_hours _ _ _ _ _ _ Hp Hpos), Hpos.
  unfold bind, of_result. rewrite Hn, Hc, Hnow.
  unfold open_dataset, lift. now rewrite Hfs.
Qed.

(** X13. For the key PR an empty string as [step_b] is neither a path nor
    [None]: no arm runs, nothing is printed, and [return ds] raises
    [UnboundLocalError], whatever the lead time. *)
Theorem pr_empty_step_b_raises fs (namefile varname : string) kw
    (out out1 : stdout) l :
  prologue fs namefile kw out = (out1, Ok l) ->
  upper varname = "PR" ->
  step_b kw = Some EmptyString ->
  wrf2gfs_params fs namefile varname kw out
  = (out1, Raise (UnboundLocalError "ds")).
Proof.
  intros Hp Hv Hs.
  rewrite (wrf2gfs_params_dispatch _ _ _ _ _ _ _ Hp), Hv, dispatch_PR.
  unfold branch_pr. now rewrite Hs.
Qed.

End arms_more.

(** ** Further properties: the cloud fraction *)

Lemma stride_lookup_from {A} (m : nat) :
  forall (n : nat) (d : list A),
  (n = 0 \/ (n - 1) * m < length d)%nat ->
  length (np.stride n m d) = n
  /\ forall i, (i < n)%nat -> np.stride n m d !! i = d !! (i * m)%nat.
Proof.
  induction n as [|n IH]; intros d Hd; simpl.
  - split; [reflexivity|]. intros i Hi. lia.
  - destruct d as [|x d']; [simpl in Hd; lia|].
    destruct (IH (skipn m (x :: d'))) as [Hl Hi].
    { destruct n; [now left|right].
      rewrite length_skipn. simpl in *. nia. }
    split; [simpl; now rewrite Hl|].
    intros [|i] Hlt; [reflexivity|].
    simpl. rewrite Hi by lia. rewrite lookup_drop.
    first [reflexivity | f_equal; lia].
Qed.

Section cloud_more.

Context {F : Type} {dtype : DType F}.
Implicit Types (fs : gmap string (SourceDataset F)) (l : @locals F).

(** The maximum over the second of four axes, the first being of length
    one: cell [(i, j)] of the result is [f] of the [k] values above it. *)
Lemma reduce_levels (d : list F) (k n m : nat) :
  length d = (k * (n * m))%nat -> (1 <= k)%nat ->
  np.shape (np.reduce_axis nanmax 1 (np.mk [1; k; n; m]%nat d)) = [1; n; m]%nat
  /\ length (np.data (np.reduce_axis nanmax 1 (np.mk [1; k; n; m]%nat d)))
     = (n * m)%nat
  /\ forall i j, (i < n)%nat -> (j < m)%nat ->
       exists column,
         np.data (np.reduce_axis nanmax 1 (np.mk [1; k; n; m]%nat d))
           !! (i * m + j)%nat = Some (nanmax column)
         /\ length column = k
         /\ forall lev, (lev < k)%nat ->
              column !! lev = d !! cell_index n m lev i j.
Proof.
  intros Hd Hk. unfold np.reduce_axis. simpl.
  replace (n * (m * 1))%nat with (n * m)%nat by lia.
  rewrite app_nil_r.
  split; [reflexivity|]. split; [now rewrite length_map, length_seq|].
  intros i j Hi Hj.
  set (q := (i * m + j)%nat).
  assert (Hq : (q < n * m)%nat) by (subst q; nia).
  destruct (stride_lookup_from (n * m) k (skipn (0 + q) d)) as [Hl Hc].
  { right. rewrite length_skipn. nia. }
  exists (np.stride k (n * m) (skipn (0 + q) d)).
  split; [|split; [exact Hl|]].
  - rewrite list_lookup_fmap, lookup_seq_lt by assumption. reflexivity.
  - intros lev Hlev. rewrite Hc by assumption. rewrite lookup_drop.
    unfold cell_index. f_equal. subst q. lia.
Qed.

Lemma branch_cldfra_run l (v : DataArray F) (axis : nat) (out : stdout) :
  variables (nc l) !! "CLDFRA" = Some v ->
  index (dims v) "bottom_top" = Some axis ->
  branch_cldfra l out
  = (if (nth axis (np.shape (values v)) 1 =? 0)%nat
     then (out, Raise ValueError)
     else if (np.ndim (np.reduce_axis nanmax axis (values v)) =? 0)%nat
     then (out, Raise IndexError)
     else bind (dataset_surface l "cloud"
                  (np.squeeze (np.reduce_axis nanmax axis (values v))) attrs_cl)
               (fun ds => ret (Some ds)) out).
Proof.
  intros Hc Hax. unfold branch_cldfra.
  unfold bind at 1. unfold lift at 1. rewrite Hc. unfold ret at 1.
  unfold bind at 1. unfold lift at 1. rewrite Hax. unfold ret at 1.
  cbv zeta.
  destruct (nth axis (np.shape (values v)) 1 =? 0)%nat; [reflexivity|].
  destruct (np.ndim (np.reduce_axis nanmax axis (values v)) =? 0)%nat;
    reflexivity.
Qed.

(** The arm of CLDFRA on a field laid out as
    [(Time = 1, bottom_top = k, south_north = n, west_east = m)]: cell
    [(i, j)] of [cloud] is the reduction of the [k] values of that cell. *)
Lemma cloud_is_column_reduction fs (namefile varname : string) kw
    (out out1 : stdout) l (v : DataArray F) (k n m : nat) :
  prologue fs namefile kw out = (out1, Ok l) ->
  upper varname = "CLDFRA" ->
  variables (nc l) !! "CLDFRA" = Some v ->
  index (dims v) "bottom_top" = Some 1%nat ->
  np.shape (values v) = [1; k; n; m]%nat -> np.wf (values v) ->
  n <> 1%nat -> m <> 1%nat ->
  np.shape (lat l) = [n] -> np.shape (lon l) = [m] ->
  (k = 0%nat ->
   wrf2gfs_params fs namefile varname kw out = (out1, Raise ValueError))
  /\ ((1 <= k)%nat ->
      exists d,
        wrf2gfs_params fs namefile varname kw out
        = (out1, Ok (surface_Dataset l "cloud" n m d attrs_cl))
        /\ length d = (n * m)%nat
        /\ forall i j, (i < n)%nat -> (j < m)%nat ->
             exists column,
               d !! (i * m + j)%nat = Some (nanmax column)
               /\ length column = k
               /\ forall lev, (lev < k)%nat ->
                    column !! lev
                    = np.data (values v) !! cell_index n m lev i j).
Proof.
  intros Hp Hv Hc Hax Hs Hwf Hn Hm Hlat Hlon.
  rewrite (wrf2gfs_params_dispatch _ _ _ _ _ _ _ Hp), Hv, dispatch_CLDFRA.
  assert (Hrun := branch_cldfra_run l v 1 out1 Hc Hax).
  rewrite Hs in Hrun. simpl nth in Hrun.
  split.
  - intros ->. unfold bind. rewrite Hrun. reflexivity.
  - intros Hk. unfold bind at 1. rewrite Hrun. clear Hrun.
    destruct (Nat.eqb_spec k 0) as [|_]; [lia|].
    destruct (values v) as [s d] eqn:Ev. simpl in Hs. subst s.
    unfold np.wf in Hwf. simpl in Hwf.
    destruct (reduce_levels d k n m) as (Hshape & Hlen & Hcells);
      [lia|assumption|].
    set (r := np.reduce_axis nanmax 1 (np.mk [1; k; n; m]%nat d)) in *.
    exists (np.data r).
    split; [|split; [exact Hlen|exact Hcells]].
    unfold np.ndim. rewrite Hshape. simpl Nat.eqb. cbv iota.
    unfold bind.
    rewrite (dataset_surface_ok l "cloud" (np.squeeze r) attrs_cl n m).
    + reflexivity.
    + unfold np.squeeze. rewrite Hshape. simpl.
      destruct (Nat.eqb_spec n 1) as [|_]; [contradiction|].
      destruct (Nat.eqb_spec m 1) as [|_]; [contradiction|]. reflexivity.
    + assumption.
    + assumption.
Qed.

End cloud_more.

(** The order of the floats that are not NaN, and [np.nanmax] in it. *)
Module float_order.

Import SpecFloat.

Ltac compare_cases :=
  repeat match goal with
         | |- context [(?a ?= ?b)%Z] => destruct (Z.compare_spec a b)
         | H : context [(?a ?= ?b)%Z] |- _ => destruct (Z.compare_spec a b)
         | |- context [Pos.compare_cont Eq ?a ?b] =>
             change (Pos.compare_cont Eq a b) with (Pos.compare a b);
             destruct (Pos.compare_spec a b)
         | H : context [Pos.compare_cont Eq ?a ?b] |- _ =>
             change (Pos.compare_cont Eq a b) with (Pos.compare a b) in H;
             destruct (Pos.compare_spec a b)
         end.

Ltac order_cases :=
  unfold SFleb, SFcompare;
  repeat match goal with
         | x : spec_float |- _ => destruct x as [[]|[]| |[] ? ?]
         end;
  simpl; intros; try discriminate; try reflexivity;
  compare_cases; simpl in *; try discriminate; try reflexivity;
  try (exfalso; lia).

Lemma SFcompare_refl (x : spec_float) :
  x <> S754_nan -> SFcompare x x = Some Eq.
Proof.
  destruct x as [[]|[]| |[] m e]; simpl; intros H; try reflexivity;
    try contradiction; rewrite Z.compare_refl;
    change (Pos.compare_cont Eq m m) with (Pos.compare m m);
    now rewrite Pos.compare_refl.
Qed.

Lemma SFleb_trans (x y z : spec_float) :
  SFleb x y = true -> SFleb y z = true -> SFleb x z = true.
Proof. order_cases. Qed.

Lemma SFleb_total (x y : spec_float) :
  x <> S754_nan -> y <> S754_nan -> SFleb y x = false -> SFleb x y = true.
Proof. order_cases; try contradiction. Qed.

Lemma is_nan_spec (x : float) :
  PrimFloat.is_nan x = false <-> Prim2SF x <> S754_nan.
Proof.
  unfold PrimFloat.is_nan. rewrite FloatAxioms.eqb_spec. unfold SFeqb.
  split.
  - intros H E. rewrite E in H. discriminate.
  - intros H. now rewrite SFcompare_refl.
Qed.

Lemma leb_refl (x : float) :
  PrimFloat.is_nan x = false -> PrimFloat.leb x x = true.
Proof.
  intros H. apply is_nan_spec in H. rewrite FloatAxioms.leb_spec.
  unfold SFleb. now rewrite SFcompare_refl.
Qed.

Lemma leb_trans (x y z : float) :
  PrimFloat.leb x y = true -> PrimFloat.leb y z = true ->
  PrimFloat.leb x z = true.
Proof. rewrite !FloatAxioms.leb_spec. apply SFleb_trans. Qed.

Lemma leb_total (x y : float) :
  PrimFloat.is_nan x = false -> PrimFloat.is_nan y = false ->
  PrimFloat.leb y x = false -> PrimFloat.leb x y = true.
Proof.
  rewrite !FloatAxioms.leb_spec. intros Hx Hy.
  apply SFleb_total; now apply is_nan_spec.
Qed.

Lemma leb_nan_r (x y : float) :
  PrimFloat.is_nan y = true -> PrimFloat.leb x y = false.
Proof.
  intros H. rewrite FloatAxioms.leb_spec.
  destruct (Prim2SF y) eqn:E;
    try (assert (Hn : PrimFloat.is_nan y = false)
           by (apply is_nan_spec; rewrite E; discriminate); congruence).
  unfold SFleb, SFcompare. now destruct (Prim2SF x).
Qed.

(** One more step of [np.fmax.reduce] keeps the maximum of what has
    been seen. *)
Lemma fold_fmax (rest : list float) :
  forall (seen : list float) (acc : float),
    is_maximum_of seen acc ->
    is_maximum_of (seen ++ rest) (fold_left np.fmax rest acc).
Proof.
  induction rest as [|y rest IH]; intros seen acc H; simpl.
  - now rewrite app_nil_r.
  - replace (seen ++ y :: rest) with ((seen ++ [y]) ++ rest)
      by (now rewrite <- app_assoc).
    apply IH. unfold np.fmax.
    destruct (PrimFloat.is_nan y) eqn:Ny.
    + rewrite Bool.orb_true_r.
      destruct H as [[Hall Hacc]|(Hacc & Hin & Hmax)].
      * left. split; [|exact Hacc].
        intros x [Hx|[<-|[]]]%in_app_or; auto.
      * right. split; [exact Hacc|]. split; [apply in_or_app; auto|].
        intros x [Hx|[<-|[]]]%in_app_or Nx; [auto|congruence].
    + rewrite Bool.orb_false_r.
      destruct H as [[Hall Hacc]|(Hacc & Hin & Hmax)].
      * rewrite (leb_nan_r y acc Hacc).
        right. split; [exact Ny|]. split; [apply in_or_app; simpl; auto|].
        intros x [Hx|[<-|[]]]%in_app_or Nx.
        -- rewrite (Hall x Hx) in Nx. discriminate.
        -- now apply leb_refl.
      * destruct (PrimFloat.leb y acc) eqn:L.
        -- right. split; [exact Hacc|]. split; [apply in_or_app; auto|].
           intros x [Hx|[<-|[]]]%in_app_or Nx; auto.
        -- right. split; [exact Ny|].
           split; [apply in_or_app; simpl; auto|].
           intros x [Hx|[<-|[]]]%in_app_or Nx.
           ++ apply leb_trans with acc; [auto|].
              now apply leb_total.
           ++ now apply leb_refl.
Qed.

Lemma nanmax_is_maximum (column : list float) :
  column <> [] -> is_maximum_of column (np.nanmax column).
Proof.
  destruct column as [|x rest]; [congruence|]. intros _. simpl.
  apply (fold_fmax rest [x] x).
  destruct (PrimFloat.is_nan x) eqn:Nx.
  - left. split; [|exact Nx]. intros y [<-|[]]. exact Nx.
  - right. split; [exact Nx|]. split; [simpl; auto|].
    intros y [<-|[]] _. now apply leb_refl.
Qed.

End float_order.

(** X14. For the key CLDFRA on a float field laid out as
    [(Time = 1, bottom_top = k, south_north = n, west_east = m)], with the
    maximum numpy takes ([np.nanmax]), the value of [cloud] at row [i] and
    column [j] is the maximum of the [k] values of that grid cell, one per
    level: it is one of those that are not NaN and not below any of
    them, or NaN when all [k] are NaN. A field without a level ([k = 0])
    is a [ValueError]. *)
Theorem cloud_is_column_maximum (dtype : DType float)
    (fs : gmap string (SourceDataset float)) (namefile varname : string)
    (kw : kwargs) (out out1 : stdout) (l : @locals float)
    (v : DataArray float) (k n m : nat) :
  (forall column, @nanmax float dtype column = np.nanmax column) ->
  prologue fs namefile kw out = (out1, Ok l) ->
  upper varname = "CLDFRA" ->
  variables (nc l) !! "CLDFRA" = Some v ->
  index (dims v) "bottom_top" = Some 1%nat ->
  np.shape (values v) = [1; k; n; m]%nat -> np.wf (values v) ->
  n <> 1%nat -> m <> 1%nat ->
  np.shape (lat l) = [n] -> np.shape (lon l) = [m] ->
  (k = 0%nat ->
   wrf2gfs_params fs namefile varname kw out = (out1, Raise ValueError))
  /\ ((1 <= k)%nat ->
      exists d,
        wrf2gfs_params fs namefile varname kw out
        = (out1, Ok (surface_Dataset l "cloud" n m d attrs_cl))
        /\ length d = (n * m)%nat
        /\ forall i j, (i < n)%nat -> (j < m)%nat ->
             exists (column : list float) (r : float),
               d !! (i * m + j)%nat = Some r
               /\ length column = k
               /\ (forall lev, (lev < k)%nat ->
                      column !! lev
                      = np.data (values v) !! cell_index n m lev i j)
               /\ is_maximum_of column r).
Proof.
  intros Hmax Hp Hv Hc Hax Hs Hwf Hn Hm Hlat Hlon.
  destruct (cloud_is_column_reduction fs namefile varname kw out out1 l v
              k n m Hp Hv Hc Hax Hs Hwf Hn Hm Hlat Hlon) as [H0 H1].
  split; [exact H0|].
  intros Hk. destruct (H1 Hk) as (d & Hrun & Hlen & Hcells).
  exists d. split; [exact Hrun|]. split; [exact Hlen|].
  intros i j Hi Hj.
  destruct (Hcells i j Hi Hj) as (column & Hd & Hl & Hcol).
  exists column, (np.nanmax column).
  split; [now rewrite <- Hmax|]. split; [exact Hl|]. split; [exact Hcol|].
  apply float_order.nanmax_is_maximum.
  intros ->. simpl in Hl. lia.
Qed.

(** ** Further properties: what a returned dataset looks like *)

Section returned_more.

Context {F : Type} {dtype : DType F}.
Implicit Types (fs : gmap string (SourceDataset F)) (l : @locals F).

Lemma xr_Dataset_inv (dv co : list (string * xr_Variable F)) (ds : Dataset F) :
  xr_Dataset dv co = Ok ds ->
  ds = mk_Dataset dv co
  /\ forallb dims_match (List.map snd (dv ++ co)) = true
  /\ consistent (flat_map dim_sizes (List.map snd (dv ++ co))) = true.
Proof.
  unfold xr_Dataset.
  destruct (forallb dims_match _) eqn:E1; [|discriminate].
  destruct (consistent _) eqn:E2; [|discriminate].
  simpl. intros [= <-]. auto.
Qed.

Ltac by_hyp := match goal with H : _ = true |- _ => exact H end.

Ltac split_andb :=
  repeat match goal with
         | H : (_ && _)%bool = true |- _ => apply andb_prop in H as [? ?]
         end.

Lemma shape_of_length_1 (s : list nat) :
  (1 =? length s)%nat = true -> exists n, s = [n].
Proof. destruct s as [|n [|]]; try discriminate. eauto. Qed.

Lemma shape_of_length_2 (s : list nat) :
  (2 =? length s)%nat = true -> exists n m, s = [n; m].
Proof. destruct s as [|n [|m [|]]]; try discriminate. eauto. Qed.

(** A dataset [xr.Dataset] has accepted is the field over [lat] and
    [lon]. *)
Lemma dataset_surface_inv l (name : string) (ncvar : np.ndarray F)
    (a : attrs) (out out' : stdout) (ds : Dataset F) :
  dataset_surface l name ncvar a out = (out', Ok ds) ->
  out' = out
  /\ exists n m, np.shape ncvar = [n; m]
                 /\ np.shape (lat l) = [n] /\ np.shape (lon l) = [m]
                 /\ ds = surface_Dataset l name n m (np.data ncvar) a.
Proof.
  unfold dataset_surface. intros H.
  apply bind_of_result_inv in H as (field & Hf & H).
  unfold of_result in H. injection H as <- H. split; [reflexivity|].
  unfold np.newaxis_2 in Hf.
  destruct (np.ndim ncvar <? 2)%nat; [discriminate|]. injection Hf as <-.
  apply xr_Dataset_inv in H as (-> & Hd & Hc).
  simpl in Hd. unfold dims_match in Hd. simpl in Hd. split_andb.
  destruct (shape_of_length_2 (np.shape ncvar)) as (n & m & Es);
    [by_hyp|].
  destruct (shape_of_length_1 (np.shape (lat l))) as (n' & Elat);
    [by_hyp|].
  destruct (shape_of_length_1 (np.shape (lon l))) as (m' & Elon);
    [by_hyp|].
  unfold consistent, dim_sizes in Hc. simpl in Hc.
  rewrite Es, Elat, Elon in Hc. simpl in Hc. split_andb.
  repeat match goal with
         | H : (_ =? _)%nat = true |- _ => apply Nat.eqb_eq in H
         end.
  subst. exists n', m'. rewrite Es. repeat split; try assumption.
Qed.

Lemma dataset_height_inv l (name : string) (ncvar : np.ndarray F)
    (a : attrs) (out out' : stdout) (ds : Dataset F) :
  dataset_height l name ncvar a out = (out', Ok ds) ->
  out' = out
  /\ exists n m, np.shape ncvar = [n; m]
                 /\ np.shape (lat l) = [n] /\ np.shape (lon l) = [m]
                 /\ ds = height_Dataset l name n m (np.data ncvar) a.
Proof.
  unfold dataset_height. intros H.
  apply bind_of_result_inv in H as (field & Hf & H).
  unfold of_result in H. injection H as <- H. split; [reflexivity|].
  unfold np.newaxis_newaxis_2 in Hf.
  destruct (np.ndim ncvar <? 2)%nat; [discriminate|]. injection Hf as <-.
  apply xr_Dataset_inv in H as (-> & Hd & Hc).
  simpl in Hd. unfold dims_match in Hd. simpl in Hd. split_andb.
  destruct (shape_of_length_2 (np.shape ncvar)) as (n & m & Es);
    [by_hyp|].
  destruct (shape_of_length_1 (np.shape (lat l))) as (n' & Elat);
    [by_hyp|].
  destruct (shape_of_length_1 (np.shape (lon l))) as (m' & Elon);
    [by_hyp|].
  unfold consistent, dim_sizes in Hc. simpl in Hc.
  rewrite Es, Elat, Elon in Hc. simpl in Hc. split_andb.
  repeat match goal with
         | H : (_ =? _)%nat = true |- _ => apply Nat.eqb_eq in H
         end.
  subst. exists n', m'. rewrite Es. repeat split; try assumption.
Qed.

Lemma surface_arm_inv l (name : string) (r : result (np.ndarray F))
    (g : np.ndarray F -> np.ndarray F) (a : attrs) (out out' : stdout)
    (o : option (Dataset F)) :
  (x <- of_result r ;; ds <- dataset_surface l name (g x) a ;; ret (Some ds)) out
  = (out', Ok o) ->
  out' = out /\ exists ds, o = Some ds /\ one_field l Surface name a ds.
Proof.
  intros H. apply bind_of_result_inv in H as (x & _ & H).
  apply bind_inv in H as (out2 & ds & Hds & H).
  injection H as <- <-.
  apply dataset_surface_inv in Hds as (-> & n & m & _ & Hlat & Hlon & ->).
  split; [reflexivity|]. exists (surface_Dataset l name n m (np.data (g x)) a).
  split; [reflexivity|]. exists n, m, (np.data (g x)). auto.
Qed.

Lemma height_arm_inv l (name : string) (r : result (np.ndarray F))
    (a : attrs) (out out' : stdout) (o : option (Dataset F)) :
  (x <- of_result r ;; ds <- dataset_height l name x a ;; ret (Some ds)) out
  = (out', Ok o) ->
  out' = out /\ exists ds, o = Some ds /\ one_field l Height name a ds.
Proof.
  intros H. apply bind_of_result_inv in H as (x & _ & H).
  apply bind_inv in H as (out2 & ds & Hds & H).
  injection H as <- <-.
  apply dataset_height_inv in Hds as (-> & n & m & _ & Hlat & Hlon & ->).
  split; [reflexivity|]. exists (height_Dataset l name n m (np.data x) a).
  split; [reflexivity|]. exists n, m, (np.data x). auto.
Qed.

(** The precipitation arm reads and computes without printing. *)
Lemma pr_ncvar_silent fs l (path : string) (out out' : stdout)
    (r : result (np.ndarray F)) :
  pr_ncvar fs l path out = (out', r) -> out' = out.
Proof.
  unfold pr_ncvar, bind, of_result, open_dataset, lift, ret, raise.
  repeat match goal with
         | |- context [match ?x with _ => _ end] =>
             lazymatch type of x with
             | prod _ _ => fail
             | _ => destruct x
             end
         end; intros [= <- _]; reflexivity.
Qed.

Lemma branch_rh_inv l (out out' : stdout) (ds : Dataset F) :
  branch_rh l out = (out', Ok (Some ds)) ->
  out' = out /\ one_field l Surface "Qair" attrs_rh ds.
Proof.
  unfold branch_rh. destruct (rh_scan _) as [counter not_key].
  destruct (counter =? 3)%nat.
  - intros H.
    apply bind_of_result_inv in H as (p & _ & H).
    apply bind_of_result_inv in H as (t & _ & H).
    apply bind_of_result_inv in H as (q & _ & H).
    apply bind_of_result_inv in H as (rhvar & _ & H).
    apply bind_inv in H as (out2 & ds' & Hds & H).
    injection H as <- <-.
    apply dataset_surface_inv in Hds as (-> & n & m & _ & Hlat & Hlon & ->).
    split; [reflexivity|]. exists n, m, (np.data rhvar). auto.
  - unfold bind, print, ret. simpl. discriminate.
Qed.

Lemma branch_cldfra_inv l (out out' : stdout) (ds : Dataset F) :
  branch_cldfra l out = (out', Ok (Some ds)) ->
  out' = out /\ one_field l Surface "cloud" attrs_cl ds.
Proof.
  unfold branch_cldfra. intros H.
  apply bind_lift_inv in H as (v & _ & H).
  apply bind_lift_inv in H as (axis & _ & H).
  destruct (nth axis (np.shape (values v)) 1 =? 0)%nat; [discriminate|].
  cbv zeta in H.
  destruct (np.ndim (np.reduce_axis nanmax axis (values v)) =? 0)%nat;
    [discriminate|].
  apply bind_inv in H as (out2 & ds' & Hds & H).
  injection H as <- <-.
  apply dataset_surface_inv in Hds as (-> & n & m & _ & Hlat & Hlon & ->).
  split; [reflexivity|]. eexists n, m, _. auto.
Qed.

Lemma branch_pr_inv fs kw l (out out' : stdout) (ds : Dataset F) :
  branch_pr fs kw l out = (out', Ok (Some ds)) ->
  (step_b kw = None /\ ds = empty_Dataset /\ out' = out ++ step_b_diagnostic)
  \/ (step_b kw <> None /\ out' = out
      /\ one_field l Surface "rain" attrs_pr ds).
Proof.
  unfold branch_pr. destruct (step_b kw) as [path|].
  - destruct (negb (String.eqb path EmptyString)); [|discriminate].
    intros H. right. split; [discriminate|].
    apply bind_inv in H as (out2 & ncvar & Hv & H).
    apply pr_ncvar_silent in Hv as ->.
    apply bind_inv in H as (out3 & ds' & Hds & H).
    injection H as <- <-.
    apply dataset_surface_inv in Hds as (-> & n & m & _ & Hlat & Hlon & ->).
    split; [reflexivity|]. eexists n, m, _. auto.
  - unfold bind, print, ret. simpl. intros [= <- <-]. left.
    split; [reflexivity|]. split; [reflexivity|].
    unfold step_b_diagnostic. now rewrite <- !app_assoc.
Qed.

Ltac field_of_key Hf :=
  right; do 3 eexists; split; [reflexivity|]; split; [exact Hf|reflexivity].

(** X15. A call that returns gives either the empty dataset, and that only
    for the key PR without [step_b], or a dataset with exactly one data
    variable, the one of the key: for U10 and V10 it is [Uwind],
    respectively [Vwind], on [(time, height_above_ground2, lat, lon)] with
    one time and one height; for T2, RH, PS, CLDFRA, PR, LW and SW it is
    [Tair], [Qair], [Pair], [cloud], [rain], [lwrad_down], respectively
    [swrad], on [(time, lat, lon)] with one time. It carries the
    attributes of its key and lies over the one dimensional [lat] and
    [lon] of the call, and in that case the arm has printed nothing. *)
Theorem returned_dataset_has_one_field fs (namefile varname : string) kw
    (out out' : stdout) (ds : Dataset F) :
  wrf2gfs_params fs namefile varname kw out = (out', Ok ds) ->
  exists l out1,
    prologue fs namefile kw out = (out1, Ok l)
    /\ ((upper varname = "PR" /\ step_b kw = None /\ ds = empty_Dataset
         /\ out' = out1 ++ step_b_diagnostic)
        \/ (exists (lay : layout) (name : string) (a : attrs),
              output_field (upper varname) = Some (lay, name, a)
              /\ one_field l lay name a ds /\ out' = out1)).
Proof.
  unfold wrf2gfs_params. intros H.
  apply bind_inv in H as (out1 & l & Hp & H).
  exists l, out1. split; [exact Hp|].
  apply bind_inv in H as (out2 & o & Hd & H).
  destruct o as [ds'|]; [|discriminate]. injection H as <- <-.
  revert Hd. unfold dispatch, output_field.
  repeat match goal with
         | |- context [String.eqb (upper varname) ?k] =>
             destruct (String.eqb_spec (upper varname) k) as [Hk|_]
         end.
  - intros H. apply height_arm_inv in H as (-> & ds & [= <-] & Hf).
    field_of_key Hf.
  - intros H. apply height_arm_inv in H as (-> & ds & [= <-] & Hf).
    field_of_key Hf.
  - intros H. apply surface_arm_inv in H as (-> & ds & [= <-] & Hf).
    field_of_key Hf.
  - intros H. apply branch_rh_inv in H as (-> & Hf). field_of_key Hf.
  - intros H. apply surface_arm_inv in H as (-> & ds & [= <-] & Hf).
    field_of_key Hf.
  - intros H. apply branch_cldfra_inv in H as (-> & Hf). field_of_key Hf.
  - intros H.
    apply branch_pr_inv in H as [(Hs & -> & ->)|(_ & -> & Hf)];
      [left; auto|].
    field_of_key Hf.
  - intros H.
    apply (surface_arm_inv l "lwrad_down" _ (fun x => x)) in H
      as (-> & ds & [= <-] & Hf).
    field_of_key Hf.
  - intros H.
    apply (surface_arm_inv l "swrad" _ (fun x => x)) in H
      as (-> & ds & [= <-] & Hf).
    field_of_key Hf.
  - unfold str_eq_list. discriminate.
Qed.

End returned_more.

(** ** Further properties: the time coordinate of a call *)

(** X16. After the lines before the dispatch, what has been printed is
    the notice of a reference year set by the caller and nothing else; and
    when the reference year (the caller's, else the year of the start date)
    has four digits, the units of [time] are
    [hours since <year>-01-01T00:00:00Z] and its one value is 24 times the
    days from that first of January to the day of the valid time, plus the
    hour of the valid time. *)
Theorem time_coordinate_of_call {F : Type}
    (fs : gmap string (SourceDataset F)) (namefile : string) (kw : kwargs)
    (out out1 : stdout) (l : @locals F) :
  prologue fs namefile kw out = (out1, Ok l) ->
  exists (a : string) (times : list string) (attr : string)
         (b start : datetime.t),
    Times (nc l) = Some (a :: times)
    /\ strptime.strptime a format_valid_time = Some b
    /\ START_DATE (nc l) = Some attr
    /\ strptime.strptime attr format_start_date = Some start
    /\ out1 = out ++ yearsince_notice kw
    /\ (1000 <= reference_year kw start <= 9999 ->
        attrs_time l
        = [("units",
            "hours since " +:+ str (reference_year kw start)
            +:+ "-01-01T00:00:00Z");
           ("calendar", "proleptic_gregorian")]
        /\ time_value l
           = (datetime.toordinal b
              - datetime._ymd2ord (reference_year kw start) 1 1) * 24
             + datetime.hour b).
Proof.
  intros Hp.
  apply prologue_inv_full in Hp
    as (a & times & attr & b & start & since & xlong & xlat
        & _ & Ht & Hb & Ha & Hs & _ & Hd & Hv & _ & _ & _ & _ & Hat & Hout).
  exists a, times, attr, b, start. repeat split; try assumption.
  - rewrite Hat. rewrite date_sice_epoch in Hd by lia.
    unfold epoch_of_year in Hd.
    destruct (Z.ltb_spec (reference_year kw start) 100); [lia|].
    destruct (Z.ltb_spec (reference_year kw start) 1000); [lia|].
    injection Hd as <-. reflexivity.
  - rewrite Hv.
    pose proof (date_sice_secs _ _ Hd) as Hsec.
    rewrite hours_since_midnight
      by (try assumption; now apply strptime_valid in Hb).
    rewrite date_sice_epoch in Hd by lia.
    unfold epoch_of_year in Hd.
    destruct (Z.ltb_spec (reference_year kw start) 100); [lia|].
    destruct (Z.ltb_spec (reference_year kw start) 1000); [lia|].
    injection Hd as <-. reflexivity.
Qed.

(** ** The further properties on the sample files *)

Lemma more_prologue_06 :
  prologue More.fs "wrfout_d01_2023-12-25_06" Sample.no_kwargs []
  = ([], Ok More.locals_06).
Proof. vm_compute. reflexivity. Qed.

Lemma element_exists_iff_member_witness :
  element_exists ["PSFC"; "T2"; "T2"] "T2" = true
  /\ exists i, index ["PSFC"; "T2"; "T2"] "T2" = Some i
               /\ ["PSFC"; "T2"; "T2"] !! i = Some "T2"
               /\ forall j, (j < i)%nat -> ["PSFC"; "T2"; "T2"] !! j <> Some "T2".
Proof.
  pose proof (element_exists_iff_member ["PSFC"; "T2"; "T2"] "T2")
    as (H1 & _ & H3).
  assert (Hin : In "T2" ["PSFC"; "T2"; "T2"]) by (simpl; tauto).
  split; [now apply H1|now apply H3].
Defined.

Lemma success_needs_time_and_coordinates_witness :
  exists (ncf : SourceDataset float) (a : string) (times : list string)
         (attr : string) (b start : datetime.t) (xlong xlat : DataArray float),
    Sample.fs !! "wrfout_d01_2023-12-25_06" = Some ncf
    /\ Times ncf = Some (a :: times)
    /\ strptime.strptime a format_valid_time = Some b
    /\ START_DATE ncf = Some attr
    /\ strptime.strptime attr format_start_date = Some start
    /\ variables ncf !! "XLONG" = Some xlong
    /\ variables ncf !! "XLAT" = Some xlat.
Proof.
  refine (success_needs_time_and_coordinates (dtype := Sample.float64)
            Sample.fs "wrfout_d01_2023-12-25_06" "pr" Sample.no_kwargs []
            step_b_diagnostic empty_Dataset _).
  vm_compute. reflexivity.
Defined.

Lemma time_coordinate_of_call_witness :
  exists (a : string) (times : list string) (attr : string)
         (b start : datetime.t),
    Times (nc sample_locals_06) = Some (a :: times)
    /\ strptime.strptime a format_valid_time = Some b
    /\ START_DATE (nc sample_locals_06) = Some attr
    /\ strptime.strptime attr format_start_date = Some start
    /\ [] = [] ++ yearsince_notice Sample.no_kwargs
    /\ (1000 <= reference_year Sample.no_kwargs start <= 9999 ->
        attrs_time sample_locals_06
        = [("units",
            "hours since " +:+ str (reference_year Sample.no_kwargs start)
            +:+ "-01-01T00:00:00Z");
           ("calendar", "proleptic_gregorian")]
        /\ time_value sample_locals_06
           = (datetime.toordinal b
              - datetime._ymd2ord (reference_year Sample.no_kwargs start) 1 1)
             * 24 + datetime.hour b).
Proof.
  exact (time_coordinate_of_call Sample.fs "wrfout_d01_2023-12-25_06"
           Sample.no_kwargs [] [] sample_locals_06
           (sample_prologue_06 Sample.no_kwargs eq_refl)).
Defined.

Lemma wind_components_are_copied_witness :
  wrf2gfs_params (dtype := Sample.float64) More.fs
    "wrfout_d01_2023-12-25_06" "v10" Sample.no_kwargs []
  = ([], Ok (height_Dataset More.locals_06 "Vwind" 2 3
               (repeat 4%float 6) attrs_v)).
Proof.
  exact (proj1 (wind_components_are_copied (dtype := Sample.float64) More.fs
                  "wrfout_d01_2023-12-25_06" "v10" Sample.no_kwargs [] []
                  More.locals_06 (np.mk [2; 3]%nat (repeat 4%float 6)) 2 3
                  more_prologue_06 (or_intror eq_refl) eq_refl eq_refl
                  eq_refl eq_refl)).
Defined.

Lemma radiation_fluxes_are_copied_witness :
  wrf2gfs_params (dtype := Sample.float64) More.fs
    "wrfout_d01_2023-12-25_06" "sw" Sample.no_kwargs []
  = ([], Ok (surface_Dataset More.locals_06 "swrad" 2 3
               (repeat 600%float 6) attrs_sw)).
Proof.
  exact (proj2 (radiation_fluxes_are_copied (dtype := Sample.float64) More.fs
                  "wrfout_d01_2023-12-25_06" "sw" Sample.no_kwargs [] []
                  More.locals_06 (np.mk [2; 3]%nat (repeat 600%float 6)) 2 3
                  more_prologue_06 eq_refl eq_refl eq_refl)
               eq_refl eq_refl).
Defined.

Lemma pressure_is_divided_by_100_witness :
  wrf2gfs_params (dtype := Sample.float64) More.fs
    "wrfout_d01_2023-12-25_06" "ps" Sample.no_kwargs []
  = ([], Ok (surface_Dataset More.locals_06 "Pair" 2 3
               (repeat 1013%float 6) attrs_ps)).
Proof.
  exact (pressure_is_divided_by_100 (dtype := Sample.float64) More.fs
           "wrfout_d01_2023-12-25_06" "ps" Sample.no_kwargs [] []
           More.locals_06 (np.mk [2; 3]%nat (repeat 101300%float 6)) 2 3
           more_prologue_06 eq_refl eq_refl eq_refl eq_refl eq_refl).
Defined.

Lemma missing_field_raises_witness :
  variables (nc sample_locals_06) !! "V10" = None
  /\ wrf2gfs_params (dtype := Sample.float64) Sample.fs
       "wrfout_d01_2023-12-25_06" "v10" Sample.no_kwargs []
     = ([], Raise (KeyError "V10")).
Proof.
  split; [vm_compute; reflexivity|].
  refine (proj1 (missing_field_raises (dtype := Sample.float64) Sample.fs
                   "wrfout_d01_2023-12-25_06" "v10" Sample.no_kwargs [] []
                   sample_locals_06
                   (sample_prologue_06 Sample.no_kwargs eq_refl))
                "V10" eq_refl _).
  vm_compute. reflexivity.
Defined.

Lemma pr_prior_file_missing_witness :
  wrf2gfs_params (dtype := Sample.float64) Sample.fs
    "wrfout_d01_2023-12-25_06" "pr"
    (mk_kwargs None (Some "no_such_file")) []
  = ([], Raise (FileNotFoundError "no_such_file")).
Proof.
  refine (pr_prior_file_missing (dtype := Sample.float64) Sample.fs
            "wrfout_d01_2023-12-25_06" "pr"
            (mk_kwargs None (Some "no_such_file")) [] [] sample_locals_06
            "no_such_file"
            (np.mk [2; 3]%nat (repeat 5%float 6))
            (np.mk [2; 3]%nat (repeat 1%float 6))
            (np.mk [2; 3]%nat (repeat 6%float 6))
            (sample_prologue_06 (mk_kwargs None (Some "no_such_file")) eq_refl)
            eq_refl _ eq_refl _ _ _ _ _).
  all: try (vm_compute; reflexivity).
  discriminate.
Defined.

Lemma pr_empty_step_b_raises_witness :
  wrf2gfs_params (dtype := Sample.float64) Sample.fs
    "wrfout_d01_2023-12-25_06" "pr" (mk_kwargs None (Some EmptyString)) []
  = ([], Raise (UnboundLocalError "ds")).
Proof.
  exact (pr_empty_step_b_raises (dtype := Sample.float64) Sample.fs
           "wrfout_d01_2023-12-25_06" "pr" (mk_kwargs None (Some EmptyString))
           [] [] sample_locals_06
           (sample_prologue_06 (mk_kwargs None (Some EmptyString)) eq_refl)
           eq_refl eq_refl).
Defined.

Lemma cloud_is_column_maximum_witness :
  exists d,
    wrf2gfs_params (dtype := Sample.float64) More.fs
      "wrfout_d01_2023-12-25_06" "cldfra" Sample.no_kwargs []
    = ([], Ok (surface_Dataset More.locals_06 "cloud" 2 3 d attrs_cl))
    /\ length d = 6%nat
    /\ forall i j, (i < 2)%nat -> (j < 3)%nat ->
         exists (column : list float) (r : float),
           d !! (i * 3 + j)%nat = Some r
           /\ length column = 3%nat
           /\ (forall lev, (lev < 3)%nat ->
                  column !! lev
                  = np.data (values More.CLDFRA) !! cell_index 2 3 lev i j)
           /\ is_maximum_of column r.
Proof.
  refine (proj2 (cloud_is_column_maximum Sample.float64 More.fs
                   "wrfout_d01_2023-12-25_06" "cldfra" Sample.no_kwargs [] []
                   More.locals_06 More.CLDFRA 3 2 3
                   (fun _ => eq_refl)
                   more_prologue_06 eq_refl _ eq_refl eq_refl eq_refl
                   _ _ eq_refl eq_refl) _).
  - vm_compute. reflexivity.
  - discriminate.
  - discriminate.
  - lia.
Defined.

Lemma returned_dataset_has_one_field_witness :
  exists l out1,
    prologue More.fs "wrfout_d01_2023-12-25_06" Sample.no_kwargs []
    = (out1, Ok l)
    /\ ((upper "u10" = "PR" /\ step_b Sample.no_kwargs = None
         /\ height_Dataset More.locals_06 "Uwind" 2 3 (repeat 3%float 6) attrs_u
            = empty_Dataset
         /\ [] = out1 ++ step_b_diagnostic)
        \/ (exists (lay : layout) (name : string) (a : attrs),
              output_field (upper "u10") = Some (lay, name, a)
              /\ one_field l lay name a
                   (height_Dataset More.locals_06 "Uwind" 2 3
                      (repeat 3%float 6) attrs_u)
              /\ [] = out1)).
Proof.
  refine (returned_dataset_has_one_field (dtype := Sample.float64) More.fs
            "wrfout_d01_2023-12-25_06" "u10" Sample.no_kwargs [] []
            (height_Dataset More.locals_06 "Uwind" 2 3 (repeat 3%float 6) attrs_u)
            _).
  vm_compute. reflexivity.
Defined.

Example cloud_of_sample_ex :
  wrf2gfs_params (dtype := Sample.float64) More.fs
    "wrfout_d01_2023-12-25_06" "cldfra" Sample.no_kwargs []
  = ([], Ok (surface_Dataset More.locals_06 "cloud" 2 3
               [0.5; 0.3; nan; 0.5; 0.5; 0.9]%float attrs_cl)).
Proof. vm_compute. reflexivity. Qed.

(** ** Further properties: failures before the dispatch, and what a key reads *)

Section before_dispatch.

Context {F : Type} {dtype : DType F}.

Lemma prologue_frame (fs fs' : gmap string (SourceDataset F))
    (namefile : string) (kw kw' : kwargs) :
  fs !! namefile = fs' !! namefile ->
  yearsince kw = yearsince kw' ->
  prologue fs namefile kw = prologue fs' namefile kw'.
Proof.
  intros Hfs Hy. unfold prologue, open_dataset, resolve_yearsice.
  now rewrite Hfs, Hy.
Qed.

Lemma dispatch_frame (fs fs' : gmap string (SourceDataset F))
    (kw kw' : kwargs) l (var : string) :
  var <> "PR" -> dispatch fs kw l var = dispatch fs' kw' l var.
Proof.
  intros Hne. unfold dispatch.
  repeat match goal with
         | |- context [String.eqb var ?k] =>
             destruct (String.eqb_spec var k) as [->|_];
             [try reflexivity; try contradiction|]
         end.
  reflexivity.
Qed.

(** X17. A path that names no file raises [FileNotFoundError] for that
    path, whatever the key and the keyword arguments are, and before
    anything is printed: an unsupported key is not noticed then. *)
Theorem missing_file_raises fs (namefile varname : string) kw
    (out : stdout) :
  fs !! namefile = None ->
  wrf2gfs_params fs namefile varname kw out
  = (out, Raise (FileNotFoundError namefile)).
Proof.
  intros Hfs. unfold wrf2gfs_params, prologue, open_dataset, bind, lift.
  now rewrite Hfs.
Qed.

(** X18. A reference year from 0 to 99 raises [ValueError] whatever the
    key: [str(yearsice)+'0101 00'] has too few digits for ['%Y%m%d %H'].
    This includes [yearsince=0], which is not announced and not replaced
    by the year of the start date either; a year from 1 to 99 is
    announced first. *)
Theorem reference_year_below_100_raises fs (namefile varname : string) kw
    (out : stdout) (ncf : SourceDataset F) (a : string)
    (times : list string) (attr : string) (b start : datetime.t) :
  fs !! namefile = Some ncf ->
  Times ncf = Some (a :: times) ->
  strptime.strptime a format_valid_time = Some b ->
  START_DATE ncf = Some attr ->
  strptime.strptime attr format_start_date = Some start ->
  0 <= reference_year kw start < 100 ->
  wrf2gfs_params fs namefile varname kw out
  = (out ++ yearsince_notice kw, Raise ValueError).
Proof.
  intros Hfs Ht Hb Ha Hs Hy.
  assert (Hd : date_sice (reference_year kw start) = None).
  { rewrite date_sice_epoch by lia. unfold epoch_of_year.
    destruct (Z.ltb_spec (reference_year kw start) 100); [reflexivity|lia]. }
  unfold format_valid_time in Hb. unfold format_start_date in Hs.
  unfold wrf2gfs_params, prologue, open_dataset, bind, lift, ret, raise.
  rewrite Hfs. cbv beta iota. rewrite Ht. cbv beta iota.
  cbn [head hd_error]. cbv beta iota.
  rewrite Hb. cbv beta iota. rewrite Ha. cbv beta iota.
  rewrite Hs. cbv beta iota. rewrite resolve_yearsice_run. cbv beta iota.
  now rewrite Hd.
Qed.

(** X19. Only the key PR looks at [step_b] or opens a second file: for
    every other key, supported or not, the outcome (the dataset or the
    exception, and what is printed) is settled by the file at [namefile]
    and by [yearsince] alone. *)
Theorem only_pr_reads_step_b (fs fs' : gmap string (SourceDataset F))
    (namefile varname : string) (kw kw' : kwargs) (out : stdout) :
  fs !! namefile = fs' !! namefile ->
  yearsince kw = yearsince kw' ->
  upper varname <> "PR" ->
  wrf2gfs_params fs namefile varname kw out
  = wrf2gfs_params fs' namefile varname kw' out.
Proof.
  intros Hfs Hy Hne. unfold wrf2gfs_params.
  rewrite (prologue_frame fs fs' namefile kw kw' Hfs Hy).
  unfold bind.
  destruct (prologue fs' namefile kw' out) as [out1 [l|e]]; [|reflexivity].
  now rewrite (dispatch_frame fs fs' kw kw' l _ Hne).
Qed.

End before_dispatch.

Lemma missing_file_raises_witness :
  wrf2gfs_params (dtype := Sample.float64) Sample.fs
    "wrfout_d01_2023-12-25_07" "temperature" Sample.no_kwargs []
  = ([], Raise (FileNotFoundError "wrfout_d01_2023-12-25_07")).
Proof.
  refine (missing_file_raises (dtype := Sample.float64) Sample.fs
            "wrfout_d01_2023-12-25_07" "temperature" Sample.no_kwargs [] _).
  vm_compute. reflexivity.
Defined.

Lemma reference_year_below_100_raises_witness :
  wrf2gfs_params (dtype := Sample.float64) More.fs
    "wrfout_d01_2023-12-25_06" "u10" (mk_kwargs (Some 0) None) []
  = ([], Raise ValueError)
  /\ wrf2gfs_params (dtype := Sample.float64) More.fs
       "wrfout_d01_2023-12-25_06" "u10" (mk_kwargs (Some 99) None) []
     = ([EmptyString;
         "* Times units variable was set by user  -> yearsince:99";
         EmptyString], Raise ValueError).
Proof.
  split.
  - refine (reference_year_below_100_raises (dtype := Sample.float64) More.fs
              "wrfout_d01_2023-12-25_06" "u10" (mk_kwargs (Some 0) None) []
              More.wrfout "2023-12-25_06:00:00" [] Sample.start
              (datetime.mk 2023 12 25 6 0 0) (datetime.mk 2023 12 25 0 0 0)
              _ eq_refl _ eq_refl _ _).
    all: try (vm_compute; reflexivity).
    unfold reference_year. simpl. lia.
  - refine (reference_year_below_100_raises (dtype := Sample.float64) More.fs
              "wrfout_d01_2023-12-25_06" "u10" (mk_kwargs (Some 99) None) []
              More.wrfout "2023-12-25_06:00:00" [] Sample.start
              (datetime.mk 2023 12 25 6 0 0) (datetime.mk 2023 12 25 0 0 0)
              _ eq_refl _ eq_refl _ _).
    all: try (vm_compute; reflexivity).
    unfold reference_year. simpl. lia.
Defined.

Lemma only_pr_reads_step_b_witness :
  wrf2gfs_params (dtype := Sample.float64) Sample.fs
    "wrfout_d01_2023-12-25_06" "t2" Sample.no_kwargs []
  = wrf2gfs_params (dtype := Sample.float64)
      (delete "wrfout_d01_2023-12-25_05" Sample.fs)
      "wrfout_d01_2023-12-25_06" "t2"
      (mk_kwargs None (Some "no_such_file")) [].
Proof.
  refine (only_pr_reads_step_b (dtype := Sample.float64) Sample.fs
            (delete "wrfout_d01_2023-12-25_05" Sample.fs)
            "wrfout_d01_2023-12-25_06" "t2" Sample.no_kwargs
            (mk_kwargs None (Some "no_such_file")) [] _ eq_refl _).
  - vm_compute. reflexivity.
  - vm_compute. discriminate.
Defined.

(** ** Further properties: a field that is not one grid *)

Section field_rank.

Context {F : Type} {dtype : DType F}.
Implicit Types (fs : gmap string (SourceDataset F)) (l : @locals F).

Lemma dataset_surface_rank l (name : string) (ncvar : np.ndarray F)
    (a : attrs) (out : stdout) :
  ((np.ndim ncvar < 2)%nat ->
   dataset_surface l name ncvar a out = (out, Raise IndexError))
  /\ ((2 < np.ndim ncvar)%nat ->
      dataset_surface l name ncvar a out = (out, Raise ValueError)).
Proof.
  unfold dataset_surface, bind, of_result, np.newaxis_2. split; intros H.
  - destruct (Nat.ltb_spec (np.ndim ncvar) 2); [reflexivity|lia].
  - destruct (Nat.ltb_spec (np.ndim ncvar) 2); [lia|].
    unfold xr_Dataset. cbn [app List.map forallb snd].
    unfold dims_match at 1. cbn [v_dims v_data data_shape np.shape length].
    unfold np.ndim in H.
    destruct (Nat.eqb_spec 3 (S (length (np.shape ncvar)))); [lia|].
    reflexivity.
Qed.

Lemma dataset_height_rank l (name : string) (ncvar : np.ndarray F)
    (a : attrs) (out : stdout) :
  ((np.ndim ncvar < 2)%nat ->
   dataset_height l name ncvar a out = (out, Raise IndexError))
  /\ ((2 < np.ndim ncvar)%nat ->
      dataset_height l name ncvar a out = (out, Raise ValueError)).
Proof.
  unfold dataset_height, bind, of_result, np.newaxis_newaxis_2.
  split; intros H.
  - destruct (Nat.ltb_spec (np.ndim ncvar) 2); [reflexivity|lia].
  - destruct (Nat.ltb_spec (np.ndim ncvar) 2); [lia|].
    unfold xr_Dataset. cbn [app List.map forallb snd].
    unfold dims_match at 1. cbn [v_dims v_data data_shape np.shape length].
    unfold np.ndim in H.
    destruct (Nat.eqb_spec 4 (S (S (length (np.shape ncvar))))); [lia|].
    reflexivity.
Qed.

Lemma squeeze_none (a : np.ndarray F) :
  np.ndim a = 0%nat -> np.ndim (np.squeeze a) = 0%nat.
Proof.
  unfold np.ndim, np.squeeze. destruct (np.shape a); [reflexivity|discriminate].
Qed.

Ltac rank_case Hg E v build :=
  unfold bind, of_result; rewrite Hg;
  destruct (Nat.eqb_spec (np.ndim (values v)) 0) as [E|_];
  [split; [reflexivity|intros H; apply squeeze_none in E; lia]
  |cbv beta iota; split; intros H;
   [rewrite (proj1 build) by exact H|rewrite (proj2 build) by exact H];
   reflexivity].

(** X20. A field a copying arm reads (U10, V10, T2, PSFC, GLW, SWDOWN)
    must be one grid once [squeeze] has dropped its axes of length one.
    With fewer than two axes left (a grid of a single row or column, or
    a scalar) indexing it with [np.newaxis,:,:] raises [IndexError];
    with more than two (several times in the file) [xr.Dataset] raises
    [ValueError], the data having more axes than dimension names. *)
Theorem field_rank_errors fs (namefile varname : string) kw
    (out out1 : stdout) l (f : string) (v : DataArray F) :
  prologue fs namefile kw out = (out1, Ok l) ->
  source_field (upper varname) = Some f ->
  variables (nc l) !! f = Some v ->
  ((np.ndim (np.squeeze (values v)) < 2)%nat ->
   wrf2gfs_params fs namefile varname kw out = (out1, Raise IndexError))
  /\ ((2 < np.ndim (np.squeeze (values v)))%nat ->
      wrf2gfs_params fs namefile varname kw out = (out1, Raise ValueError)).
Proof.
  intros Hp Hf Hv.
  rewrite (wrf2gfs_params_dispatch _ _ _ _ _ _ _ Hp).
  assert (Hg : getitem_squeezed (nc l) f
               = if (np.ndim (values v) =? 0)%nat then Raise IndexError
                 else Ok (np.squeeze (values v)))
    by (unfold getitem_squeezed; now rewrite Hv).
  apply source_field_cases in Hf
    as [[-> ->]|[[-> ->]|[[-> ->]|[[-> ->]|[[-> ->]|[-> ->]]]]]].
  - rewrite dispatch_U10.
    rank_case Hg E v (dataset_height_rank l "Uwind" (np.squeeze (values v))
                      attrs_u out1).
  - rewrite dispatch_V10.
    rank_case Hg E v (dataset_height_rank l "Vwind" (np.squeeze (values v))
                      attrs_v out1).
  - rewrite dispatch_T2.
    rank_case Hg E v (dataset_surface_rank l "Tair"
                      (np.map (fun x => fsub x (of_pyfloat 273.15))
                              (np.squeeze (values v)))
                      attrs_t2 out1).
  - rewrite dispatch_PS.
    rank_case Hg E v (dataset_surface_rank l "Pair"
                      (np.map (fun x => fdiv x (of_pyfloat 100))
                              (np.squeeze (values v)))
                      attrs_ps out1).
  - rewrite dispatch_LW.
    rank_case Hg E v (dataset_surface_rank l "lwrad_down"
                      (np.squeeze (values v)) attrs_lw out1).
  - rewrite dispatch_SW.
    rank_case Hg E v (dataset_surface_rank l "swrad"
                      (np.squeeze (values v)) attrs_sw out1).
Qed.

End field_rank.

Lemma more_prologue_odd :
  prologue More.fs_odd "wrfout_d01_2023-12-25_06" Sample.no_kwargs []
  = ([], Ok More.locals_odd).
Proof. vm_compute. reflexivity. Qed.

Lemma field_rank_errors_witness :
  wrf2gfs_params (dtype := Sample.float64) More.fs_odd
    "wrfout_d01_2023-12-25_06" "u10" Sample.no_kwargs []
  = ([], Raise IndexError)
  /\ wrf2gfs_params (dtype := Sample.float64) More.fs_odd
       "wrfout_d01_2023-12-25_06" "t2" Sample.no_kwargs []
     = ([], Raise ValueError).
Proof.
  split.
  - refine (proj1 (field_rank_errors (dtype := Sample.float64) More.fs_odd
                     "wrfout_d01_2023-12-25_06" "u10" Sample.no_kwargs [] []
                     More.locals_odd "U10"
                     (mk_DataArray Sample.dims3
                        (np.mk [1; 1; 3]%nat (repeat 3%float 3)))
                     more_prologue_odd eq_refl _) _).
    + vm_compute. reflexivity.
    + vm_compute. lia.
  - refine (proj2 (field_rank_errors (dtype := Sample.float64) More.fs_odd
                     "wrfout_d01_2023-12-25_06" "t2" Sample.no_kwargs [] []
                     More.locals_odd "T2"
                     (mk_DataArray Sample.dims3
                        (np.mk [2; 2; 3]%nat (repeat 300%float 12)))
                     more_prologue_odd eq_refl _) _).
    + vm_compute. reflexivity.
    + vm_compute. lia.
Defined.
